(** * Social-media post engagement dashboard: the data pipeline of [app.py]

    A shallow embedding of the loader ([load_data]), of the sidebar filter
    block and of the aggregation views of the dashboard script, together with
    the properties its specification states about them.

    Conventions of the embedding.
    - A pandas [DataFrame] is its column index, its rows (each with its index
      label and its cells by column name) and the dtypes that matter to the
      program: the categorical ones and [datetime64[ns]].
    - Integer columns are [int64]: every arithmetic result is reduced to the
      signed 64-bit range ([wrap64]).
    - Floating-point cells are outside the model: a numeric cell of the
      table read is an integer.
    - What pandas leaves open to the program is an interface ([Pandas]): the
      conversions [pd.to_numeric] and [pd.to_datetime], which act on a whole
      column (the dtype and the date format are chosen once for the column),
      and the order in which an unstable sort leaves equal keys.  Every
      general theorem holds for all of its implementations.
    - Streamlit's [st.error] / [st.warning] calls are collected, in order, as
      a list of diagnostics. *)

From Stdlib Require Import ZArith List String Ascii Bool Lia.
From Stdlib Require Import Permutation Sorted DecimalString.
Import ListNotations.

Local Open Scope string_scope.
Local Open Scope Z_scope.
Local Open Scope list_scope.

(* ================================================================== *)
(** ** Python string methods used on column names *)
(* ================================================================== *)

(** Characters are 8-bit: a character stands for the code point of the same
    number. *)

(** [str.isspace] on one character: TAB..CR, FS..US, space, NEL, NBSP. *)
Definition isspace (c : ascii) : bool :=
  let n := Z.of_nat (nat_of_ascii c) in
  ((9 <=? n) && (n <=? 13)) || ((28 <=? n) && (n <=? 32))
  || (n =? 133) || (n =? 160).

(** [str.lower] on one character: A..Z and the upper-case letters of the
    Latin-1 block (all of 192..222 except the multiplication sign 215). *)
Definition lower_char (c : ascii) : ascii :=
  let n := Z.of_nat (nat_of_ascii c) in
  if ((65 <=? n) && (n <=? 90))
     || ((192 <=? n) && (n <=? 222) && negb (n =? 215))
  then ascii_of_nat (nat_of_ascii c + 32)
  else c.

Fixpoint lstrip_chars (l : list ascii) : list ascii :=
  match l with
  | [] => []
  | c :: l' => if isspace c then lstrip_chars l' else l
  end.

Definition rstrip_chars (l : list ascii) : list ascii :=
  rev (lstrip_chars (rev l)).

(** [s.strip()] *)
Definition strip (s : string) : string :=
  string_of_list_ascii (rstrip_chars (lstrip_chars (list_ascii_of_string s))).

(** [s.replace(old, new)] for a one-character [old]; [new] is any string
    (the empty string deletes the character). *)
Fixpoint replace (old : ascii) (new : string) (s : string) : string :=
  match s with
  | EmptyString => EmptyString
  | String c s' =>
      if Ascii.eqb c old then String.append new (replace old new s')
      else String c (replace old new s')
  end.

(** [s.lower()] *)
Fixpoint lower (s : string) : string :=
  match s with
  | EmptyString => EmptyString
  | String c s' => String (lower_char c) (lower s')
  end.

(** Line 23: [col.strip().replace(' ', '_').replace('.', '').lower()]. *)
Definition normalize_name (col : string) : string :=
  lower (replace "."%char "" (replace " "%char "_" (strip col))).

(** The transform the comment of line 22 announces: spaces and dots both
    become an underscore. *)
Definition documented_name (col : string) : string :=
  lower (replace "."%char "_" (replace " "%char "_" (strip col))).

(* ================================================================== *)
(** ** Cells, rows and frames *)
(* ================================================================== *)

(** A cell of a frame.  [VNull] stands for every missing marker of pandas
    ([NaN], [NaT], [None]): the program only ever asks whether a cell is
    missing. *)
Inductive value : Type :=
| VStr (s : string)      (* object dtype: text *)
| VInt (z : Z)           (* int64 *)
| VTime (t : Z)          (* datetime64[ns]: nanoseconds since 1970-01-01 *)
| VNull.

Definition value_eqb (a b : value) : bool :=
  match a, b with
  | VStr s, VStr s' => String.eqb s s'
  | VInt z, VInt z' => Z.eqb z z'
  | VTime t, VTime t' => Z.eqb t t'
  | VNull, VNull => true   (* [isin] matches a missing cell with a missing one *)
  | _, _ => false
  end.

Definition isna (v : value) : bool :=
  match v with VNull => true | _ => false end.

Record row : Type := mkRow
  { label : nat;                        (* index label *)
    cells : list (string * value) }.    (* cells by column name *)

Record DataFrame : Type := mkFrame
  { columns : list string;
    rows : list row;
    categories : list (string * list string);   (* categorical dtypes *)
    datetime64 : list string }.   (* the columns of dtype datetime64[ns] *)

(** [pd.DataFrame()] *)
Definition empty_frame : DataFrame := mkFrame [] [] [] [].

(** [df.empty]: an axis of length zero. *)
Definition empty (df : DataFrame) : bool :=
  match columns df, rows df with
  | [], _ => true
  | _, [] => true
  | _, _ => false
  end.

(** [c in df.columns] *)
Definition has_column (c : string) (df : DataFrame) : bool :=
  existsb (String.eqb c) (columns df).

(** [df[c]] is a [DataFrame], not a [Series], when the name occurs twice. *)
Definition duplicated (c : string) (df : DataFrame) : bool :=
  (1 <? count_occ string_dec (columns df) c)%nat.

Fixpoint lookup (c : string) (fs : list (string * value)) : option value :=
  match fs with
  | [] => None
  | (k, v) :: fs' => if String.eqb c k then Some v else lookup c fs'
  end.

(** The cell of row [r] in column [c]. *)
Definition field (c : string) (r : row) : value :=
  match lookup c (cells r) with Some v => v | None => VNull end.

Definition has_key (c : string) (fs : list (string * value)) : bool :=
  existsb (fun kv => String.eqb c (fst kv)) fs.

(** Writing one value under a name: every column of that name is
    overwritten; a new column is appended. *)
Definition set_cell (c : string) (v : value) (fs : list (string * value))
  : list (string * value) :=
  if has_key c fs
  then map (fun kv => if String.eqb c (fst kv) then (fst kv, v) else kv) fs
  else fs ++ [(c, v)].

Definition set_field (c : string) (v : value) (r : row) : row :=
  mkRow (label r) (set_cell c v (cells r)).

Definition remove_key {A : Type} (c : string) (l : list (string * A))
  : list (string * A) :=
  filter (fun kv => negb (String.eqb c (fst kv))) l.

Definition remove_name (c : string) (l : list string) : list string :=
  filter (fun k => negb (String.eqb c k)) l.

(** [df[c] = f(row)], element-wise.  The column takes a plain dtype. *)
Definition assign (c : string) (f : row -> value) (df : DataFrame)
  : DataFrame :=
  mkFrame (if has_column c df then columns df else columns df ++ [c])
          (map (fun r => set_field c (f r) r) (rows df))
          (remove_key c (categories df))
          (remove_name c (datetime64 df)).

(** Applying [g] to the cells of one name: each column of that name is
    converted by itself; a row that lacks the cell is read as missing. *)
Definition map_cell (c : string) (g : value -> value)
  (fs : list (string * value)) : list (string * value) :=
  if has_key c fs
  then map (fun kv => if String.eqb c (fst kv) then (fst kv, g (snd kv))
                      else kv) fs
  else fs ++ [(c, g VNull)].

Definition map_field (c : string) (g : value -> value) (r : row) : row :=
  mkRow (label r) (map_cell c g (cells r)).

(** [df[c] = df[c].map(g)] on a column that exists, element-wise: with a
    name that occurs twice, [df[c]] is the frame of these columns and each
    is converted by itself.  The columns take a plain dtype. *)
Definition transform (c : string) (g : value -> value) (df : DataFrame)
  : DataFrame :=
  mkFrame (columns df)
          (map (map_field c g) (rows df))
          (remove_key c (categories df))
          (remove_name c (datetime64 df)).

(** The dtype of column [c] is declared [datetime64[ns]], or not. *)
Definition set_datetime64 (c : string) (ns : bool) (df : DataFrame)
  : DataFrame :=
  mkFrame (columns df) (rows df) (categories df)
          (if ns then c :: remove_name c (datetime64 df)
           else remove_name c (datetime64 df)).

(** [df.columns = [f(col) for col in df.columns]] *)
Definition rename (f : string -> string) (df : DataFrame) : DataFrame :=
  mkFrame (map f (columns df))
          (map (fun r => mkRow (label r)
                           (map (fun kv => (f (fst kv), snd kv)) (cells r)))
               (rows df))
          (map (fun kc => (f (fst kc), snd kc)) (categories df))
          (map f (datetime64 df)).

(** [df[mask]]: the rows for which [keep] holds, in order, labels kept. *)
Definition select (keep : row -> bool) (df : DataFrame) : DataFrame :=
  mkFrame (columns df) (filter keep (rows df)) (categories df)
          (datetime64 df).

(** [df.dropna(subset=[c])] *)
Definition dropna (c : string) (df : DataFrame) : DataFrame :=
  select (fun r => negb (isna (field c r))) df.

(** [df[c] = pd.Categorical(df[c], categories=cats, ordered=True)]: a value
    that is not a category becomes missing. *)
Definition as_categorical (c : string) (cats : list string) (df : DataFrame)
  : DataFrame :=
  let df' :=
    assign c (fun r => match field c r with
                       | VStr s => if existsb (String.eqb s) cats
                                   then VStr s else VNull
                       | _ => VNull
                       end) df in
  mkFrame (columns df') (rows df') ((c, cats) :: categories df')
          (datetime64 df').

Fixpoint assoc {A : Type} (c : string) (l : list (string * A)) : option A :=
  match l with
  | [] => None
  | (k, a) :: l' => if String.eqb c k then Some a else assoc c l'
  end.

(** The table [pd.read_csv] hands over: a header and the cells of each
    line. *)
Record csv : Type := mkCsv
  { header : list string;
    body : list (list value) }.

(** [pd.read_csv]: a [RangeIndex] labels the rows 0, 1, 2, ...; no column
    is read as a date or as a category. *)
Definition read_csv (f : csv) : DataFrame :=
  mkFrame (header f)
          (map (fun ic => mkRow (fst ic) (combine (header f) (snd ic)))
               (combine (seq 0 (List.length (body f))) (body f)))
          [] [].

(* ================================================================== *)
(** ** 64-bit integers and timestamps *)
(* ================================================================== *)

(** Reduction to the signed 64-bit range. *)
Definition wrap64 (z : Z) : Z :=
  (z + 2 ^ 63) mod 2 ^ 64 - 2 ^ 63.

Definition int64 (z : Z) : Prop := - 2 ^ 63 <= z < 2 ^ 63.

(** [a + b] on cells of integer columns; a missing operand gives a missing
    result. *)
Definition add (a b : value) : value :=
  match a, b with
  | VInt x, VInt y => VInt (wrap64 (x + y))
  | _, _ => VNull
  end.

Definition ns_per_day : Z := 86400000000000.

(** [.dt.date] / [.date()]: the calendar day, in days since 1970-01-01;
    the time of day is discarded. *)
Definition date_of (t : Z) : Z := t / ns_per_day.

(** [.dt.dayofweek]: Monday is 0 and Sunday 6 (1970-01-01 was a Thursday). *)
Definition dayofweek (t : Z) : Z := (date_of t + 3) mod 7.

Definition day_order : list string :=
  ["Monday"; "Tuesday"; "Wednesday"; "Thursday"; "Friday"; "Saturday";
   "Sunday"].

(** [.dt.day_name()] *)
Definition day_name (t : Z) : string :=
  nth (Z.to_nat (dayofweek t)) day_order "".

(* ================================================================== *)
(** ** The pandas conversions *)
(* ================================================================== *)

(** What [pd.to_numeric(..., errors='coerce')] holds for a cell, as far as
    the cast of line 53 reads it. *)
Inductive numeric : Type :=
| NaN              (* not a number: the cell was coerced *)
| Infinite         (* [inf] or [-inf] *)
| Finite (z : Z).  (* a finite number: [z] is the int64 [astype(int)] makes
                      of it (a fraction is cut off) *)

(** What pandas leaves open.  The conversions are applied to a column: what
    becomes of a cell depends on the column it stands in, which is the
    first argument (its cells, top to bottom). *)
Class Pandas : Type :=
  { (** [pd.to_numeric(col, errors='coerce')], at one cell of [col] *)
    to_numeric : list value -> value -> numeric;
    to_numeric_int64 :
      forall col v z, to_numeric col v = Finite z -> int64 z;
    (** [pd.to_datetime(col, errors='coerce')], at one cell of [col], in
        nanoseconds since 1970-01-01; [None] is [NaT], whose place among
        the 64-bit integers no timestamp takes *)
    to_datetime : list value -> value -> option Z;
    to_datetime_range :
      forall col v t, to_datetime col v = Some t -> - 2 ^ 63 < t < 2 ^ 63;
    (** whether the column [pd.to_datetime] returns for [col] has the dtype
        [datetime64[ns]]: not so with a time zone, or another unit *)
    datetime64_ns : list value -> bool;
    (** [str] of a timestamp *)
    format_datetime : Z -> string;
    (** the sort of [Series.sort_values] (quicksort) is not stable: whether,
        sorting the rows [l], it leaves [a] behind [b] when [a] precedes [b]
        in [l] and their keys are equal *)
    argsort_tie : list row -> row -> row -> bool }.

Section Conversions.
Context {P : Pandas}.

(** A timestamp, or [NaT], as a cell. *)
Definition timestamp (o : option Z) : value :=
  match o with Some t => VTime t | None => VNull end.

(** [.astype(str)] on one cell. *)
Definition astype_str (v : value) : string :=
  match v with
  | VStr s => s
  | VInt z => NilZero.string_of_int (Z.to_int z)
  | VTime t => format_datetime t
  | VNull => "nan"
  end.

(** [.fillna(0)] *)
Definition fillna0 (x : numeric) : numeric :=
  match x with NaN => Finite 0 | _ => x end.

(** [.astype(int)] on one number; [None] where the cast raises (a value
    that is not finite cannot be converted to an integer). *)
Definition astype_int (x : numeric) : option Z :=
  match x with Finite z => Some z | _ => None end.

End Conversions.

(* ================================================================== *)
(** ** Diagnostics and exceptions *)
(* ================================================================== *)

Inductive exn : Type :=
| NotASeries (col : string)       (* a DataFrame where a Series is required *)
| IntCastingNaN (col : string).   (* [astype(int)] on a value not finite *)

Inductive message : Type :=
| ColumnNotFound (col : string)   (* the message names this column *)
| LoadFailure (e : exn)           (* "Error loading or processing data" *)
| InvalidDates                    (* "Invalid dates found ..." *)
| NoDataForFilters.               (* "No data available for the selected filters" *)

Inductive diagnostic : Type :=
| Error (m : message)      (* st.error *)
| Warning (m : message).   (* st.warning *)

(** A computation that may raise and that shows diagnostics on the way. *)
Definition M (A : Type) : Type := ((exn + A) * list diagnostic)%type.

Definition ret {A : Type} (a : A) : M A := (inr a, []).

Definition bind {A B : Type} (m : M A) (k : A -> M B) : M B :=
  match m with
  | (inl e, ds) => (inl e, ds)
  | (inr a, ds) => let (r, ds') := k a in (r, ds ++ ds')
  end.

Definition raise {A : Type} (e : exn) : M A := (inl e, []).
Definition st_error (m : message) : M unit := (inr tt, [Error m]).
Definition st_warning (m : message) : M unit := (inr tt, [Warning m]).

Notation "x <- m ;; k" := (bind m (fun x => k))
  (at level 61, m at next level, right associativity).
Notation "m ;; k" := (bind m (fun _ => k))
  (at level 61, right associativity).

(** Reading [df[c]] where a [Series] is required. *)
Definition series (c : string) (df : DataFrame) : M unit :=
  if duplicated c df then raise (NotASeries c) else ret tt.

(* ================================================================== *)
(** ** [load_data] *)
(* ================================================================== *)

Section Loader.
Context {P : Pandas}.

(** Lines 23-29: the column names are standardised and [post_id] is
    required.  [None] is the early [return pd.DataFrame()]. *)
Definition normalize (df : DataFrame) : M (option DataFrame) :=
  let df := rename normalize_name df in
  if negb (has_column "post_id" df) then
    st_error (ColumnNotFound "post_id") ;;
    ret None
  else ret (Some df).

(** Lines 33-46.  The conversion of line 34 reads the column as a whole.
    Line 41 is handed a [DataFrame] when the name [day_of_week] occurs
    twice: [pd.Categorical] then reads the column names, none of which is a
    weekday, so that the columns are left missing, with a plain dtype. *)
Definition parse_dates (df : DataFrame) : M DataFrame :=
  if has_column "post_date" df then
    series "post_date" df ;;
    let col := map (field "post_date") (rows df) in
    let df := assign "post_date"
                (fun r => timestamp (to_datetime col (field "post_date" r)))
                df in
    let df := set_datetime64 "post_date" (datetime64_ns col) df in
    let df := dropna "post_date" df in
    let df := assign "day_of_week"
                (fun r => match field "post_date" r with
                          | VTime t => VStr (day_name t)
                          | _ => VNull
                          end) df in
    let df := assign "day_of_week_num"
                (fun r => match field "post_date" r with
                          | VTime t => VInt (dayofweek t)
                          | _ => VNull
                          end) df in
    ret (if duplicated "day_of_week" df
         then assign "day_of_week" (fun _ => VNull) df
         else as_categorical "day_of_week" day_order df)
  else
    st_warning (ColumnNotFound "post_date") ;;
    let df := assign "post_date" (fun _ => VNull) df in
    let df := set_datetime64 "post_date" true df in
    let df := assign "day_of_week" (fun _ => VNull) df in
    ret (assign "day_of_week_num" (fun _ => VNull) df).

Definition engagement_cols : list string := ["likes"; "shares"; "comments"].

(** The chain of line 53 on one cell of the column [s]; [None] where the
    cast raises. *)
Definition cast (s : list value) (v : value) : option Z :=
  astype_int (fillna0 (to_numeric s v)).

Definition castable (s : list value) (v : value) : bool :=
  match cast s v with Some _ => true | None => false end.

(** The cell the chain of line 53 leaves, where it does not raise. *)
Definition cast_cell (s : list value) (v : value) : value :=
  match cast s v with Some z => VInt z | None => VNull end.

(** Lines 52-56: the body of the loop over [engagement_cols].  The cast
    raises as soon as one value of the column is not finite. *)
Definition coerce_metric (col : string) (df : DataFrame) : M DataFrame :=
  if has_column col df then
    series col df ;;
    let s := map (field col) (rows df) in
    if forallb (castable s) s
    then ret (assign col (fun r => cast_cell s (field col r)) df)
    else raise (IntCastingNaN col)
  else
    st_warning (ColumnNotFound col) ;;
    ret (assign col (fun _ => VInt 0) df).

Fixpoint coerce_metrics (cols : list string) (df : DataFrame)
  : M DataFrame :=
  match cols with
  | [] => ret df
  | col :: cols' => df' <- coerce_metric col df ;; coerce_metrics cols' df'
  end.

(** Line 59. *)
Definition total_engagement (df : DataFrame) : DataFrame :=
  assign "total_engagement_per_post"
    (fun r => add (add (field "likes" r) (field "shares" r))
                  (field "comments" r)) df.

(** Lines 62-64. *)
Definition default_content_type (df : DataFrame) : M DataFrame :=
  if negb (has_column "content_type" df) then
    st_warning (ColumnNotFound "content_type") ;;
    ret (assign "content_type" (fun _ => VStr "Unknown") df)
  else ret df.

(** Lines 30-66: everything after the [post_id] gate. *)
Definition coerce (df : DataFrame) : M DataFrame :=
  let df := transform "post_id" (fun v => VStr (astype_str v)) df in
  df <- parse_dates df ;;
  df <- coerce_metrics engagement_cols df ;;
  default_content_type (total_engagement df).

(** The body of the [try]. *)
Definition load_data_try (raw : csv) : M DataFrame :=
  r <- normalize (read_csv raw) ;;
  match r with
  | None => ret empty_frame
  | Some df => coerce df
  end.

(** [load_data]: the frame returned and the diagnostics shown. *)
Definition load_data (raw : csv) : DataFrame * list diagnostic :=
  match load_data_try raw with
  | (inr df, ds) => (df, ds)
  | (inl e, ds) => (empty_frame, ds ++ [Error (LoadFailure e)])
  end.

End Loader.

(* ================================================================== *)
(** ** The sidebar: filter controls and their application *)
(* ================================================================== *)

(** What the user has entered in the three widgets of the sidebar. *)
Record widgets : Type := mkWidgets
  { multiselect : list value;    (* "Filter by Content Type(s)" *)
    checkbox : bool;             (* "Enable Date Filter" *)
    slider : Z * Z }.            (* "Select Date Range", as days *)

(** A Python variable that holds [None], [NaT] or a date. *)
Inductive pydate : Type :=
| PyNone
| NaT
| Date (d : Z).

Definition is_none (d : pydate) : bool :=
  match d with PyNone => true | _ => false end.

(** The variables the date controls leave behind (lines 99-119).
    [date_range_selection] is unbound in the script until the slider is
    drawn, and is not read before. *)
Record date_state : Type := mkDateState
  { date_filter_enabled : bool;
    min_date_data : pydate;
    max_date_data : pydate;
    date_range_selection : Z * Z }.

Definition isin (v : value) (vs : list value) : bool :=
  existsb (value_eqb v) vs.

(** Lines 89-96. *)
Definition selected_post_types (df : DataFrame) (ui : widgets) : list value :=
  if has_column "content_type" df && negb (empty df)
  then multiselect ui
  else [VStr "All"].

(** [df[c].dtype == 'datetime64[ns]'] *)
Definition dtype_datetime (c : string) (df : DataFrame) : bool :=
  existsb (String.eqb c) (datetime64 df).

Definition times (c : string) (df : DataFrame) : list Z :=
  flat_map (fun r => match field c r with VTime t => [t] | _ => [] end)
           (rows df).

(** [df[c].min().date()] and [df[c].max().date()]: missing cells are
    skipped; a column with nothing else gives [NaT]. *)
Definition min_date (c : string) (df : DataFrame) : pydate :=
  match times c df with
  | [] => NaT
  | t :: ts => Date (date_of (fold_left Z.min ts t))
  end.

Definition max_date (c : string) (df : DataFrame) : pydate :=
  match times c df with
  | [] => NaT
  | t :: ts => Date (date_of (fold_left Z.max ts t))
  end.

(** Lines 99-119. *)
Definition date_controls (df : DataFrame) (ui : widgets)
  : date_state * list diagnostic :=
  if has_column "post_date" df
     && negb (match rows df with [] => true | _ => false end)
     && dtype_datetime "post_date" df
  then
    if checkbox ui then
      match min_date "post_date" df, max_date "post_date" df with
      | Date lo, Date hi =>
          (mkDateState true (Date lo) (Date hi) (slider ui), [])
      | lo, hi =>
          (mkDateState false lo hi (0, 0), [Warning InvalidDates])
      end
    else (mkDateState false PyNone PyNone (0, 0), [])
  else (mkDateState false PyNone PyNone (0, 0), []).

(** Lines 124-125. *)
Definition filter_content_type (df : DataFrame) (selected : list value)
  : DataFrame :=
  if has_column "content_type" df && negb (isin (VStr "All") selected)
  then select (fun r => isin (field "content_type" r) selected) df
  else df.

(** The mask of lines 129-130. *)
Definition in_date_range (range : Z * Z) (r : row) : bool :=
  match field "post_date" r with
  | VTime t => (fst range <=? date_of t) && (date_of t <=? snd range)
  | _ => false
  end.

(** Lines 127-131. *)
Definition filter_date (df : DataFrame) (st : date_state) : DataFrame :=
  if date_filter_enabled st && negb (is_none (min_date_data st))
  then select (in_date_range (date_range_selection st)) df
  else df.

(** Lines 122-131: [df_filtered]. *)
Definition apply_filters (df : DataFrame) (selected : list value)
  (st : date_state) : DataFrame :=
  filter_date (filter_content_type df selected) st.

(* ================================================================== *)
(** ** The aggregation views *)
(* ================================================================== *)

(** The integer held in column [c] of row [r]; a missing cell counts for
    nothing in a sum. *)
Definition number (c : string) (r : row) : Z :=
  match field c r with VInt z => z | _ => 0 end.

Definition is_number (c : string) (r : row) : bool :=
  match field c r with VInt _ => true | _ => false end.

(** Stable insertion by decreasing key: [x], which precedes all of [l] in
    the frame, goes in front of the first row that is not above it. *)
Fixpoint insert_desc (key : row -> Z) (x : row) (l : list row) : list row :=
  match l with
  | [] => [x]
  | y :: l' => if key x <? key y then y :: insert_desc key x l'
               else x :: l
  end.

Fixpoint sort_desc (key : row -> Z) (l : list row) : list row :=
  match l with
  | [] => []
  | x :: l' => insert_desc key x (sort_desc key l')
  end.

(** [a] does not rank below [b]. *)
Definition above (key : row -> Z) (a b : row) : Prop := key b <= key a.

(** Insertion by decreasing key where the place of [x] among the rows of
    its key is given by [tie]: [x], which precedes all of [l] in the frame,
    also goes behind a row of its key that [tie] puts in front of it. *)
Fixpoint insert_by (key : row -> Z) (tie : row -> row -> bool) (x : row)
  (l : list row) : list row :=
  match l with
  | [] => [x]
  | y :: l' => if (key x <? key y) || ((key x =? key y) && tie x y)
               then y :: insert_by key tie x l'
               else x :: l
  end.

Fixpoint sort_by (key : row -> Z) (tie : row -> row -> bool) (l : list row)
  : list row :=
  match l with
  | [] => []
  | x :: l' => insert_by key tie x (sort_by key tie l')
  end.

(** [Series.sort_values(ascending=False)] with the default sort, which is
    not stable: by decreasing key, rows of one key in the order the sort
    happens to leave them in. *)
Definition sort_values {P : Pandas} (key : row -> Z) (l : list row)
  : list row :=
  sort_by key (argsort_tie l) l.

(** [df.nlargest(n, c)] with the default [keep='first']: the rows that hold
    a number in [c], by decreasing [c], then the rows that hold none; the
    first [n] of them.  When the frame has more than [n] rows, pandas
    selects the [n] largest and sorts them with a stable sort: the earlier
    row comes first among equals.  When it has [n] rows or fewer, pandas
    returns [sort_values(ascending=False).head(n)] instead. *)
Definition nlargest {P : Pandas} (n : nat) (c : string) (df : DataFrame)
  : DataFrame :=
  let numbers := filter (is_number c) (rows df) in
  let others := filter (fun r => negb (is_number c r)) (rows df) in
  mkFrame (columns df)
          (firstn n ((if (List.length (rows df) <=? n)%nat
                      then sort_values (number c) numbers
                      else sort_desc (number c) numbers)
                     ++ others))
          (categories df)
          (datetime64 df).

(** The scan of [idxmax]: a later row replaces the best one only when it is
    strictly above it. *)
Fixpoint best_from (key : row -> Z) (best : row) (l : list row) : row :=
  match l with
  | [] => best
  | r :: l' => best_from key (if key best <? key r then r else best) l'
  end.

(** [df[c].idxmax()]: the label of the first row that holds the maximum;
    [None] where pandas raises (nothing to take a maximum of). *)
Definition idxmax (c : string) (df : DataFrame) : option nat :=
  match filter (is_number c) (rows df) with
  | [] => None
  | r :: l => Some (label (best_from (number c) r l))
  end.

(** [df.loc[l]] *)
Definition loc (l : nat) (df : DataFrame) : option row :=
  find (fun r => Nat.eqb (label r) l) (rows df).

(** [int64] summation. *)
Definition sum64 (zs : list Z) : Z :=
  fold_left (fun a z => wrap64 (a + z)) zs 0.

(** An order on group keys; keys of different kinds are never grouped
    together by this program. *)
Definition value_leb (a b : value) : bool :=
  match a, b with
  | VInt x, VInt y => x <=? y
  | VTime x, VTime y => x <=? y
  | VStr x, VStr y => String.leb x y
  | VInt _, _ => true
  | VTime _, VStr _ => true
  | _, VNull => true
  | _, _ => false
  end.

Fixpoint insert_key (k : value) (l : list value) : list value :=
  match l with
  | [] => [k]
  | k' :: l' => if value_eqb k k' then l
                else if value_leb k k' then k :: l
                else k' :: insert_key k l'
  end.

(** The distinct keys present in column [c], ascending, missing ones
    dropped. *)
Definition observed_keys (c : string) (df : DataFrame) : list value :=
  fold_right insert_key []
    (filter (fun v => negb (isna v)) (map (field c) (rows df))).

Definition group (key : string) (k : value) (df : DataFrame) : list row :=
  filter (fun r => value_eqb (field key r) k) (rows df).

(** [df.groupby(key, observed=observed)[c].sum().reset_index()].  A
    categorical key has one group per category, in the order of the
    categories, unless only the observed ones are asked for. *)
Definition groupby_sum (observed : bool) (key c : string) (df : DataFrame)
  : list (value * Z) :=
  let keys :=
    match assoc key (categories df) with
    | Some cats =>
        filter (fun k => negb observed
                         || negb (match group key k df with
                                  | [] => true | _ => false end))
               (map VStr cats)
    | None => observed_keys key df
    end in
  map (fun k => (k, sum64 (map (number c) (group key k df)))) keys.

(** The default of [observed] in the pandas releases before 3.0, which the
    call of line 230 relies on. *)
Definition default_observed : bool := false.

(** Line 176. *)
Definition df_top_posts_for_chart {P : Pandas} (df_filtered : DataFrame)
  : DataFrame :=
  nlargest 20 "total_engagement_per_post" df_filtered.

(** Line 230.  [groupby] raises when the key names two columns. *)
Definition engagement_by_day (df_filtered : DataFrame)
  : exn + list (value * Z) :=
  if duplicated "day_of_week" df_filtered
  then inl (NotASeries "day_of_week")
  else inr (groupby_sum default_observed "day_of_week"
              "total_engagement_per_post" df_filtered).

(** Line 287. *)
Definition top_post (df_filtered : DataFrame) : option row :=
  match idxmax "total_engagement_per_post" df_filtered with
  | Some l => loc l df_filtered
  | None => None
  end.

(* ================================================================== *)
(** ** The script *)
(* ================================================================== *)

(** Three of the views of the script, as the script computes each when it
    comes to it; [None] is the "required columns missing" notice shown in
    place of a view. *)
Record views : Type := mkViews
  { top_posts_chart : option DataFrame;
    weekday_chart : option (exn + list (value * Z));
    top_post_card : option row }.

Inductive screen : Type :=
| UploadPrompt            (* line 137 *)
| NoData                  (* line 140 *)
| Analysis (v : views)    (* lines 142-309 *)
| Uncaught (e : exn).     (* the run stops on an exception *)

Definition no_rows (df : DataFrame) : bool :=
  match rows df with [] => true | _ => false end.

Definition render {P : Pandas} (df_filtered : DataFrame) : views :=
  mkViews
    (if has_column "post_id" df_filtered
        && forallb (fun c => has_column c df_filtered)
                   ["likes"; "shares"; "comments"]
     then Some (df_top_posts_for_chart df_filtered) else None)
    (if has_column "day_of_week" df_filtered
        && has_column "total_engagement_per_post" df_filtered
        && negb (no_rows df_filtered)
     then Some (engagement_by_day df_filtered) else None)
    (if has_column "post_id" df_filtered
        && has_column "total_engagement_per_post" df_filtered
        && negb (empty df_filtered)
     then top_post df_filtered else None).

Section Script.
Context {P : Pandas}.

(** One run of the script: what is shown and the diagnostics, in order.
    Line 90 reads [df['content_type'].unique()], which a frame with two
    columns of that name does not have: the run stops there.  The analysis
    stands for its views; the drawing of a figure is not described. *)
Definition dashboard (uploaded_file : option csv) (ui : widgets)
  : screen * list diagnostic :=
  let '(df, ds) := match uploaded_file with
                   | Some f => load_data f
                   | None => (empty_frame, [])
                   end in
  if has_column "content_type" df && negb (empty df)
     && duplicated "content_type" df
  then (Uncaught (NotASeries "content_type"), ds)
  else
    let selected := selected_post_types df ui in
    let '(st, ds') := date_controls df ui in
    let df_filtered := apply_filters df selected st in
    if empty df then (UploadPrompt, ds ++ ds')
    else if empty df_filtered
         then (NoData, ds ++ ds' ++ [Warning NoDataForFilters])
         else (Analysis (render df_filtered), ds ++ ds').

End Script.

(* ================================================================== *)
(** ** A pandas for the worked examples *)
(* ================================================================== *)

(** The part of pandas that the examples exercise: decimal integer
    literals and the text [inf]; dates written [YYYY-MM-DD] or [MM/DD/YYYY],
    in the one format found in the first cell of the column; and a sort
    that leaves rows of equal key in the reverse of their order. *)

Definition digit (c : ascii) : option Z :=
  let n := Z.of_nat (nat_of_ascii c) in
  if (48 <=? n) && (n <=? 57) then Some (n - 48) else None.

Fixpoint digits (acc : Z) (s : string) : option Z :=
  match s with
  | EmptyString => Some acc
  | String c s' => match digit c with
                   | Some d => digits (10 * acc + d) s'
                   | None => None
                   end
  end.

Definition parse_decimal (s : string) : option Z :=
  match s with
  | EmptyString => None
  | String "-" EmptyString => None
  | String "-" s' => option_map Z.opp (digits 0 s')
  | _ => digits 0 s
  end.

Definition leap (y : Z) : bool :=
  ((y mod 4 =? 0) && negb (y mod 100 =? 0)) || (y mod 400 =? 0).

Definition days_in_month (y m : Z) : Z :=
  if m =? 2 then (if leap y then 29 else 28)
  else if (m =? 4) || (m =? 6) || (m =? 9) || (m =? 11) then 30
  else 31.

(** Days from 1970-01-01 to the given day of the proleptic Gregorian
    calendar. *)
Definition days_from_civil (y m d : Z) : Z :=
  let y' := if m <=? 2 then y - 1 else y in
  let era := y' / 400 in
  let yoe := y' - era * 400 in
  let doy := (153 * (if 2 <? m then m - 3 else m + 9) + 2) / 5 + d - 1 in
  let doe := yoe * 365 + yoe / 4 - yoe / 100 + doy in
  era * 146097 + doe - 719468.

Definition parse_iso_date (s : string) : option Z :=
  if negb (Nat.eqb (String.length s) 10) then None else
  match digits 0 (substring 0 4 s), substring 4 1 s,
        digits 0 (substring 5 2 s), substring 7 1 s,
        digits 0 (substring 8 2 s) with
  | Some y, "-", Some m, "-", Some d =>
      if (1 <=? m) && (m <=? 12) && (1 <=? d) && (d <=? days_in_month y m)
      then Some (days_from_civil y m d * ns_per_day)
      else None
  | _, _, _, _, _ => None
  end.

Definition parse_us_date (s : string) : option Z :=
  if negb (Nat.eqb (String.length s) 10) then None else
  match digits 0 (substring 0 2 s), substring 2 1 s,
        digits 0 (substring 3 2 s), substring 5 1 s,
        digits 0 (substring 6 4 s) with
  | Some m, "/", Some d, "/", Some y =>
      if (1 <=? m) && (m <=? 12) && (1 <=? d) && (d <=? days_in_month y m)
      then Some (days_from_civil y m d * ns_per_day)
      else None
  | _, _, _, _, _ => None
  end.

(** The int64 a cast makes of a number: itself, or the least int64 when it
    is out of range. *)
Definition clamp (z : Z) : Z :=
  if (- 2 ^ 63 <=? z) && (z <? 2 ^ 63) then z else - 2 ^ 63.

Definition iso_to_numeric (col : list value) (v : value) : numeric :=
  match v with
  | VInt z => Finite (clamp z)
  | VStr s => if String.eqb s "inf" || String.eqb s "-inf" then Infinite
              else match parse_decimal s with
                   | Some z => Finite (clamp z)
                   | None => NaN
                   end
  | VTime t => Finite (clamp t)
  | VNull => NaN
  end.

(** The formats of a date. *)
Inductive date_format : Type := YearFirst | MonthFirst.

Definition parse_date (f : date_format) (s : string) : option Z :=
  match f with
  | YearFirst => parse_iso_date s
  | MonthFirst => parse_us_date s
  end.

(** The format of the first cell that is not missing; [None] when it is in
    neither format. *)
Definition guess_format (col : list value) : option date_format :=
  match find (fun v => negb (isna v)) col with
  | Some (VStr s) =>
      match parse_iso_date s, parse_us_date s with
      | Some _, _ => Some YearFirst
      | None, Some _ => Some MonthFirst
      | None, None => None
      end
  | _ => None
  end.

(** A timestamp is a 64-bit integer other than the least, which is [NaT]. *)
Definition in_bounds (o : option Z) : option Z :=
  match o with
  | Some t => if (- 2 ^ 63 <? t) && (t <? 2 ^ 63) then Some t else None
  | None => None
  end.

(** A column with a format is read in that format, cell by cell; one
    without is read cell by cell in whichever format fits. *)
Definition iso_to_datetime (col : list value) (v : value) : option Z :=
  in_bounds
    match v with
    | VStr s =>
        match guess_format col with
        | Some f => parse_date f s
        | None => match parse_iso_date s with
                  | Some t => Some t
                  | None => parse_us_date s
                  end
        end
    | VInt z => Some z
    | VTime t => Some t
    | VNull => None
    end.

(** The examples print no timestamp; the nanosecond count stands for its
    text. *)
Definition iso_pandas : Pandas.
Proof.
  refine {| to_numeric := iso_to_numeric;
            to_datetime := iso_to_datetime;
            datetime64_ns := fun _ => true;
            format_datetime := fun t => NilZero.string_of_int (Z.to_int t);
            argsort_tie := fun _ _ _ => true |}.
  - assert (Hc : forall z, int64 (clamp z)).
    { intros z. unfold clamp, int64.
      destruct ((- 2 ^ 63 <=? z) && (z <? 2 ^ 63)) eqn:E.
      - apply andb_true_iff in E as [E1 E2].
        apply Z.leb_le in E1. apply Z.ltb_lt in E2. auto.
      - split; [apply Z.le_refl | reflexivity]. }
    intros col v z. unfold iso_to_numeric.
    destruct v as [s | x | t |]; try discriminate.
    + destruct (String.eqb s "inf" || String.eqb s "-inf"); [discriminate |].
      destruct (parse_decimal s); [| discriminate].
      intros H. inversion H. apply Hc.
    + intros H. inversion H. apply Hc.
    + intros H. inversion H. apply Hc.
  - intros col v t. unfold iso_to_datetime, in_bounds.
    destruct (match v with VNull => None | _ => _ end) as [t' |];
      [| discriminate].
    destruct ((- 2 ^ 63 <? t') && (t' <? 2 ^ 63)) eqn:E; [| discriminate].
    intros H. inversion H; subst.
    apply andb_true_iff in E as [E1 E2].
    apply Z.ltb_lt in E1. apply Z.ltb_lt in E2. auto.
Defined.

(** The two posts of the worked example of the specification. *)
Definition two_posts : csv :=
  mkCsv ["post_id"; "likes"; "shares"; "comments"; "content_type"; "post_date"]
        [ [VInt 1; VInt 10; VInt 2; VInt 1; VStr "Video"; VStr "2024-01-01"];
          [VInt 2; VInt 5; VInt 5; VInt 5; VStr "Image"; VStr "2024-01-02"] ].

(* ================================================================== *)
(** ** The loader, row by row *)
(* ================================================================== *)

(** Every statement of [coerce] acts on a row at a time, once the columns
    a conversion reads are known, so the frame it returns is determined by
    what becomes of each row.  The definitions below spell that out;
    [coerce_rowwise] proves that they agree with [coerce]. *)

Section RowWise.
Context {P : Pandas}.

(** Line 30. *)
Definition id_row (r : row) : row :=
  map_field "post_id" (fun v => VStr (astype_str v)) r.

(** Lines 33-46; [None] is a row dropped by [dropna].  [col] is the column
    of line 34 and [twice] says whether the name [day_of_week] occurs
    twice. *)
Definition dates_row (present : bool) (col : list value) (twice : bool)
  (r : row) : option row :=
  if present then
    let r := set_field "post_date"
               (timestamp (to_datetime col (field "post_date" r))) r in
    if isna (field "post_date" r) then None
    else
      let r := set_field "day_of_week"
                 (match field "post_date" r with
                  | VTime t => VStr (day_name t)
                  | _ => VNull
                  end) r in
      let r := set_field "day_of_week_num"
                 (match field "post_date" r with
                  | VTime t => VInt (dayofweek t)
                  | _ => VNull
                  end) r in
      Some (set_field "day_of_week"
              (if twice then VNull else
                 match field "day_of_week" r with
                 | VStr s => if existsb (String.eqb s) day_order
                             then VStr s else VNull
                 | _ => VNull
                 end) r)
  else
    Some (set_field "day_of_week_num" VNull
            (set_field "day_of_week" VNull
               (set_field "post_date" VNull r))).

(** The column line 34 converts. *)
Definition date_column (df : DataFrame) : list value :=
  map (field "post_date") (rows df).

(** Whether [dropna] keeps the row. *)
Definition dated (df : DataFrame) (r : row) : bool :=
  negb (has_column "post_date" df)
  || negb (isna (timestamp (to_datetime (date_column df)
                              (field "post_date" r)))).

(** The column line 53 converts: the cells of the rows that are left. *)
Definition metric_column (col : string) (df : DataFrame) : list value :=
  map (field col) (filter (dated df) (rows df)).

(** Lines 52-56: the value left in a metric column, from the cell read. *)
Definition coerced (present : bool) (s : list value) (v : value) : value :=
  if present then cast_cell s v else VInt 0.

Definition metric_row (df : DataFrame) (col : string) (r : row) : row :=
  set_field col
    (coerced (has_column col df) (metric_column col df) (field col r)) r.

(** Line 59. *)
Definition total_row (r : row) : row :=
  set_field "total_engagement_per_post"
    (add (add (field "likes" r) (field "shares" r)) (field "comments" r)) r.

(** Lines 62-64. *)
Definition content_type_row (present : bool) (r : row) : row :=
  if present then r else set_field "content_type" (VStr "Unknown") r.

Definition metrics_row (df : DataFrame) (r : row) : row :=
  metric_row df "comments" (metric_row df "shares" (metric_row df "likes" r)).

(** What [coerce] makes of row [r] of the frame [df] it is given, when it
    comes to its end. *)
Definition coerce_row (df : DataFrame) (r : row) : option row :=
  match dates_row (has_column "post_date" df) (date_column df)
          (duplicated "day_of_week" df) (id_row r) with
  | None => None
  | Some r' =>
      Some (content_type_row (has_column "content_type" df)
              (total_row (metrics_row df r')))
  end.

End RowWise.

(** The rows a partial row function keeps, in order. *)
Definition filter_map {A B : Type} (f : A -> option B) (l : list A) : list B :=
  flat_map (fun a => match f a with Some b => [b] | None => [] end) l.

(** The frame after line 23: the table read, its columns renamed. *)
Definition standardize (raw : csv) : DataFrame :=
  rename normalize_name (read_csv raw).

Definition fatal (d : diagnostic) : bool :=
  match d with Error _ => true | Warning _ => false end.

(** The total engagement a row holds. *)
Definition engagement (r : row) : Z := number "total_engagement_per_post" r.

(** The rows line 176 ranks, when each holds a total: sorted one way or the
    other, according to their number. *)
Definition ranked {P : Pandas} (l : list row) : list row :=
  if (List.length l <=? 20)%nat then sort_values engagement l
  else sort_desc engagement l.


(** A frame with a negative [likes]. *)
Definition negative_posts : csv :=
  mkCsv ["post_id"; "likes"; "shares"; "comments"]
        [ [VInt 1; VInt (-5); VInt 2; VInt 1] ].

(** A frame with a date that does not parse between two that do. *)
Definition undated_posts : csv :=
  mkCsv ["post_id"; "likes"; "post_date"]
        [ [VInt 1; VInt 3; VStr "2024-01-01"];
          [VInt 2; VInt 4; VStr "yesterday"];
          [VInt 3; VInt 5; VStr "2024-01-02"] ].

(** A frame whose dates are written in two formats. *)
Definition mixed_posts : csv :=
  mkCsv ["post_id"; "post_date"]
        [ [VInt 1; VStr "01/02/2024"];
          [VInt 2; VStr "2024-01-01"] ].

(** A frame with two columns that standardise to [day_of_week]. *)
Definition twice_weekday_posts : csv :=
  mkCsv ["post_id"; "post_date"; "day_of_week"; "Day of Week"]
        [ [VInt 1; VStr "2024-01-01"; VStr "Mon"; VStr "Monday"] ].

(** A frame with two pairs of posts of equal engagement. *)
Definition tied_posts : csv :=
  mkCsv ["post_id"; "likes"]
        [ [VInt 1; VInt 1]; [VInt 2; VInt 1]; [VInt 3; VInt 5];
          [VInt 4; VInt 5] ].

(** A frame with an infinite metric. *)
Definition infinite_posts : csv :=
  mkCsv ["post_id"; "likes"]
        [ [VInt 1; VStr "3"]; [VInt 2; VStr "inf"] ].

(** The first day of 2024, the lower end of the example's date range. *)
Definition new_year_2024 : Z := days_from_civil 2024 1 1.

(** A frame whose identifier column is spelled with a dot. *)
Definition dotted_posts : csv :=
  mkCsv ["Post.ID"; "Likes"] [ [VInt 1; VInt 10] ].

(* ================================================================== *)
(** ** The other figures of the analysis *)
(* ================================================================== *)

(** [df[c].sum()] on an integer column. *)
Definition column_sum (c : string) (df : DataFrame) : Z :=
  sum64 (map (number c) (rows df)).





(** Insertion of a day into an ascending list of distinct days. *)
Fixpoint insert_day (d : Z) (l : list Z) : list Z :=
  match l with
  | [] => [d]
  | d' :: l' => if d =? d' then l
                else if d <? d' then d :: l
                else d' :: insert_day d l'
  end.

(** The days on which the frame has a post, ascending. *)
Definition days_present (df : DataFrame) : list Z :=
  fold_right insert_day [] (map date_of (times "post_date" df)).

Definition on_day (d : Z) (r : row) : bool :=
  match field "post_date" r with
  | VTime t => date_of t =? d
  | _ => false
  end.

(** Line 216: [groupby(df['post_date'].dt.date)[...].sum().reset_index()],
    one row per day present, in the order of the days; a row without a date
    belongs to no group. *)
Definition df_daily_engagement (df_filtered : DataFrame) : list (Z * Z) :=
  map (fun d => (d, sum64 (map engagement
                             (filter (on_day d) (rows df_filtered)))))
      (days_present df_filtered).

(** Line 249: [groupby('content_type')[['likes', 'shares', 'comments']]
    .sum().reset_index()], column by column. *)
Definition df_type_engagement (df_filtered : DataFrame)
  : list (string * list (value * Z)) :=
  map (fun c => (c, groupby_sum default_observed "content_type" c
                      df_filtered))
      ["likes"; "shares"; "comments"].

(** The columns [load_data] reads or writes. *)
Definition canonical_columns : list string :=
  ["post_id"; "post_date"; "day_of_week"; "day_of_week_num"; "likes";
   "shares"; "comments"; "total_engagement_per_post"; "content_type"].

(** The columns whose absence [load_data] reports with a warning, in the
    order of the reports (lines 43, 55 and 63). *)
Definition optional_columns : list string :=
  ["post_date"; "likes"; "shares"; "comments"; "content_type"].

Definition missing_column_warnings (df : DataFrame) : list diagnostic :=
  map (fun c => Warning (ColumnNotFound c))
      (filter (fun c => negb (has_column c df)) optional_columns).

(** The two conditions of lines 124-131, as predicates on a row. *)
Definition keeps_type (df : DataFrame) (selected : list value) (r : row)
  : bool :=
  negb (has_column "content_type" df) || isin (VStr "All") selected
  || isin (field "content_type" r) selected.

Definition keeps_date (st : date_state) (r : row) : bool :=
  negb (date_filter_enabled st && negb (is_none (min_date_data st)))
  || in_date_range (date_range_selection st) r.

Definition is_time (v : value) : bool :=
  match v with VTime _ => true | _ => false end.

(** The characters of a string. *)
Definition chars (s : string) : list ascii := list_ascii_of_string s.

(** A frame with identifiers only. *)
Definition bare_posts : csv :=
  mkCsv ["Post ID"] [ [VStr "a"]; [VInt 7]; [VNull] ].

(** A frame in which one post has no content type. *)
Definition untyped_posts : csv :=
  mkCsv ["post_id"; "likes"; "content_type"]
        [ [VInt 1; VInt 3; VStr "Video"];
          [VInt 2; VInt 4; VNull];
          [VInt 3; VInt 5; VStr "Image"];
          [VInt 4; VInt 6; VStr "Video"] ].

(* ================================================================== *)
(** * Properties *)
(* ================================================================== *)

(** ** Cells and rows *)

(** Comparisons of column names written out in the program evaluate. *)
Ltac eqb_names :=
  repeat match goal with
         | |- context [String.eqb ?a ?b] =>
             let v := eval vm_compute in (String.eqb a b) in
             match v with
             | true => change (String.eqb a b) with true
             | false => change (String.eqb a b) with false
             end
         end.

Lemma lookup_set_cell (c c' : string) (v : value) (fs : list (string * value)) :
  lookup c' (set_cell c v fs) =
  if String.eqb c c' then Some v else lookup c' fs.
Proof.
  unfold set_cell.
  destruct (has_key c fs) eqn:Hk.
  - induction fs as [| [k x] fs IH]; simpl in *; [discriminate|].
    destruct (String.eqb_spec c k) as [->|Hck].
    + simpl. destruct (String.eqb_spec k c') as [->|Hkc].
      * now rewrite String.eqb_refl.
      * destruct (String.eqb_spec c' k); [congruence | ].
        clear IH Hk. induction fs as [| [k' x'] fs IH]; simpl; auto.
        destruct (String.eqb_spec k k') as [->|]; simpl.
        -- destruct (String.eqb_spec c' k'); [congruence | apply IH].
        -- destruct (String.eqb_spec c' k'); [reflexivity | apply IH].
    + simpl in Hk. specialize (IH Hk).
      simpl. destruct (String.eqb_spec c' k) as [->|Hc'k].
      * destruct (String.eqb_spec c k); [congruence | reflexivity].
      * exact IH.
  - induction fs as [| [k x] fs IH]; simpl in *.
    + rewrite String.eqb_sym. destruct (String.eqb c c'); reflexivity.
    + apply orb_false_iff in Hk as [Hck Hk]. specialize (IH Hk).
      destruct (String.eqb_spec c' k) as [->|Hc'k].
      * rewrite Hck. reflexivity.
      * exact IH.
Qed.

Lemma field_set_field (c c' : string) (v : value) (r : row) :
  field c' (set_field c v r) = if String.eqb c c' then v else field c' r.
Proof.
  unfold field, set_field. simpl. rewrite lookup_set_cell.
  destruct (String.eqb c c'); reflexivity.
Qed.

Lemma label_set_field (c : string) (v : value) (r : row) :
  label (set_field c v r) = label r.
Proof. reflexivity. Qed.

Lemma has_column_In (c : string) (df : DataFrame) :
  has_column c df = true <-> In c (columns df).
Proof.
  unfold has_column. rewrite existsb_exists. split.
  - intros (x & Hx & He). apply String.eqb_eq in He. now subst.
  - intros H. exists c. split; [assumption | apply String.eqb_refl].
Qed.

Lemma has_column_assign (c c' : string) (f : row -> value) (df : DataFrame) :
  has_column c (assign c' f df) = has_column c df || String.eqb c c'.
Proof.
  unfold has_column, assign. simpl.
  fold (has_column c' df). destruct (has_column c' df) eqn:H.
  - destruct (String.eqb_spec c c') as [->|]; [| now rewrite orb_false_r].
    unfold has_column in H. rewrite H. reflexivity.
  - rewrite existsb_app. simpl. now rewrite orb_false_r.
Qed.

Lemma duplicated_assign (c c' : string) (f : row -> value) (df : DataFrame) :
  duplicated c (assign c' f df) = duplicated c df.
Proof.
  unfold duplicated, assign. simpl.
  destruct (has_column c' df) eqn:H; [reflexivity|].
  rewrite count_occ_app. simpl.
  destruct (string_dec c' c) as [->|]; [| now rewrite Nat.add_0_r].
  assert (Hn : ~ In c (columns df)).
  { intros Hin. apply has_column_In in Hin. congruence. }
  apply (count_occ_not_In string_dec) in Hn. rewrite Hn. reflexivity.
Qed.

(** ** The diagnostics monad *)

Lemma bind_inr {A B : Type} (m : M A) (k : A -> M B) (b : B)
  (ds : list diagnostic) :
  bind m k = (inr b, ds) ->
  exists a ds1 ds2, m = (inr a, ds1) /\ k a = (inr b, ds2) /\ ds = ds1 ++ ds2.
Proof.
  unfold bind. destruct m as [[e | a] ds1]; [discriminate|].
  destruct (k a) as [r ds2] eqn:Hk. intros H. inversion H; subst.
  exists a, ds1, ds2. auto.
Qed.

Lemma bind_diagnostics {A B : Type} (Q : diagnostic -> Prop) (m : M A)
  (k : A -> M B) :
  Forall Q (snd m) -> (forall a, Forall Q (snd (k a))) ->
  Forall Q (snd (bind m k)).
Proof.
  intros Hm Hk. unfold bind. destruct m as [[e | a] ds1]; simpl in *; auto.
  specialize (Hk a). destruct (k a) as [r ds2]. simpl in *.
  apply Forall_app. auto.
Qed.

Lemma series_inr (c : string) (df : DataFrame) (u : unit)
  (ds : list diagnostic) :
  series c df = (inr u, ds) -> duplicated c df = false /\ ds = [].
Proof.
  unfold series. destruct (duplicated c df); [discriminate|].
  unfold ret. intros H. inversion H. auto.
Qed.

(** ** [coerce], row by row *)

Lemma map_filter_map {A B C : Type} (g : A -> B) (K : B -> bool) (h : B -> C)
  (l : list A) :
  map h (filter K (map g l)) =
  filter_map (fun a => if K (g a) then Some (h (g a)) else None) l.
Proof.
  unfold filter_map.
  induction l as [| a l IH]; simpl; [reflexivity|].
  destruct (K (g a)); simpl; now rewrite IH.
Qed.

Lemma filter_map_total {A B : Type} (f : A -> B) (l : list A) :
  map f l = filter_map (fun a => Some (f a)) l.
Proof.
  unfold filter_map. induction l; simpl; congruence.
Qed.

Lemma filter_map_ext {A B : Type} (f g : A -> option B) (l : list A) :
  (forall a, f a = g a) -> filter_map f l = filter_map g l.
Proof.
  intros H. unfold filter_map. induction l; simpl; [reflexivity|].
  now rewrite H, IHl.
Qed.

Lemma filter_map_map {A B C : Type} (f : A -> option B) (g : B -> C)
  (l : list A) :
  map g (filter_map f l) = filter_map (fun a => option_map g (f a)) l.
Proof.
  unfold filter_map. induction l as [| a l IH]; simpl; [reflexivity|].
  rewrite map_app, IH. destruct (f a); reflexivity.
Qed.

Lemma filter_map_In {A B : Type} (f : A -> option B) (l : list A) (b : B) :
  In b (filter_map f l) <-> exists a, In a l /\ f a = Some b.
Proof.
  unfold filter_map. rewrite in_flat_map. split.
  - intros (a & Ha & Hb). exists a. split; [assumption|].
    destruct (f a); simpl in Hb; [| contradiction].
    destruct Hb as [-> | []]. reflexivity.
  - intros (a & Ha & Hb). exists a. split; [assumption|].
    rewrite Hb. simpl. auto.
Qed.

Lemma lookup_map_other (c c' : string) (g : value -> value)
  (fs : list (string * value)) :
  String.eqb c c' = false ->
  lookup c' (map (fun kv => if String.eqb c (fst kv) then (fst kv, g (snd kv))
                            else kv) fs) = lookup c' fs.
Proof.
  intros Hne. induction fs as [| [k x] fs IH]; simpl; [reflexivity |].
  destruct (String.eqb_spec c k) as [<- |]; simpl.
  - rewrite (String.eqb_sym c' c), Hne. exact IH.
  - destruct (String.eqb c' k); [reflexivity | exact IH].
Qed.

Lemma lookup_map_cell (c c' : string) (g : value -> value)
  (fs : list (string * value)) :
  lookup c' (map_cell c g fs) =
  if String.eqb c c'
  then Some (g (match lookup c fs with Some v => v | None => VNull end))
  else lookup c' fs.
Proof.
  unfold map_cell.
  destruct (String.eqb_spec c c') as [<- | Hne].
  - destruct (has_key c fs) eqn:Hk.
    + induction fs as [| [k x] fs IH]; simpl in *; [discriminate |].
      destruct (String.eqb_spec c k) as [<- | Hck]; simpl.
      * now rewrite String.eqb_refl.
      * destruct (String.eqb_spec c k); [congruence |]. now apply IH.
    + induction fs as [| [k x] fs IH]; simpl in *.
      * now rewrite String.eqb_refl.
      * apply orb_false_iff in Hk as [Hck Hk]. rewrite Hck. now apply IH.
  - apply String.eqb_neq in Hne.
    destruct (has_key c fs).
    + now apply lookup_map_other.
    + induction fs as [| [k x] fs IH]; simpl.
      * now rewrite (String.eqb_sym c' c), Hne.
      * destruct (String.eqb c' k); [reflexivity | exact IH].
Qed.

Lemma field_map_field (c c' : string) (g : value -> value) (r : row) :
  field c' (map_field c g r) =
  if String.eqb c c' then g (field c r) else field c' r.
Proof.
  unfold field, map_field. simpl. rewrite lookup_map_cell.
  destruct (String.eqb c c'); reflexivity.
Qed.

Lemma rows_assign (c : string) (f : row -> value) (df : DataFrame) :
  rows (assign c f df) = map (fun r => set_field c (f r) r) (rows df).
Proof. reflexivity. Qed.

Lemma categories_assign (c : string) (f : row -> value) (df : DataFrame) :
  categories (assign c f df) = remove_key c (categories df).
Proof. reflexivity. Qed.

Lemma has_column_dropna (c c' : string) (df : DataFrame) :
  has_column c (dropna c' df) = has_column c df.
Proof. reflexivity. Qed.

Lemma duplicated_dropna (c c' : string) (df : DataFrame) :
  duplicated c (dropna c' df) = duplicated c df.
Proof. reflexivity. Qed.

Lemma has_column_set_datetime64 (c c' : string) (b : bool) (df : DataFrame) :
  has_column c (set_datetime64 c' b df) = has_column c df.
Proof. reflexivity. Qed.

Lemma duplicated_set_datetime64 (c c' : string) (b : bool) (df : DataFrame) :
  duplicated c (set_datetime64 c' b df) = duplicated c df.
Proof. reflexivity. Qed.

Lemma has_column_transform (c c' : string) (g : value -> value)
  (df : DataFrame) :
  has_column c (transform c' g df) = has_column c df.
Proof. reflexivity. Qed.

Lemma duplicated_transform (c c' : string) (g : value -> value)
  (df : DataFrame) :
  duplicated c (transform c' g df) = duplicated c df.
Proof. reflexivity. Qed.

Lemma has_column_as_categorical (c c' : string) (cats : list string)
  (df : DataFrame) :
  has_column c (as_categorical c' cats df) = has_column c df || String.eqb c c'.
Proof.
  unfold as_categorical.
  match goal with
  | |- has_column c (mkFrame (columns ?d) _ _ _) = _ =>
      change (has_column c d = has_column c df || String.eqb c c')
  end.
  apply has_column_assign.
Qed.

Lemma duplicated_as_categorical (c c' : string) (cats : list string)
  (df : DataFrame) :
  duplicated c (as_categorical c' cats df) = duplicated c df.
Proof.
  unfold as_categorical.
  match goal with
  | |- duplicated c (mkFrame (columns ?d) _ _ _) = _ =>
      change (duplicated c d = duplicated c df)
  end.
  apply duplicated_assign.
Qed.

(** *** The dtype [datetime64[ns]] *)

Lemma existsb_remove_name (c c' : string) (l : list string) :
  existsb (String.eqb c) (remove_name c' l) =
  negb (String.eqb c' c) && existsb (String.eqb c) l.
Proof.
  unfold remove_name. induction l as [| k l IH]; simpl.
  - now rewrite andb_false_r.
  - destruct (String.eqb_spec c' k) as [<- | Hne]; simpl.
    + rewrite IH. rewrite (String.eqb_sym c c').
      destruct (String.eqb c' c); reflexivity.
    + rewrite IH. destruct (String.eqb_spec c k) as [<- |]; simpl.
      * apply String.eqb_neq in Hne. now rewrite Hne.
      * reflexivity.
Qed.

Lemma dtype_datetime_assign (c c' : string) (f : row -> value)
  (df : DataFrame) :
  dtype_datetime c (assign c' f df) =
  negb (String.eqb c' c) && dtype_datetime c df.
Proof. unfold dtype_datetime, assign. simpl. apply existsb_remove_name. Qed.

Lemma dtype_datetime_set (c c' : string) (b : bool) (df : DataFrame) :
  dtype_datetime c (set_datetime64 c' b df) =
  if String.eqb c' c then b else dtype_datetime c df.
Proof.
  unfold dtype_datetime, set_datetime64. simpl.
  destruct b; simpl; rewrite existsb_remove_name, ?(String.eqb_sym c c');
    destruct (String.eqb c' c); reflexivity.
Qed.

Lemma dtype_datetime_dropna (c c' : string) (df : DataFrame) :
  dtype_datetime c (dropna c' df) = dtype_datetime c df.
Proof. reflexivity. Qed.

Lemma dtype_datetime_as_categorical (c c' : string) (cats : list string)
  (df : DataFrame) :
  dtype_datetime c (as_categorical c' cats df) =
  negb (String.eqb c' c) && dtype_datetime c df.
Proof.
  unfold as_categorical.
  match goal with
  | |- dtype_datetime c (mkFrame _ _ _ (datetime64 ?d)) = _ =>
      change (dtype_datetime c d =
              negb (String.eqb c' c) && dtype_datetime c df)
  end.
  apply dtype_datetime_assign.
Qed.

Lemma map_field_set_other (c c' : string) (f : row -> value) (l : list row) :
  String.eqb c c' = false ->
  map (field c') (map (fun r => set_field c (f r) r) l) = map (field c') l.
Proof.
  intros E. rewrite map_map. apply map_ext. intros r.
  now rewrite field_set_field, E.
Qed.

Section LoaderFacts.
Context {P : Pandas}.

Lemma parse_dates_inr (df df' : DataFrame) (ds : list diagnostic) :
  parse_dates df = (inr df', ds) ->
  rows df' = filter_map (dates_row (has_column "post_date" df)
                           (date_column df) (duplicated "day_of_week" df))
                        (rows df)
  /\ (forall c, has_column c df' =
                has_column c df || String.eqb c "post_date"
                || String.eqb c "day_of_week"
                || String.eqb c "day_of_week_num")
  /\ (forall c, duplicated c df' = duplicated c df)
  /\ (has_column "post_date" df = true ->
      duplicated "day_of_week" df = false ->
      assoc "day_of_week" (categories df') = Some day_order)
  /\ Forall (fun d => fatal d = false) ds
  /\ dtype_datetime "post_date" df' =
     (if has_column "post_date" df then datetime64_ns (date_column df)
      else true).
Proof.
  unfold parse_dates.
  destruct (has_column "post_date" df) eqn:Hpd.
  - intros H.
    apply bind_inr in H as (u & ds1 & ds2 & H1 & H2 & ->).
    apply series_inr in H1 as [_ ->].
    rewrite !duplicated_assign, duplicated_dropna, duplicated_set_datetime64,
      duplicated_assign in H2.
    fold (date_column df) in H2.
    unfold ret in H2. inversion H2; subst; clear H2.
    destruct (duplicated "day_of_week" df) eqn:Hdup.
    + split; [| split; [| split; [| split; [| split]]]].
      * unfold dropna, select, set_datetime64, assign. simpl.
        rewrite !map_map.
        rewrite (map_filter_map _ _ _ (rows df)).
        apply filter_map_ext. intros r. unfold dates_row.
        destruct (isna _); reflexivity.
      * intros c. rewrite !has_column_assign.
        rewrite has_column_dropna, has_column_set_datetime64,
          has_column_assign.
        destruct (has_column c df), (String.eqb c "post_date"),
          (String.eqb c "day_of_week"), (String.eqb c "day_of_week_num");
          reflexivity.
      * intros c. rewrite !duplicated_assign.
        rewrite duplicated_dropna, duplicated_set_datetime64.
        apply duplicated_assign.
      * discriminate.
      * simpl. constructor.
      * rewrite !dtype_datetime_assign, dtype_datetime_dropna,
          dtype_datetime_set. reflexivity.
    + split; [| split; [| split; [| split; [| split]]]].
      * unfold as_categorical, dropna, select, set_datetime64, assign. simpl.
        rewrite !map_map.
        rewrite (map_filter_map _ _ _ (rows df)).
        apply filter_map_ext. intros r. unfold dates_row.
        destruct (isna _); reflexivity.
      * intros c. rewrite has_column_as_categorical, !has_column_assign.
        rewrite has_column_dropna, has_column_set_datetime64,
          has_column_assign.
        destruct (has_column c df), (String.eqb c "post_date"),
          (String.eqb c "day_of_week"), (String.eqb c "day_of_week_num");
          reflexivity.
      * intros c. rewrite duplicated_as_categorical, !duplicated_assign.
        rewrite duplicated_dropna, duplicated_set_datetime64.
        apply duplicated_assign.
      * intros _ _. reflexivity.
      * simpl. constructor.
      * rewrite dtype_datetime_as_categorical, !dtype_datetime_assign,
          dtype_datetime_dropna, dtype_datetime_set. reflexivity.
  - intros H.
    apply bind_inr in H as (u & ds1 & ds2 & H1 & H2 & ->).
    unfold st_warning in H1. inversion H1; subst; clear H1.
    unfold ret in H2. inversion H2; subst; clear H2.
    split; [| split; [| split; [| split; [| split]]]].
    + unfold set_datetime64, assign. simpl. rewrite !map_map.
      rewrite filter_map_total. apply filter_map_ext. reflexivity.
    + intros c. rewrite !has_column_assign, has_column_set_datetime64,
        has_column_assign.
      destruct (has_column c df), (String.eqb c "post_date"),
        (String.eqb c "day_of_week"), (String.eqb c "day_of_week_num");
        reflexivity.
    + intros c. now rewrite !duplicated_assign, duplicated_set_datetime64,
        duplicated_assign.
    + discriminate.
    + simpl. repeat constructor.
    + rewrite !dtype_datetime_assign, dtype_datetime_set. reflexivity.
Qed.

Lemma coerce_metric_inr (col : string) (df df' : DataFrame)
  (ds : list diagnostic) :
  coerce_metric col df = (inr df', ds) ->
  rows df' = map (fun r => set_field col
                             (coerced (has_column col df)
                                (map (field col) (rows df)) (field col r)) r)
                 (rows df)
  /\ (forall c, has_column c df' = has_column c df || String.eqb c col)
  /\ (forall c, duplicated c df' = duplicated c df)
  /\ categories df' = remove_key col (categories df)
  /\ Forall (fun d => fatal d = false) ds
  /\ (has_column col df = true ->
      forallb (castable (map (field col) (rows df)))
              (map (field col) (rows df)) = true)
  /\ (forall c, dtype_datetime c df' =
                negb (String.eqb col c) && dtype_datetime c df).
Proof.
  unfold coerce_metric. destruct (has_column col df) eqn:Hc; intros H.
  - apply bind_inr in H as (u & ds1 & ds2 & H1 & H2 & ->).
    apply series_inr in H1 as [_ ->].
    destruct (forallb _ _) eqn:Hall; [| discriminate].
    unfold ret in H2. inversion H2; subst; clear H2.
    repeat split; try reflexivity.
    + intros c. apply has_column_assign.
    + intros c. apply duplicated_assign.
    + constructor.
    + intros c. apply dtype_datetime_assign.
  - apply bind_inr in H as (u & ds1 & ds2 & H1 & H2 & ->).
    unfold st_warning in H1. inversion H1; subst; clear H1.
    unfold ret in H2. inversion H2; subst; clear H2.
    repeat split; try reflexivity.
    + intros c. apply has_column_assign.
    + intros c. apply duplicated_assign.
    + repeat constructor.
    + discriminate.
    + intros c. apply dtype_datetime_assign.
Qed.

Lemma assoc_remove_key {A : Type} (c c' : string) (l : list (string * A)) :
  String.eqb c' c = false -> assoc c (remove_key c' l) = assoc c l.
Proof.
  intros Hne. induction l as [| [k a] l IH]; simpl; [reflexivity|].
  destruct (String.eqb_spec c' k) as [->|]; simpl.
  - rewrite (String.eqb_sym c k), Hne. exact IH.
  - destruct (String.eqb c k); [reflexivity | exact IH].
Qed.

Lemma filter_map_of_map {A B C : Type} (g : A -> B) (f : B -> option C)
  (l : list A) :
  filter_map f (map g l) = filter_map (fun a => f (g a)) l.
Proof.
  unfold filter_map. induction l; simpl; congruence.
Qed.

Lemma field_id_row (c : string) (r : row) :
  field c (id_row r) =
  if String.eqb "post_id" c then VStr (astype_str (field "post_id" r))
  else field c r.
Proof. unfold id_row. apply field_map_field. Qed.

Lemma date_column_transform (df : DataFrame) :
  date_column (transform "post_id" (fun v => VStr (astype_str v)) df) =
  date_column df.
Proof.
  unfold date_column, transform. simpl. rewrite map_map.
  apply map_ext. intros r. fold (id_row r). now rewrite field_id_row.
Qed.

Lemma dates_row_label (present : bool) (col : list value) (twice : bool)
  (r r' : row) :
  dates_row present col twice r = Some r' -> label r' = label r.
Proof.
  unfold dates_row. destruct present.
  - destruct (isna _); [discriminate|]. intros H. inversion H. reflexivity.
  - intros H. inversion H. reflexivity.
Qed.

Lemma dates_row_other (present : bool) (col : list value) (twice : bool)
  (r r' : row) (c : string) :
  dates_row present col twice r = Some r' ->
  String.eqb "post_date" c = false ->
  String.eqb "day_of_week" c = false ->
  String.eqb "day_of_week_num" c = false ->
  field c r' = field c r.
Proof.
  unfold dates_row. intros H E1 E2 E3. destruct present.
  - destruct (isna _); [discriminate|]. inversion H; subst.
    rewrite !field_set_field, E1, E2, E3. reflexivity.
  - inversion H; subst. rewrite !field_set_field, E1, E2, E3. reflexivity.
Qed.

Lemma day_name_is_a_category (t : Z) :
  existsb (String.eqb (day_name t)) day_order = true.
Proof.
  unfold day_name.
  assert (Hb : 0 <= dayofweek t < 7) by (apply Z.mod_pos_bound; lia).
  assert (Hc : (Z.to_nat (dayofweek t) < 7)%nat) by lia.
  destruct (Z.to_nat (dayofweek t)) as [|[|[|[|[|[|[|n]]]]]]];
    try reflexivity. lia.
Qed.

Lemma dates_row_present (col : list value) (twice : bool) (r : row) :
  dates_row true col twice r =
  match to_datetime col (field "post_date" r) with
  | Some t =>
      Some (set_field "day_of_week"
              (if twice then VNull else VStr (day_name t))
              (set_field "day_of_week_num" (VInt (dayofweek t))
                 (set_field "day_of_week" (VStr (day_name t))
                    (set_field "post_date" (VTime t) r))))
  | None => None
  end.
Proof.
  unfold dates_row. rewrite !field_set_field. eqb_names.
  destruct (to_datetime col (field "post_date" r)) as [t |];
    [| reflexivity].
  cbn [timestamp isna]. rewrite day_name_is_a_category. reflexivity.
Qed.

(** The rows the dates leave. *)
Lemma dates_row_dated (df : DataFrame) (r : row) :
  dated df r =
  match dates_row (has_column "post_date" df) (date_column df)
          (duplicated "day_of_week" df) (id_row r) with
  | Some _ => true
  | None => false
  end.
Proof.
  unfold dated. destruct (has_column "post_date" df); cbn [negb orb].
  - rewrite dates_row_present, field_id_row. eqb_names. cbv iota.
    now destruct (to_datetime _ _).
  - reflexivity.
Qed.

(** The column a later conversion reads holds the cells of the rows the
    dates have left. *)
Lemma kept_column (df : DataFrame) (c : string) :
  String.eqb "post_id" c = false ->
  String.eqb "post_date" c = false ->
  String.eqb "day_of_week" c = false ->
  String.eqb "day_of_week_num" c = false ->
  map (field c)
      (filter_map (fun r => dates_row (has_column "post_date" df)
                              (date_column df) (duplicated "day_of_week" df)
                              (id_row r)) (rows df)) =
  metric_column c df.
Proof.
  intros E0 E1 E2 E3. unfold metric_column, filter_map.
  induction (rows df) as [| r l IH]; simpl; [reflexivity |].
  rewrite (dates_row_dated df r).
  destruct (dates_row _ _ _ (id_row r)) as [r' |] eqn:Hd; simpl.
  - rewrite IH. f_equal.
    rewrite (dates_row_other _ _ _ _ _ c Hd E1 E2 E3).
    now rewrite field_id_row, E0.
  - exact IH.
Qed.

(** [coerce] acts row by row. *)
Lemma coerce_rowwise (df df' : DataFrame) (ds : list diagnostic) :
  coerce df = (inr df', ds) ->
  rows df' = filter_map (coerce_row df) (rows df)
  /\ (has_column "post_date" df = true ->
      duplicated "day_of_week" df = false ->
      assoc "day_of_week" (categories df') = Some day_order)
  /\ (forall c, has_column c df = true -> has_column c df' = true)
  /\ has_column "day_of_week" df' = true
  /\ has_column "total_engagement_per_post" df' = true
  /\ Forall (fun d => fatal d = false) ds
  /\ (forall m, In m engagement_cols -> has_column m df = true ->
        forallb (castable (metric_column m df)) (metric_column m df) = true)
  /\ (forall c, duplicated c df' = duplicated c df)
  /\ dtype_datetime "post_date" df' =
     (if has_column "post_date" df then datetime64_ns (date_column df)
      else true).
Proof.
  unfold coerce. intros H.
  set (df0 := transform "post_id" (fun v => VStr (astype_str v)) df) in *.
  apply bind_inr in H as (d1 & ds1 & ds2 & H1 & H & ->).
  apply parse_dates_inr in H1 as (R1 & C1 & D1 & K1 & W1 & T1).
  apply bind_inr in H as (d4 & ds3 & ds4 & H2 & H & ->).
  simpl in H2.
  apply bind_inr in H2 as (d2 & ds5 & ds6 & HL & H2 & ->).
  apply coerce_metric_inr in HL as (RL & CL & DL & KL & WL & AL & TL).
  apply bind_inr in H2 as (d3 & ds7 & ds8 & HS & H2 & ->).
  apply coerce_metric_inr in HS as (RS & CS & DS & KS & WS & AS & TS).
  apply bind_inr in H2 as (d4' & ds9 & ds10 & HC & H2 & ->).
  apply coerce_metric_inr in HC as (RC & CC & DC & KC & WC & AC & TC).
  unfold ret in H2. inversion H2; subst d4' ds10; clear H2.
  assert (Hcol0 : forall c, has_column c df0 = has_column c df)
    by (intros c; apply has_column_transform).
  assert (Hdup0 : forall c, duplicated c df0 = duplicated c df)
    by (intros c; apply duplicated_transform).
  rewrite Hcol0, Hdup0 in R1, K1. rewrite Hcol0 in T1.
  unfold df0 in R1, T1. rewrite date_column_transform in R1, T1.
  assert (Rows1 : rows d1 =
                  filter_map (fun r => dates_row (has_column "post_date" df)
                                         (date_column df)
                                         (duplicated "day_of_week" df)
                                         (id_row r)) (rows df)).
  { rewrite R1. unfold transform. cbn [rows].
    now rewrite filter_map_of_map. }
  assert (Hflag : forall c,
             String.eqb c "post_date" = false ->
             String.eqb c "day_of_week" = false ->
             String.eqb c "day_of_week_num" = false ->
             has_column c d1 = has_column c df).
  { intros c E2 E3 E4. rewrite C1, Hcol0, E2, E3, E4.
    now rewrite !orb_false_r. }
  assert (HfL : has_column "likes" d1 = has_column "likes" df)
    by (apply Hflag; reflexivity).
  assert (HfS : has_column "shares" d2 = has_column "shares" df).
  { rewrite CL, Hflag by reflexivity. simpl. apply orb_false_r. }
  assert (HfC : has_column "comments" d3 = has_column "comments" df).
  { rewrite CS, CL, Hflag by reflexivity. simpl. now rewrite !orb_false_r. }
  assert (HcL : map (field "likes") (rows d1) = metric_column "likes" df).
  { rewrite Rows1. now apply kept_column. }
  assert (HcS : map (field "shares") (rows d2) = metric_column "shares" df).
  { rewrite RL, map_field_set_other by reflexivity.
    rewrite Rows1. now apply kept_column. }
  assert (HcC : map (field "comments") (rows d3)
                = metric_column "comments" df).
  { rewrite RS, map_field_set_other by reflexivity.
    rewrite RL, map_field_set_other by reflexivity.
    rewrite Rows1. now apply kept_column. }
  rewrite HfL, HcL in RL, AL. rewrite HfS, HcS in RS, AS.
  rewrite HfC, HcC in RC, AC.
  assert (HfT : has_column "content_type" (total_engagement d4)
                = has_column "content_type" df).
  { unfold total_engagement. rewrite has_column_assign, CC, CS, CL.
    rewrite Hflag by reflexivity. simpl. now rewrite !orb_false_r. }
  assert (Rows4 : rows (total_engagement d4) =
                  filter_map
                    (fun r => option_map
                                (fun r' => total_row (metrics_row df r'))
                                (dates_row (has_column "post_date" df)
                                   (date_column df)
                                   (duplicated "day_of_week" df)
                                   (id_row r)))
                    (rows df)).
  { unfold total_engagement. rewrite rows_assign.
    rewrite RC, RS, RL, Rows1. rewrite !map_map.
    rewrite filter_map_map.
    apply filter_map_ext. reflexivity. }
  assert (Cat4 : has_column "post_date" df = true ->
                 duplicated "day_of_week" df = false ->
                 assoc "day_of_week" (categories (total_engagement d4))
                 = Some day_order).
  { intros Hp Hd. unfold total_engagement. rewrite categories_assign.
    rewrite KC, KS, KL. rewrite !assoc_remove_key by reflexivity.
    now apply K1. }
  assert (Col4 : forall c,
             has_column c (total_engagement d4) =
             has_column c df
             || String.eqb c "post_date" || String.eqb c "day_of_week"
             || String.eqb c "day_of_week_num" || String.eqb c "likes"
             || String.eqb c "shares" || String.eqb c "comments"
             || String.eqb c "total_engagement_per_post").
  { intros c. unfold total_engagement.
    rewrite has_column_assign, CC, CS, CL, C1, Hcol0.
    reflexivity. }
  assert (Dup4 : forall c, duplicated c (total_engagement d4)
                           = duplicated c df).
  { intros c. unfold total_engagement.
    now rewrite duplicated_assign, DC, DS, DL, D1, Hdup0. }
  assert (Dt4 : dtype_datetime "post_date" (total_engagement d4) =
                (if has_column "post_date" df
                 then datetime64_ns (date_column df) else true)).
  { unfold total_engagement.
    rewrite dtype_datetime_assign, TC, TS, TL, T1. reflexivity. }
  assert (Cast : forall m, In m engagement_cols ->
                           has_column m df = true ->
                           forallb (castable (metric_column m df))
                                   (metric_column m df) = true).
  { intros m [<- | [<- | [<- | []]]] Hm; auto. }
  unfold default_content_type in H. rewrite HfT in H.
  destruct (has_column "content_type" df) eqn:Hct; simpl in H.
  - unfold ret in H. inversion H; subst; clear H.
    split; [| split; [| split; [| split; [| split; [| split;
      [| split; [| split]]]]]]].
    + rewrite Rows4. apply filter_map_ext. intros r. unfold coerce_row.
      rewrite Hct. destruct (dates_row _ _ _ _); reflexivity.
    + exact Cat4.
    + intros c Hc. rewrite Col4, Hc. reflexivity.
    + rewrite Col4. simpl. now rewrite !orb_true_r.
    + rewrite Col4. simpl. now rewrite !orb_true_r.
    + repeat (apply Forall_app; split); auto.
    + exact Cast.
    + exact Dup4.
    + exact Dt4.
  - inversion H; subst; clear H.
    split; [| split; [| split; [| split; [| split; [| split;
      [| split; [| split]]]]]]].
    + rewrite rows_assign, Rows4, filter_map_map.
      apply filter_map_ext. intros r. unfold coerce_row.
      rewrite Hct. destruct (dates_row _ _ _ _); reflexivity.
    + intros Hp Hd. rewrite categories_assign.
      rewrite assoc_remove_key by reflexivity. auto.
    + intros c Hc. rewrite has_column_assign, Col4, Hc. reflexivity.
    + rewrite has_column_assign, Col4. simpl. now rewrite !orb_true_r.
    + rewrite has_column_assign, Col4. simpl. now rewrite !orb_true_r.
    + repeat (apply Forall_app; split); auto.
    + exact Cast.
    + intros c. now rewrite duplicated_assign.
    + rewrite dtype_datetime_assign. exact Dt4.
Qed.

Lemma field_metric_row (df : DataFrame) (col c : string) (r : row) :
  field c (metric_row df col r) =
  if String.eqb col c
  then coerced (has_column col df) (metric_column col df) (field col r)
  else field c r.
Proof. unfold metric_row. apply field_set_field. Qed.

Lemma field_content_type_row (present : bool) (c : string) (r : row) :
  String.eqb "content_type" c = false ->
  field c (content_type_row present r) = field c r.
Proof.
  intros E. unfold content_type_row. destruct present; [reflexivity|].
  now rewrite field_set_field, E.
Qed.

(** What [coerce] makes of a row it keeps. *)
Lemma coerce_row_Some (df : DataFrame) (r0 r : row) :
  coerce_row df r0 = Some r ->
  label r = label r0
  /\ field "likes" r =
     coerced (has_column "likes" df) (metric_column "likes" df)
       (field "likes" r0)
  /\ field "shares" r =
     coerced (has_column "shares" df) (metric_column "shares" df)
       (field "shares" r0)
  /\ field "comments" r =
     coerced (has_column "comments" df) (metric_column "comments" df)
       (field "comments" r0)
  /\ field "total_engagement_per_post" r =
     add (add (field "likes" r) (field "shares" r)) (field "comments" r)
  /\ (has_column "post_date" df = true ->
      exists t, to_datetime (date_column df) (field "post_date" r0) = Some t
                /\ field "post_date" r = VTime t
                /\ (duplicated "day_of_week" df = false ->
                    field "day_of_week" r = VStr (day_name t)))
  /\ dated df r0 = true.
Proof.
  intros Hc. assert (Hk : dated df r0 = true).
  { rewrite dates_row_dated. unfold coerce_row in Hc.
    now destruct (dates_row _ _ _ (id_row r0)). }
  revert Hc. unfold coerce_row.
  destruct (dates_row (has_column "post_date" df) (date_column df)
              (duplicated "day_of_week" df) (id_row r0)) as [r1|] eqn:Hd;
    [| discriminate].
  intros H. inversion H; subst r; clear H.
  assert (Hother : forall c,
             String.eqb "post_id" c = false ->
             String.eqb "post_date" c = false ->
             String.eqb "day_of_week" c = false ->
             String.eqb "day_of_week_num" c = false ->
             field c r1 = field c r0).
  { intros c E0 E1 E2 E3.
    rewrite (dates_row_other _ _ _ _ _ c Hd E1 E2 E3).
    now rewrite field_id_row, E0. }
  split; [| split; [| split; [| split; [| split; [| split]]]]].
  - destruct (has_column "content_type" df); unfold content_type_row,
      total_row, metrics_row, metric_row; simpl label;
      rewrite (dates_row_label _ _ _ _ _ Hd); reflexivity.
  - rewrite field_content_type_row by reflexivity.
    unfold total_row, metrics_row.
    rewrite field_set_field, !field_metric_row. eqb_names.
    cbv iota. now rewrite Hother by reflexivity.
  - rewrite field_content_type_row by reflexivity.
    unfold total_row, metrics_row.
    rewrite field_set_field, !field_metric_row. eqb_names.
    cbv iota. now rewrite Hother by reflexivity.
  - rewrite field_content_type_row by reflexivity.
    unfold total_row, metrics_row.
    rewrite field_set_field, !field_metric_row. eqb_names.
    cbv iota. now rewrite Hother by reflexivity.
  - rewrite !field_content_type_row by reflexivity.
    unfold total_row. rewrite !field_set_field. eqb_names. reflexivity.
  - intros Hp. rewrite Hp, dates_row_present in Hd.
    rewrite field_id_row in Hd. revert Hd. eqb_names. cbv iota. intros Hd.
    destruct (to_datetime (date_column df) (field "post_date" r0))
      as [t |] eqn:Ht; [| discriminate].
    exists t. inversion Hd; subst r1; clear Hd.
    split; [reflexivity|].
    rewrite !field_content_type_row by reflexivity.
    unfold total_row, metrics_row.
    rewrite !field_set_field, !field_metric_row. eqb_names. cbv iota.
    rewrite !field_set_field. eqb_names.
    split; [reflexivity |]. now intros ->.
  - exact Hk.
Qed.

(** The rows [coerce] drops are those the conversion of the dates leaves
    without a date. *)
Lemma coerce_row_None (df : DataFrame) (r0 : row) :
  coerce_row df r0 = None <->
  has_column "post_date" df = true
  /\ to_datetime (date_column df) (field "post_date" r0) = None.
Proof.
  unfold coerce_row.
  destruct (has_column "post_date" df).
  - rewrite dates_row_present, field_id_row. eqb_names. cbv iota.
    destruct (to_datetime (date_column df) (field "post_date" r0));
      simpl; intuition congruence.
  - simpl. intuition congruence.
Qed.

End LoaderFacts.

(** ** 64-bit arithmetic *)

Ltac pow64 :=
  change (2 ^ 63) with 9223372036854775808 in *;
  change (2 ^ 64) with 18446744073709551616 in *.

Lemma wrap64_int64 (z : Z) : int64 (wrap64 z).
Proof.
  unfold int64, wrap64.
  assert (H : 0 <= (z + 2 ^ 63) mod 2 ^ 64 < 2 ^ 64)
    by (apply Z.mod_pos_bound; reflexivity).
  pow64. lia.
Qed.

Lemma wrap64_small (z : Z) : int64 z -> wrap64 z = z.
Proof.
  unfold int64, wrap64. intros H.
  rewrite Z.mod_small; pow64; lia.
Qed.

Lemma wrap64_add_l (a b : Z) : wrap64 (wrap64 a + b) = wrap64 (a + b).
Proof.
  unfold wrap64. f_equal.
  replace ((a + 2 ^ 63) mod 2 ^ 64 - 2 ^ 63 + b + 2 ^ 63)
    with ((a + 2 ^ 63) mod 2 ^ 64 + b) by lia.
  rewrite Zplus_mod_idemp_l. f_equal. lia.
Qed.

(** ** [load_data] *)

Section LoadFacts.
Context {P : Pandas}.

Lemma cast_NaN (s : list value) (v : value) :
  to_numeric s v = NaN -> cast s v = Some 0.
Proof. unfold cast. now intros ->. Qed.

Lemma cast_int64 (s : list value) (v : value) (z : Z) :
  cast s v = Some z -> int64 z.
Proof.
  unfold cast. destruct (to_numeric s v) as [| | x] eqn:E; simpl;
    intros H; inversion H; subst.
  - unfold int64. pow64. lia.
  - now apply (to_numeric_int64 s v).
Qed.

(** Where the cast does not raise it leaves an int64. *)
Lemma coerced_int64 (present : bool) (s : list value) (v : value) :
  (present = true -> castable s v = true) ->
  exists z, coerced present s v = VInt z /\ int64 z.
Proof.
  unfold coerced, cast_cell, castable. destruct present.
  - intros H. specialize (H eq_refl).
    destruct (cast s v) as [z |] eqn:E; [| discriminate].
    exists z. split; [reflexivity | now apply (cast_int64 s v)].
  - intros _. exists 0. split; [reflexivity | unfold int64; pow64; lia].
Qed.

Lemma load_data_missing (raw : csv) :
  has_column "post_id" (standardize raw) = false ->
  load_data raw = (empty_frame, [Error (ColumnNotFound "post_id")]).
Proof.
  intros H. unfold load_data, load_data_try, normalize.
  fold (standardize raw). rewrite H. reflexivity.
Qed.

Lemma load_data_present (raw : csv) :
  has_column "post_id" (standardize raw) = true ->
  load_data raw =
  match coerce (standardize raw) with
  | (inr df, ds) => (df, ds)
  | (inl e, ds) => (empty_frame, ds ++ [Error (LoadFailure e)])
  end.
Proof.
  intros H. unfold load_data, load_data_try, normalize.
  fold (standardize raw). rewrite H. simpl.
  destruct (coerce (standardize raw)) as [[e | df] ds]; reflexivity.
Qed.

(** A load without a fatal diagnostic is a run of [coerce] to its end. *)
Lemma load_data_clean (raw : csv) :
  existsb fatal (snd (load_data raw)) = false ->
  has_column "post_id" (standardize raw) = true
  /\ coerce (standardize raw) = (inr (fst (load_data raw)), snd (load_data raw)).
Proof.
  intros H.
  destruct (has_column "post_id" (standardize raw)) eqn:Hid.
  - split; [reflexivity|].
    rewrite (load_data_present raw Hid) in *.
    destruct (coerce (standardize raw)) as [[e | df] ds]; simpl in *.
    + rewrite existsb_app in H. simpl in H.
      rewrite orb_true_r in H. discriminate.
    + reflexivity.
  - rewrite (load_data_missing raw Hid) in H. discriminate.
Qed.

Lemma load_data_rows (raw : csv) (r : row) :
  In r (rows (fst (load_data raw))) ->
  exists r0, In r0 (rows (standardize raw))
             /\ coerce_row (standardize raw) r0 = Some r.
Proof.
  destruct (has_column "post_id" (standardize raw)) eqn:Hid.
  - rewrite (load_data_present raw Hid).
    destruct (coerce (standardize raw)) as [[e | df] ds] eqn:Hc; simpl.
    + contradiction.
    + apply coerce_rowwise in Hc as (Hr & _). rewrite Hr.
      apply filter_map_In.
  - rewrite (load_data_missing raw Hid). simpl. contradiction.
Qed.

(** A dataset with a row is a load that came to its end: no column made the
    cast raise. *)
Lemma load_data_castable (raw : csv) (r : row) (m : string) :
  In r (rows (fst (load_data raw))) ->
  In m engagement_cols ->
  has_column m (standardize raw) = true ->
  forallb (castable (metric_column m (standardize raw)))
          (metric_column m (standardize raw)) = true.
Proof.
  destruct (has_column "post_id" (standardize raw)) eqn:Hid.
  - rewrite (load_data_present raw Hid).
    destruct (coerce (standardize raw)) as [[e | df] ds] eqn:Hc; simpl.
    + contradiction.
    + intros _.
      apply coerce_rowwise in Hc as (_ & _ & _ & _ & _ & _ & Hcast & _).
      apply Hcast.
  - rewrite (load_data_missing raw Hid). simpl. contradiction.
Qed.

(** The value of a metric in a canonical row. *)
Lemma canonical_metric (raw : csv) (m : string) (r0 r : row) :
  In m engagement_cols ->
  In r (rows (fst (load_data raw))) ->
  In r0 (rows (standardize raw)) ->
  coerce_row (standardize raw) r0 = Some r ->
  field m r = coerced (has_column m (standardize raw))
                (metric_column m (standardize raw)) (field m r0)
  /\ exists z, field m r = VInt z /\ int64 z.
Proof.
  intros Hm Hr Hin Hc.
  pose proof (load_data_castable raw r m Hr Hm) as Hcast.
  apply coerce_row_Some in Hc as (_ & HL & HS & HC & _ & _ & Hk).
  assert (Hf : field m r = coerced (has_column m (standardize raw))
                             (metric_column m (standardize raw))
                             (field m r0)).
  { destruct Hm as [<- | [<- | [<- | []]]]; assumption. }
  split; [exact Hf |]. rewrite Hf. apply coerced_int64.
  intros Hp. specialize (Hcast Hp).
  rewrite forallb_forall in Hcast. apply Hcast.
  unfold metric_column. apply in_map. apply filter_In. auto.
Qed.

Lemma series_diagnostics (c : string) (df : DataFrame) :
  Forall (fun d => fatal d = false) (snd (series c df)).
Proof. unfold series. destruct (duplicated c df); constructor. Qed.

Lemma coerce_metric_diagnostics (c : string) (df : DataFrame) :
  Forall (fun d => fatal d = false) (snd (coerce_metric c df)).
Proof.
  unfold coerce_metric. destruct (has_column c df).
  - apply bind_diagnostics; [apply series_diagnostics |].
    intros _. destruct (forallb _ _); constructor.
  - apply bind_diagnostics; repeat constructor.
Qed.

Lemma coerce_metrics_diagnostics (cols : list string) (df : DataFrame) :
  Forall (fun d => fatal d = false) (snd (coerce_metrics cols df)).
Proof.
  revert df. induction cols as [| c cols IH]; intros df; simpl.
  - constructor.
  - apply bind_diagnostics; [apply coerce_metric_diagnostics | apply IH].
Qed.

(** [coerce] shows warnings only. *)
Lemma coerce_diagnostics (df : DataFrame) :
  Forall (fun d => fatal d = false) (snd (coerce df)).
Proof.
  unfold coerce. apply bind_diagnostics.
  - unfold parse_dates. destruct (has_column "post_date" _).
    + apply bind_diagnostics; [apply series_diagnostics |].
      intros _. constructor.
    + apply bind_diagnostics; repeat constructor.
  - intros d. apply bind_diagnostics; [apply coerce_metrics_diagnostics |].
    intros d'. unfold default_content_type.
    destruct (negb _); [| constructor].
    apply bind_diagnostics; repeat constructor.
Qed.

End LoadFacts.

Lemma standardize_columns (raw : csv) :
  columns (standardize raw) = map normalize_name (header raw).
Proof. reflexivity. Qed.

(** ** The filters *)

Lemma rows_select (keep : row -> bool) (df : DataFrame) :
  rows (select keep df) = filter keep (rows df).
Proof. reflexivity. Qed.

Lemma filter_content_type_incl (df : DataFrame) (selected : list value)
  (r : row) :
  In r (rows (filter_content_type df selected)) -> In r (rows df).
Proof.
  unfold filter_content_type. destruct (_ && _); [| auto].
  rewrite rows_select, filter_In. tauto.
Qed.

Lemma filter_date_incl (df : DataFrame) (st : date_state) (r : row) :
  In r (rows (filter_date df st)) -> In r (rows df).
Proof.
  unfold filter_date. destruct (_ && _); [| auto].
  rewrite rows_select, filter_In. tauto.
Qed.

Lemma apply_filters_incl (df : DataFrame) (selected : list value)
  (st : date_state) (r : row) :
  In r (rows (apply_filters df selected st)) -> In r (rows df).
Proof.
  unfold apply_filters. intros H.
  apply filter_date_incl in H. now apply filter_content_type_incl in H.
Qed.

Lemma filter_map_Forall2 {A B : Type} (f : A -> option B) (l : list A) :
  Forall2 (fun b a => f a = Some b)
          (filter_map f l)
          (filter (fun a => match f a with Some _ => true | None => false end) l).
Proof.
  unfold filter_map. induction l as [| a l IH]; simpl; [constructor|].
  destruct (f a) eqn:Hf; simpl; [constructor |]; assumption.
Qed.

(* ================================================================== *)
(** * The claims of the specification *)
(* ================================================================== *)

(** ** The schema normalizer *)

(** C1.  A table none of whose standardised column names is [post_id] is
    answered by the empty frame and exactly one fatal diagnostic, which
    names that column; the script then shows the upload prompt and computes
    no filter and no view.  A table that has such a column passes the
    normalizer, which returns the renamed table and reports nothing, and no
    run of the loader on it reports a missing [post_id]. *)
Theorem missing_post_id_halts {P : Pandas} (raw : csv) :
  (~ In "post_id" (map normalize_name (header raw)) ->
   load_data raw = (empty_frame, [Error (ColumnNotFound "post_id")])
   /\ forall ui, dashboard (Some raw) ui =
                 (UploadPrompt, [Error (ColumnNotFound "post_id")]))
  /\ (In "post_id" (map normalize_name (header raw)) ->
      normalize (read_csv raw) = (inr (Some (standardize raw)), [])
      /\ forall c, ~ In (Error (ColumnNotFound c)) (snd (load_data raw))).
Proof.
  split.
  - intros Hno.
    assert (Hid : has_column "post_id" (standardize raw) = false).
    { destruct (has_column "post_id" (standardize raw)) eqn:E; [| reflexivity].
      apply has_column_In in E. rewrite standardize_columns in E.
      contradiction. }
    pose proof (load_data_missing raw Hid) as Hload.
    split; [exact Hload|].
    intros ui. unfold dashboard. rewrite Hload. reflexivity.
  - intros Hin.
    assert (Hid : has_column "post_id" (standardize raw) = true).
    { apply has_column_In. now rewrite standardize_columns. }
    split.
    + unfold normalize. fold (standardize raw). rewrite Hid. reflexivity.
    + intros c Hc. rewrite (load_data_present raw Hid) in Hc.
      pose proof (coerce_diagnostics (standardize raw)) as W.
      destruct (coerce (standardize raw)) as [[e | df] ds]; simpl in *.
      * apply in_app_or in Hc as [Hc | [Hc | []]]; [| discriminate].
        rewrite Forall_forall in W. apply W in Hc. discriminate.
      * rewrite Forall_forall in W. apply W in Hc. discriminate.
Qed.

Lemma missing_post_id_halts_witness :
  load_data (P := iso_pandas) dotted_posts =
  (empty_frame, [Error (ColumnNotFound "post_id")]).
Proof.
  apply (proj1 (missing_post_id_halts (P := iso_pandas) dotted_posts)).
  simpl. intros [H | [H | []]]; discriminate.
Defined.

(** C2.  The name [Post.ID] is standardised to [postid]: the dot is
    deleted, where the comment of line 22 (and the specification) announce
    an underscore, which would give [post_id].  A table whose identifier
    column is spelled that way is rejected for want of a [post_id]. *)
Theorem normalize_name_deletes_dots :
  normalize_name "Post.ID" = "postid"
  /\ documented_name "Post.ID" = "post_id"
  /\ load_data (P := iso_pandas) dotted_posts =
     (empty_frame, [Error (ColumnNotFound "post_id")]).
Proof. repeat split; reflexivity. Qed.

(** ** The field coercer *)

(** The properties of a canonical row that the claims below read off. *)
Lemma canonical_row {P : Pandas} (raw : csv) (r : row) :
  In r (rows (fst (load_data raw))) ->
  exists r0, In r0 (rows (standardize raw))
    /\ label r = label r0
    /\ (exists l, field "likes" r = VInt l /\ int64 l)
    /\ (exists s, field "shares" r = VInt s /\ int64 s)
    /\ (exists c, field "comments" r = VInt c /\ int64 c)
    /\ field "total_engagement_per_post" r =
       add (add (field "likes" r) (field "shares" r)) (field "comments" r).
Proof.
  intros H. destruct (load_data_rows raw r H) as (r0 & Hin & Hc).
  pose proof (fun m Hm => proj2 (canonical_metric raw m r0 r Hm H Hin Hc))
    as Hm.
  apply coerce_row_Some in Hc as (Hl & _ & _ & _ & HT & _).
  exists r0. repeat split; auto; apply Hm; simpl; auto.
Qed.




(** C4, as stated, fails: a date that parses is not always kept.  The
    dates of a column are read in one format, that of its first cell.  In
    a column that starts with [01/02/2024], the date [2024-01-01], which
    parses when it stands alone, is left without a date, and its row is
    dropped; the load reports nothing. *)
Lemma a_date_that_parses_is_dropped :
  exists r0 t,
    In r0 (rows (standardize mixed_posts))
    /\ field "post_date" r0 = VStr "2024-01-01"
    /\ @to_datetime iso_pandas [field "post_date" r0]
         (field "post_date" r0) = Some t
    /\ @to_datetime iso_pandas (date_column (standardize mixed_posts))
         (field "post_date" r0) = None
    /\ snd (load_data (P := iso_pandas) mixed_posts) =
       missing_column_warnings (standardize mixed_posts)
    /\ map label (rows (fst (load_data (P := iso_pandas) mixed_posts))) =
       [0%nat]
    /\ label r0 = 1%nat.
Proof.
  exists (nth 1 (rows (standardize mixed_posts)) (mkRow 0 [])),
         (new_year_2024 * ns_per_day).
  split; [vm_compute; auto |].
  repeat split; vm_compute; reflexivity.
Qed.

(** C4, amended.  When the table has a [post_date] column and the load
    does not fail, the rows of the canonical dataset are, one for one and in
    order, the rows of the table to which [pd.to_datetime], applied to the
    whole column, gives a date: a row to which it gives none has no
    counterpart (it is dropped, not kept with a missing date), and each row
    kept carries the date the conversion gave it. *)
Theorem unparseable_dates_are_dropped {P : Pandas} (raw : csv) :
  In "post_date" (map normalize_name (header raw)) ->
  existsb fatal (snd (load_data raw)) = false ->
  Forall2 (fun r r0 =>
             label r = label r0
             /\ exists t, to_datetime (date_column (standardize raw))
                            (field "post_date" r0) = Some t
                          /\ field "post_date" r = VTime t)
          (rows (fst (load_data raw)))
          (filter (fun r0 => negb (isna (timestamp
                                          (to_datetime
                                             (date_column (standardize raw))
                                             (field "post_date" r0)))))
                  (rows (standardize raw))).
Proof.
  intros Hin Hok.
  assert (Hpd : has_column "post_date" (standardize raw) = true).
  { apply has_column_In. now rewrite standardize_columns. }
  apply load_data_clean in Hok as [_ Hc].
  apply coerce_rowwise in Hc as (Hr & _). rewrite Hr.
  rewrite (filter_ext
             (fun r0 => negb (isna (timestamp
                                      (to_datetime
                                         (date_column (standardize raw))
                                         (field "post_date" r0)))))
             (fun r0 => match coerce_row (standardize raw) r0 with
                        | Some _ => true
                        | None => false
                        end)).
  - eapply Forall2_impl; [| apply filter_map_Forall2].
    intros r r0 H. apply coerce_row_Some in H as (Hl & _ & _ & _ & _ & Hd & _).
    destruct (Hd Hpd) as (t & Ht & Hf & _). eauto.
  - intros r0. destruct (coerce_row (standardize raw) r0) as [r|] eqn:E.
    + apply coerce_row_Some in E as (_ & _ & _ & _ & _ & Hd & _).
      destruct (Hd Hpd) as (t & Ht & _). now rewrite Ht.
    + apply coerce_row_None in E as [_ E]. now rewrite E.
Qed.

Lemma unparseable_dates_are_dropped_witness :
  Forall2 (fun r r0 =>
             label r = label r0
             /\ exists t, @to_datetime iso_pandas
                            (date_column (standardize undated_posts))
                            (field "post_date" r0) = Some t
                          /\ field "post_date" r = VTime t)
          (rows (fst (load_data (P := iso_pandas) undated_posts)))
          (filter (fun r0 => negb (isna (timestamp
                                          (@to_datetime iso_pandas
                                             (date_column
                                                (standardize undated_posts))
                                             (field "post_date" r0)))))
                  (rows (standardize undated_posts))).
Proof.
  apply (unparseable_dates_are_dropped (P := iso_pandas) undated_posts).
  - simpl. auto 10.
  - reflexivity.
Defined.

(** C5, as stated, fails: a [likes] cell of -5 is a number, and stays -5. *)
Lemma negative_metric_survives :
  exists r,
    In r (rows (fst (load_data (P := iso_pandas) negative_posts)))
    /\ field "likes" r = VInt (-5)
    /\ number "likes" r < 0.
Proof.
  exists (hd (mkRow 0 [])
            (rows (fst (load_data (P := iso_pandas) negative_posts)))).
  split; [vm_compute; left; reflexivity |].
  split; reflexivity.
Qed.

(** C5, amended.  In every row of the canonical dataset each of [likes],
    [shares] and [comments] is a 64-bit integer, of either sign.  If the
    table has no such column the value is 0.  If it has, the value is 0
    whenever [pd.to_numeric], applied to the column, does not read the cell
    of the row of the same label as a number. *)
Theorem metrics_are_int64 {P : Pandas} (raw : csv) (m : string) (r : row) :
  In m engagement_cols ->
  In r (rows (fst (load_data raw))) ->
  (exists z, field m r = VInt z /\ int64 z)
  /\ (has_column m (standardize raw) = false -> field m r = VInt 0)
  /\ exists r0,
      In r0 (rows (standardize raw)) /\ label r0 = label r
      /\ (has_column m (standardize raw) = true ->
          to_numeric (metric_column m (standardize raw)) (field m r0) = NaN ->
          field m r = VInt 0).
Proof.
  intros Hm Hr.
  destruct (load_data_rows raw r Hr) as (r0 & Hin & Hc).
  destruct (canonical_metric raw m r0 r Hm Hr Hin Hc) as (Hf & Hz).
  split; [exact Hz |]. split.
  - intros Hno. rewrite Hf, Hno. reflexivity.
  - exists r0. split; [exact Hin |]. split.
    + apply coerce_row_Some in Hc. symmetry. apply Hc.
    + intros Hyes Hnan. rewrite Hf, Hyes. unfold coerced, cast_cell.
      now rewrite (cast_NaN _ _ Hnan).
Qed.

Lemma metrics_are_int64_witness :
  let r := hd (mkRow 0 [])
             (rows (fst (load_data (P := iso_pandas) negative_posts))) in
  exists z, field "likes" r = VInt z /\ int64 z.
Proof.
  apply (fun H1 H2 =>
           proj1 (metrics_are_int64 (P := iso_pandas) negative_posts "likes"
                    _ H1 H2)).
  - simpl. auto.
  - vm_compute. left. reflexivity.
Defined.

(** ** The filter engine *)

(** C6.  With the sentinel [All] among the selected content types the
    category filter returns its input unchanged, so [df_filtered] is what
    the date filter alone makes of the dataset, and the dataset itself when
    the date filter is off. *)
Theorem all_is_the_identity_on_categories (df : DataFrame)
  (selected : list value) (st : date_state) :
  In (VStr "All") selected ->
  filter_content_type df selected = df
  /\ apply_filters df selected st = filter_date df st
  /\ (date_filter_enabled st = false -> apply_filters df selected st = df).
Proof.
  intros Hall.
  assert (Hin : isin (VStr "All") selected = true).
  { unfold isin. apply existsb_exists. exists (VStr "All"). auto. }
  assert (H1 : filter_content_type df selected = df).
  { unfold filter_content_type. rewrite Hin. simpl.
    now rewrite andb_false_r. }
  split; [exact H1 |]. unfold apply_filters. rewrite H1.
  split; [reflexivity |].
  intros Hoff. unfold filter_date. now rewrite Hoff.
Qed.

Lemma all_is_the_identity_on_categories_witness :
  let df := fst (load_data (P := iso_pandas) two_posts) in
  filter_content_type df [VStr "Video"; VStr "All"] = df.
Proof.
  apply (fun H => proj1 (all_is_the_identity_on_categories
                           (fst (load_data (P := iso_pandas) two_posts))
                           [VStr "Video"; VStr "All"]
                           (mkDateState false PyNone PyNone (0, 0)) H)).
  simpl. auto.
Defined.

(** C7.  When the date filter is on, [df_filtered] keeps, in order,
    exactly the rows whose [post_date] falls on a day of the selected range,
    both ends included; the day of a timestamp ignores its time of day.  On
    the two posts of the example, dated 2024-01-01 and 2024-01-02, the range
    from 2024-01-01 to 2024-01-01 leaves the post ["1"] alone. *)
Theorem date_filter_is_inclusive_by_day (df : DataFrame) (st : date_state) :
  date_filter_enabled st = true ->
  min_date_data st <> PyNone ->
  rows (filter_date df st) =
  filter (in_date_range (date_range_selection st)) (rows df)
  /\ (forall r,
        In r (rows (filter_date df st)) <->
        In r (rows df)
        /\ exists t, field "post_date" r = VTime t
                     /\ fst (date_range_selection st) <= date_of t
                        <= snd (date_range_selection st))
  /\ (forall d s, 0 <= s < ns_per_day -> date_of (d * ns_per_day + s) = d)
  /\ (let df2 := fst (load_data (P := iso_pandas) two_posts) in
      let ui := mkWidgets [VStr "All"] true (new_year_2024, new_year_2024) in
      map (field "post_date") (rows df2) =
        [VTime (new_year_2024 * ns_per_day);
         VTime ((new_year_2024 + 1) * ns_per_day)]
      /\ map (field "post_id")
            (rows (apply_filters df2 (selected_post_types df2 ui)
                     (fst (date_controls df2 ui)))) = [VStr "1"]).
Proof.
  intros Hon Hmin.
  assert (Hrows : rows (filter_date df st) =
                  filter (in_date_range (date_range_selection st)) (rows df)).
  { unfold filter_date. rewrite Hon.
    destruct (min_date_data st); [congruence | reflexivity | reflexivity]. }
  split; [exact Hrows |]. split; [| split].
  - intros r. rewrite Hrows, filter_In. unfold in_date_range.
    split.
    + intros [Hin Hk]. split; [exact Hin |].
      destruct (field "post_date" r) as [| | t |]; try discriminate.
      exists t. split; [reflexivity |].
      apply andb_true_iff in Hk as [H1 H2]. lia.
    + intros [Hin (t & Ht & Hlo & Hhi)]. split; [exact Hin |].
      rewrite Ht. apply andb_true_iff. lia.
  - intros d s Hs. unfold date_of.
    rewrite Z.add_comm, Z.div_add by (unfold ns_per_day; lia).
    rewrite Z.div_small by exact Hs. reflexivity.
  - split; vm_compute; reflexivity.
Qed.

Lemma date_filter_is_inclusive_by_day_witness :
  let df := fst (load_data (P := iso_pandas) two_posts) in
  let st := mkDateState true (Date new_year_2024) (Date (new_year_2024 + 1))
              (new_year_2024, new_year_2024) in
  rows (filter_date df st) =
  filter (in_date_range (date_range_selection st)) (rows df).
Proof.
  apply (fun H1 H2 =>
           proj1 (date_filter_is_inclusive_by_day
                    (fst (load_data (P := iso_pandas) two_posts))
                    (mkDateState true (Date new_year_2024)
                       (Date (new_year_2024 + 1))
                       (new_year_2024, new_year_2024)) H1 H2)).
  - reflexivity.
  - discriminate.
Defined.

(** ** The aggregation views *)

Section Sorting.
Variable key : row -> Z.

Lemma insert_desc_perm (x : row) (l : list row) :
  Permutation (insert_desc key x l) (x :: l).
Proof.
  induction l as [| y l IH]; simpl; [reflexivity |].
  destruct (key x <? key y); [| reflexivity].
  rewrite IH. apply perm_swap.
Qed.

Lemma sort_desc_perm (l : list row) : Permutation (sort_desc key l) l.
Proof.
  induction l as [| x l IH]; simpl; [reflexivity |].
  rewrite insert_desc_perm. now apply perm_skip.
Qed.

Lemma insert_desc_sorted (x : row) (l : list row) :
  StronglySorted (above key) l -> StronglySorted (above key) (insert_desc key x l).
Proof.
  induction 1 as [| y l Hs IH Hy]; simpl.
  - repeat constructor.
  - destruct (key x <? key y) eqn:E.
    + apply Z.ltb_lt in E. constructor; [exact IH |].
      apply (Permutation_Forall (Permutation_sym (insert_desc_perm x l))).
      constructor; [unfold above; lia | exact Hy].
    + apply Z.ltb_ge in E. constructor.
      * constructor; assumption.
      * constructor; [exact E |].
        eapply Forall_impl; [| exact Hy]. unfold above. intros z Hz. lia.
Qed.

Lemma sort_desc_sorted (l : list row) : StronglySorted (above key) (sort_desc key l).
Proof.
  induction l as [| x l IH]; simpl; [constructor |].
  now apply insert_desc_sorted.
Qed.

(** Whatever the order it leaves equal keys in, the other sort returns
    the rows by decreasing key. *)
Lemma insert_by_perm (tie : row -> row -> bool) (x : row) (l : list row) :
  Permutation (insert_by key tie x l) (x :: l).
Proof.
  induction l as [| y l IH]; simpl; [reflexivity |].
  destruct (_ || _); [| reflexivity].
  rewrite IH. apply perm_swap.
Qed.

Lemma sort_by_perm (tie : row -> row -> bool) (l : list row) :
  Permutation (sort_by key tie l) l.
Proof.
  induction l as [| x l IH]; simpl; [reflexivity |].
  rewrite insert_by_perm. now apply perm_skip.
Qed.

Lemma insert_by_sorted (tie : row -> row -> bool) (x : row) (l : list row) :
  StronglySorted (above key) l ->
  StronglySorted (above key) (insert_by key tie x l).
Proof.
  induction 1 as [| y l Hs IH Hy]; simpl.
  - repeat constructor.
  - destruct ((key x <? key y) || ((key x =? key y) && tie x y)) eqn:E.
    + assert (Hxy : key x <= key y).
      { apply orb_true_iff in E as [E | E].
        - apply Z.ltb_lt in E. lia.
        - apply andb_true_iff in E as [E _]. apply Z.eqb_eq in E. lia. }
      constructor; [exact IH |].
      apply (Permutation_Forall (Permutation_sym (insert_by_perm tie x l))).
      constructor; [exact Hxy | exact Hy].
    + apply orb_false_iff in E as [E _]. apply Z.ltb_ge in E. constructor.
      * constructor; assumption.
      * constructor; [exact E |].
        eapply Forall_impl; [| exact Hy]. unfold above. intros z Hz. lia.
Qed.

Lemma sort_by_sorted (tie : row -> row -> bool) (l : list row) :
  StronglySorted (above key) (sort_by key tie l).
Proof.
  induction l as [| x l IH]; simpl; [constructor |].
  now apply insert_by_sorted.
Qed.

(** The sort is stable: rows of equal key keep their order. *)
Lemma insert_desc_stable (k : Z) (x : row) (l : list row) :
  filter (fun r => key r =? k) (insert_desc key x l) =
  filter (fun r => key r =? k) (x :: l).
Proof.
  induction l as [| y l IH]; simpl; [reflexivity |].
  destruct (key x <? key y) eqn:E; [| reflexivity].
  apply Z.ltb_lt in E. simpl in *. rewrite IH.
  destruct (key x =? k) eqn:Ex; [| reflexivity].
  apply Z.eqb_eq in Ex.
  destruct (key y =? k) eqn:Ey; [| reflexivity].
  apply Z.eqb_eq in Ey. lia.
Qed.

Lemma sort_desc_stable (k : Z) (l : list row) :
  filter (fun r => key r =? k) (sort_desc key l) =
  filter (fun r => key r =? k) l.
Proof.
  induction l as [| x l IH]; simpl; [reflexivity |].
  rewrite insert_desc_stable. simpl. now rewrite IH.
Qed.

Lemma sorted_app_above (l1 l2 : list row) :
  StronglySorted (above key) (l1 ++ l2) ->
  forall a b, In a l1 -> In b l2 -> key b <= key a.
Proof.
  induction l1 as [| x l1 IH]; simpl; intros Hs a b Ha Hb; [contradiction |].
  inversion Hs as [| ? ? Hs' Hx]; subst.
  destruct Ha as [<- | Ha].
  - rewrite Forall_forall in Hx. apply Hx. apply in_or_app. now right.
  - now apply (IH Hs' a b).
Qed.

Lemma sorted_firstn (n : nat) (l : list row) :
  StronglySorted (above key) l -> StronglySorted (above key) (firstn n l).
Proof.
  intros Hs. revert n. induction Hs as [| x l Hs IH Hx]; intros [| n]; simpl;
    try constructor.
  - apply IH.
  - rewrite Forall_forall in *. intros y Hy. apply Hx.
    rewrite <- (firstn_skipn n l). apply in_or_app. now left.
Qed.


End Sorting.


Lemma filter_all {A : Type} (p : A -> bool) (l : list A) :
  (forall x, In x l -> p x = true) -> filter p l = l.
Proof.
  induction l as [| x l IH]; simpl; intros H; [reflexivity |].
  rewrite (H x) by auto. f_equal. apply IH. auto.
Qed.

Lemma filter_none {A : Type} (p : A -> bool) (l : list A) :
  (forall x, In x l -> p x = true) -> filter (fun x => negb (p x)) l = [].
Proof.
  induction l as [| x l IH]; simpl; intros H; [reflexivity |].
  rewrite (H x) by auto. simpl. apply IH. auto.
Qed.

Lemma ranked_perm {P : Pandas} (l : list row) : Permutation (ranked l) l.
Proof.
  unfold ranked, sort_values. destruct (_ <=? _)%nat.
  - apply sort_by_perm.
  - apply sort_desc_perm.
Qed.

Lemma ranked_sorted {P : Pandas} (l : list row) :
  StronglySorted (above engagement) (ranked l).
Proof.
  unfold ranked, sort_values. destruct (_ <=? _)%nat.
  - apply sort_by_sorted.
  - apply sort_desc_sorted.
Qed.

Lemma nlargest_20_rows {P : Pandas} (df : DataFrame) :
  (forall r, In r (rows df) ->
             is_number "total_engagement_per_post" r = true) ->
  rows (df_top_posts_for_chart df) = firstn 20 (ranked (rows df)).
Proof.
  intros Hnum. unfold df_top_posts_for_chart, nlargest, ranked. simpl.
  rewrite (filter_all _ _ Hnum), (filter_none _ _ Hnum), app_nil_r.
  reflexivity.
Qed.

(** [nlargest] on a frame all of whose rows hold a total. *)
Lemma nlargest_20_spec {P : Pandas} (df : DataFrame) :
  (forall r, In r (rows df) ->
             is_number "total_engagement_per_post" r = true) ->
  let top := rows (df_top_posts_for_chart df) in
  List.length top = Nat.min 20 (List.length (rows df))
  /\ (forall r, In r top -> In r (rows df))
  /\ StronglySorted (above engagement) top
  /\ (exists rest,
        Permutation (rows df) (top ++ rest)
        /\ forall a b, In a top -> In b rest -> engagement b <= engagement a)
  /\ ((20 < List.length (rows df))%nat ->
      forall k, exists rest,
        filter (fun r => engagement r =? k) (rows df) =
        filter (fun r => engagement r =? k) top ++ rest)
  /\ ((List.length (rows df) <= 20)%nat -> Permutation top (rows df)).
Proof.
  intros Hnum top.
  set (sorted := ranked (rows df)).
  assert (Htop : top = firstn 20 sorted) by now apply nlargest_20_rows.
  assert (Hsplit : sorted = top ++ skipn 20 sorted).
  { rewrite Htop. symmetry. apply firstn_skipn. }
  assert (Hsorted : StronglySorted (above engagement) sorted)
    by apply ranked_sorted.
  assert (Hperm : Permutation sorted (rows df)) by apply ranked_perm.
  split; [| split; [| split; [| split; [| split]]]].
  - rewrite Htop, length_firstn. f_equal. now apply Permutation_length.
  - intros r Hr. apply (Permutation_in _ Hperm).
    rewrite Hsplit. apply in_or_app. now left.
  - rewrite Htop. now apply sorted_firstn.
  - exists (skipn 20 sorted). split.
    + rewrite <- Hsplit. now symmetry.
    + apply (sorted_app_above engagement). now rewrite <- Hsplit.
  - intros Hlen k.
    exists (filter (fun r => engagement r =? k) (skipn 20 sorted)).
    rewrite <- filter_app, <- Hsplit. unfold sorted, ranked.
    apply Nat.leb_gt in Hlen. rewrite Hlen.
    symmetry. apply sort_desc_stable.
  - intros Hlen. rewrite Htop, firstn_all2; [exact Hperm |].
    now rewrite (Permutation_length Hperm).
Qed.

Lemma total_engagement_is_number {P : Pandas} (raw : csv) (r : row) :
  In r (rows (fst (load_data raw))) ->
  exists z, field "total_engagement_per_post" r = VInt z.
Proof.
  intros H.
  apply canonical_row in H
    as (r0 & _ & _ & (l & HL & _) & (s' & HS & _) & (c & HC & _) & HT).
  rewrite HT, HL, HS, HC. simpl. eauto.
Qed.

(** *** The frames the views are computed on *)




Section ViewFrames.
Context {P : Pandas}.




End ViewFrames.

(** C8, as stated, fails: rows of equal total are not always charted in
    the order of the view.  On a view of 20 rows or fewer pandas ranks the
    rows with a sort that is not stable; with the order it is seen to leave
    equal keys in, four posts whose totals are 1, 1, 5 and 5 are charted
    last to first. *)
Lemma equal_totals_are_charted_in_reverse :
  let t := apply_filters (fst (load_data (P := iso_pandas) tied_posts))
             [VStr "All"] (mkDateState false PyNone PyNone (0, 0)) in
  map label (rows t) = [0; 1; 2; 3]%nat
  /\ map engagement (rows t) = [1; 1; 5; 5]
  /\ map label (rows (df_top_posts_for_chart (P := iso_pandas) t)) =
     [3; 2; 1; 0]%nat.
Proof. repeat split; vm_compute; reflexivity. Qed.

(** C8, amended.  On every filtered view of the canonical dataset, the rows
    charted by [df_top_posts_for_chart] are as many as the view has, up to
    20; each is a row of the view; they stand by decreasing
    [total_engagement_per_post]; and no row left out has a larger total
    than a row charted.  When the view has more than 20 rows, among the rows
    of one total those charted are the first of the view, in the order of
    the view.  When it has 20 rows or fewer, all its rows are charted, and
    the order among rows of one total is not determined by the program. *)
Theorem top_20_by_engagement {P : Pandas} (raw : csv) (selected : list value)
  (st : date_state) :
  let t := apply_filters (fst (load_data raw)) selected st in
  let top := rows (df_top_posts_for_chart t) in
  List.length top = Nat.min 20 (List.length (rows t))
  /\ (forall r, In r top -> In r (rows t))
  /\ StronglySorted (above engagement) top
  /\ (exists rest,
        Permutation (rows t) (top ++ rest)
        /\ forall a b, In a top -> In b rest -> engagement b <= engagement a)
  /\ ((20 < List.length (rows t))%nat ->
      forall k, exists rest,
        filter (fun r => engagement r =? k) (rows t) =
        filter (fun r => engagement r =? k) top ++ rest)
  /\ ((List.length (rows t) <= 20)%nat -> Permutation top (rows t)).
Proof.
  intros t top. subst top t. apply nlargest_20_spec.
  intros r Hr. apply apply_filters_incl in Hr.
  destruct (total_engagement_is_number raw r Hr) as (z & Hz).
  unfold is_number. now rewrite Hz.
Qed.

Lemma apply_filters_columns (df : DataFrame) (selected : list value)
  (st : date_state) :
  columns (apply_filters df selected st) = columns df
  /\ categories (apply_filters df selected st) = categories df.
Proof.
  unfold apply_filters, filter_date, filter_content_type.
  destruct (_ && _); destruct (_ && _); split; reflexivity.
Qed.

Lemma duplicated_apply_filters (c : string) (df : DataFrame)
  (selected : list value) (st : date_state) :
  duplicated c (apply_filters df selected st) = duplicated c df.
Proof.
  unfold duplicated. now rewrite (proj1 (apply_filters_columns _ _ _)).
Qed.



Lemma not_duplicated (c : string) (df : DataFrame) :
  (count_occ string_dec (columns df) c <= 1)%nat ->
  duplicated c df = false.
Proof. intros H. unfold duplicated. now apply Nat.ltb_ge. Qed.

(** The weekday totals of a view with the weekday categories declared on a
    single column [day_of_week]. *)
Lemma engagement_by_day_groups (t : DataFrame) :
  duplicated "day_of_week" t = false ->
  assoc "day_of_week" (categories t) = Some day_order ->
  engagement_by_day t =
  inr (map (fun k => (k, sum64 (map engagement (group "day_of_week" k t))))
           (map VStr day_order)).
Proof.
  intros Hd H. unfold engagement_by_day, groupby_sum. rewrite Hd, H.
  unfold default_observed. simpl negb. simpl orb.
  rewrite filter_all by reflexivity. reflexivity.
Qed.

(** The weekday totals of the filtered views of a dataset that has its
    dates, and one column [day_of_week]. *)
Lemma weekday_groups {P : Pandas} (raw : csv) (selected : list value)
  (st : date_state) :
  In "post_date" (map normalize_name (header raw)) ->
  (count_occ string_dec (map normalize_name (header raw)) "day_of_week"
   <= 1)%nat ->
  existsb fatal (snd (load_data raw)) = false ->
  let t := apply_filters (fst (load_data raw)) selected st in
  engagement_by_day t =
  inr (map (fun k => (k, sum64 (map engagement (group "day_of_week" k t))))
           (map VStr day_order)).
Proof.
  intros Hin Hone Hok t.
  assert (Hpd : has_column "post_date" (standardize raw) = true).
  { apply has_column_In. now rewrite standardize_columns. }
  assert (Hd : duplicated "day_of_week" (standardize raw) = false).
  { apply not_duplicated. now rewrite standardize_columns. }
  apply load_data_clean in Hok as [_ Hc].
  apply coerce_rowwise in Hc as (_ & Hcat & _ & _ & _ & _ & _ & Hdup & _).
  apply engagement_by_day_groups.
  - unfold t. now rewrite duplicated_apply_filters, Hdup.
  - unfold t. rewrite (proj2 (apply_filters_columns _ _ _)). now apply Hcat.
Qed.

(** C10, as stated, fails: a table can have its dates, all valid, and no
    weekday totals.  When two of its columns standardise to [day_of_week],
    the load reports nothing, the weekday of every row is left missing, no
    category is declared, and the grouping of line 230 raises. *)
Lemma a_second_weekday_column_leaves_no_totals :
  let t := apply_filters (fst (load_data (P := iso_pandas) twice_weekday_posts))
             [VStr "All"] (mkDateState false PyNone PyNone (0, 0)) in
  In "post_date" (map normalize_name (header twice_weekday_posts))
  /\ existsb fatal (snd (load_data (P := iso_pandas) twice_weekday_posts))
     = false
  /\ map (field "post_date") (rows t) = [VTime (new_year_2024 * ns_per_day)]
  /\ map (field "day_of_week") (rows t) = [VNull]
  /\ assoc "day_of_week" (categories t) = None
  /\ engagement_by_day t = inl (NotASeries "day_of_week").
Proof.
  split; [simpl; auto 10 |].
  repeat split; vm_compute; reflexivity.
Qed.

(** C10, amended.  When the table has a [post_date] column and no more than
    one column that standardises to [day_of_week], and the load does not
    fail, the weekday totals of every filtered view are seven, one for each
    day from Monday to Sunday in that order; each is the 64-bit sum of the
    totals of the rows of that weekday, which is 0 for a weekday on which
    the view has no row.  (The grouping keeps the unobserved categories:
    the default of pandas before 3.0.) *)
Theorem weekday_totals_are_zero_filled {P : Pandas} (raw : csv)
  (selected : list value) (st : date_state) :
  In "post_date" (map normalize_name (header raw)) ->
  (count_occ string_dec (map normalize_name (header raw)) "day_of_week"
   <= 1)%nat ->
  existsb fatal (snd (load_data raw)) = false ->
  let t := apply_filters (fst (load_data raw)) selected st in
  exists g,
    engagement_by_day t = inr g
    /\ map fst g = map VStr day_order
    /\ List.length g = 7%nat
    /\ (forall d z, In (VStr d, z) g ->
          z = sum64 (map engagement (group "day_of_week" (VStr d) t)))
    /\ (forall d, In d day_order ->
          (forall r, In r (rows t) -> field "day_of_week" r <> VStr d) ->
          In (VStr d, 0) g).
Proof.
  intros Hin Hone Hok t.
  pose proof (weekday_groups raw selected st Hin Hone Hok) as Hby.
  fold t in Hby. rewrite Hby. eexists. split; [reflexivity |].
  split; [| split; [| split]].
  - rewrite map_map. simpl. reflexivity.
  - reflexivity.
  - intros d z Hz.
    apply in_map_iff in Hz as (k & Hk & _). now inversion Hk.
  - intros d Hd Hnone.
    apply in_map_iff. exists (VStr d). split; [| now apply in_map].
    f_equal. unfold group.
    replace (filter (fun r => value_eqb (field "day_of_week" r) (VStr d))
               (rows t)) with (@nil row); [reflexivity |].
    symmetry. induction (rows t) as [| r l IH]; simpl; [reflexivity |].
    destruct (value_eqb (field "day_of_week" r) (VStr d)) eqn:E.
    + exfalso. apply (Hnone r); [now left |].
      destruct (field "day_of_week" r) as [s' | | |]; try discriminate.
      simpl in E. apply String.eqb_eq in E. now subst.
    + apply IH. intros r' Hr'. apply Hnone. now right.
Qed.

Lemma weekday_totals_are_zero_filled_witness :
  let t := apply_filters (fst (load_data (P := iso_pandas) two_posts))
             [VStr "All"] (mkDateState false PyNone PyNone (0, 0)) in
  exists g,
    engagement_by_day t = inr g
    /\ map fst g = map VStr day_order
    /\ List.length g = 7%nat
    /\ (forall d z, In (VStr d, z) g ->
          z = sum64 (map engagement (group "day_of_week" (VStr d) t)))
    /\ (forall d, In d day_order ->
          (forall r, In r (rows t) -> field "day_of_week" r <> VStr d) ->
          In (VStr d, 0) g).
Proof.
  apply (weekday_totals_are_zero_filled (P := iso_pandas) two_posts
           [VStr "All"] (mkDateState false PyNone PyNone (0, 0))).
  - simpl. auto 10.
  - vm_compute. lia.
  - reflexivity.
Defined.

(* ================================================================== *)
(** * Further properties of the code *)
(* ================================================================== *)

(** ** Column names *)

Lemma chars_lower (s : string) : chars (lower s) = map lower_char (chars s).
Proof.
  unfold chars. induction s as [| c s IH]; simpl; [reflexivity |].
  now rewrite IH.
Qed.

Lemma chars_append (s1 s2 : string) :
  chars (String.append s1 s2) = chars s1 ++ chars s2.
Proof.
  unfold chars. induction s1 as [| c s1 IH]; simpl; [reflexivity |].
  now rewrite IH.
Qed.

Lemma replace_chars (old : ascii) (new s : string) (c : ascii) :
  In c (chars (replace old new s)) ->
  In c (chars new) \/ (In c (chars s) /\ c <> old).
Proof.
  induction s as [| a s IH]; simpl; [tauto |].
  destruct (Ascii.eqb_spec a old) as [-> | Hne].
  - rewrite chars_append. intros H. apply in_app_or in H as [H | H].
    + now left.
    + destruct (IH H) as [H' | [H' Hc]]; [now left | right].
      split; [now right | exact Hc].
  - intros [<- | H].
    + right. split; [now left | exact Hne].
    + destruct (IH H) as [H' | [H' Hc]]; [now left | right].
      split; [now right | exact Hc].
Qed.

Lemma lower_char_clean (c : ascii) :
  c <> " "%char -> c <> "."%char ->
  lower_char c <> " "%char /\ lower_char c <> "."%char
  /\ lower_char (lower_char c) = lower_char c.
Proof.
  destruct c as [[] [] [] [] [] [] [] []]; intros H1 H2;
    repeat split; solve [vm_compute; discriminate
                        | vm_compute; reflexivity
                        | exfalso; apply H1; reflexivity
                        | exfalso; apply H2; reflexivity].
Qed.

(** X1.  A standardised column name holds no space and no dot, and
    lower-casing it again changes none of its characters: it holds no
    upper-case letter. *)
Theorem normalize_name_is_clean (col : string) (c : ascii) :
  In c (chars (normalize_name col)) ->
  c <> " "%char /\ c <> "."%char /\ lower_char c = c.
Proof.
  unfold normalize_name. rewrite chars_lower. intros H.
  apply in_map_iff in H as (a & <- & Ha).
  apply replace_chars in Ha as [[] | [Ha Hdot]].
  apply replace_chars in Ha as [Ha | [Ha Hsp]].
  - destruct Ha as [<- | []]. repeat split; vm_compute; congruence.
  - apply lower_char_clean; assumption.
Qed.

Lemma normalize_name_is_clean_witness :
  "p"%char <> " "%char /\ "p"%char <> "."%char /\ lower_char "p" = "p"%char.
Proof.
  apply (normalize_name_is_clean " Post.ID " "p"). vm_compute. auto.
Defined.

Lemma replace_noop (old : ascii) (new s : string) :
  ~ In old (chars s) -> replace old new s = s.
Proof.
  unfold chars. induction s as [| a s IH]; simpl; intros H; [reflexivity |].
  destruct (Ascii.eqb_spec a old) as [-> | Hne]; [tauto |].
  f_equal. apply IH. tauto.
Qed.

Lemma replace_keeps (old : ascii) (new s : string) (c : ascii) :
  In c (chars s) -> c <> old -> In c (chars (replace old new s)).
Proof.
  induction s as [| a s IH]; simpl; [tauto |].
  intros [<- | H] Hc.
  - destruct (Ascii.eqb_spec a old); [contradiction | now left].
  - destruct (Ascii.eqb_spec a old).
    + rewrite chars_append. apply in_or_app. right. now apply IH.
    + right. now apply IH.
Qed.

Lemma length_lower (s : string) : String.length (lower s) = String.length s.
Proof. induction s; simpl; congruence. Qed.

Lemma length_replace_one (old c : ascii) (s : string) :
  String.length (replace old (String c EmptyString) s) = String.length s.
Proof.
  induction s as [| a s IH]; simpl; [reflexivity |].
  destruct (Ascii.eqb a old); simpl; now rewrite IH.
Qed.

Lemma length_replace_none (old : ascii) (s : string) :
  (String.length (replace old EmptyString s) <= String.length s)%nat
  /\ (In old (chars s) ->
      (String.length (replace old EmptyString s) < String.length s)%nat).
Proof.
  induction s as [| a s [IH1 IH2]]; simpl; [split; [lia | tauto] |].
  destruct (Ascii.eqb_spec a old) as [-> | Hne]; simpl.
  - split; [lia | intros _; lia].
  - split; [lia |]. intros [H | H]; [congruence |].
    specialize (IH2 H). lia.
Qed.

Lemma lstrip_chars_In (l : list ascii) (c : ascii) :
  (In c (lstrip_chars l) -> In c l)
  /\ (In c l -> isspace c = false -> In c (lstrip_chars l)).
Proof.
  induction l as [| a l [IH1 IH2]]; simpl; [tauto |].
  destruct (isspace a) eqn:Ha; simpl.
  - split; [tauto |]. intros [<- | H] Hc; [congruence | auto].
  - tauto.
Qed.

Lemma chars_strip (s : string) :
  chars (strip s) = rstrip_chars (lstrip_chars (chars s)).
Proof. unfold chars, strip. apply list_ascii_of_string_of_list_ascii. Qed.

Lemma strip_keeps (s : string) (c : ascii) :
  isspace c = false -> (In c (chars (strip s)) <-> In c (chars s)).
Proof.
  intros Hc. rewrite chars_strip. unfold rstrip_chars.
  rewrite <- in_rev. split.
  - intros H. apply (proj1 (lstrip_chars_In _ c)) in H.
    apply in_rev in H. now apply (proj1 (lstrip_chars_In _ c)) in H.
  - intros H. apply (proj2 (lstrip_chars_In _ c)); [| exact Hc].
    rewrite <- in_rev. now apply (proj2 (lstrip_chars_In _ c)).
Qed.

(** X2.  The code standardises a name as its comment says (spaces and dots
    to underscores) exactly when the name holds no dot. *)
Theorem normalize_name_follows_its_comment (col : string) :
  normalize_name col = documented_name col <-> ~ In "."%char (chars col).
Proof.
  unfold normalize_name, documented_name.
  set (x := replace " "%char "_" (strip col)).
  assert (Hdot : In "."%char (chars x) <-> In "."%char (chars col)).
  { unfold x. split.
    - intros H. apply replace_chars in H as [[H | []] | [H _]];
        [discriminate |].
      now apply (strip_keeps col "."%char eq_refl) in H.
    - intros H. apply replace_keeps; [| discriminate].
      now apply (strip_keeps col "."%char eq_refl). }
  split.
  - intros Heq Hin. apply Hdot in Hin.
    apply (f_equal String.length) in Heq.
    rewrite !length_lower, length_replace_one in Heq.
    destruct (length_replace_none "."%char x) as [_ Hlt].
    specialize (Hlt Hin). lia.
  - intros Hno. rewrite <- Hdot in Hno.
    now rewrite !replace_noop.
Qed.

Lemma normalize_name_follows_its_comment_witness :
  normalize_name "Post ID" = documented_name "Post ID".
Proof.
  apply (proj2 (normalize_name_follows_its_comment "Post ID")).
  vm_compute. intuition discriminate.
Defined.

Lemma lstrip_chars_noop (l : list ascii) :
  (forall c, In c l -> isspace c = false) -> lstrip_chars l = l.
Proof.
  destruct l as [| a l]; simpl; [reflexivity |].
  intros H. now rewrite (H a (or_introl eq_refl)).
Qed.

Lemma lower_noop (s : string) :
  (forall c, In c (chars s) -> lower_char c = c) -> lower s = s.
Proof.
  unfold chars. induction s as [| a s IH]; simpl; intros H; [reflexivity |].
  rewrite (H a) by auto. f_equal. apply IH. auto.
Qed.

(** X3.  A name without white space, dots or upper-case letters is left as
    it is. *)
Theorem normalize_name_fixes_clean_names (col : string) :
  (forall c, In c (chars col) ->
             isspace c = false /\ c <> "."%char /\ lower_char c = c) ->
  normalize_name col = col.
Proof.
  intros H.
  assert (Hstrip : strip col = col).
  { unfold strip, rstrip_chars. fold (chars col).
    rewrite (lstrip_chars_noop (chars col)) by (intros c Hc; now apply H).
    rewrite lstrip_chars_noop.
    - rewrite rev_involutive. apply string_of_list_ascii_of_string.
    - intros c Hc. apply in_rev in Hc. now apply H. }
  unfold normalize_name. rewrite Hstrip.
  rewrite (replace_noop " "%char).
  - rewrite replace_noop.
    + apply lower_noop. intros c Hc. now apply H.
    + intros Hc. now apply H in Hc.
  - intros Hc. apply H in Hc as [Hc _]. discriminate.
Qed.

Lemma normalize_name_fixes_clean_names_witness :
  normalize_name "post_id" = "post_id".
Proof.
  apply (normalize_name_fixes_clean_names "post_id").
  intros c Hc. vm_compute in Hc.
  repeat (destruct Hc as [<- | Hc];
          [repeat split; vm_compute; congruence |]).
  contradiction.
Defined.

(** ** The loader: diagnostics and columns *)

Lemma nonfatal_existsb (ds : list diagnostic) :
  Forall (fun d => fatal d = false) ds -> existsb fatal ds = false.
Proof.
  induction 1 as [| d ds Hd _ IH]; simpl; [reflexivity |].
  now rewrite Hd, IH.
Qed.

Section LoaderReport.
Context {P : Pandas}.

Lemma parse_dates_report (df df' : DataFrame) (ds : list diagnostic) :
  parse_dates df = (inr df', ds) ->
  ds = if has_column "post_date" df then []
       else [Warning (ColumnNotFound "post_date")].
Proof.
  unfold parse_dates. destruct (has_column "post_date" df); intros H.
  - apply bind_inr in H as (u & ds1 & ds2 & H1 & H2 & ->).
    apply series_inr in H1 as [_ ->].
    unfold ret in H2. now inversion H2.
  - apply bind_inr in H as (u & ds1 & ds2 & H1 & H2 & ->).
    unfold st_warning in H1. inversion H1; subst.
    unfold ret in H2. now inversion H2.
Qed.

Lemma coerce_metric_report (col : string) (df df' : DataFrame)
  (ds : list diagnostic) :
  coerce_metric col df = (inr df', ds) ->
  ds = if has_column col df then [] else [Warning (ColumnNotFound col)].
Proof.
  unfold coerce_metric. destruct (has_column col df); intros H.
  - apply bind_inr in H as (u & ds1 & ds2 & H1 & H2 & ->).
    apply series_inr in H1 as [_ ->].
    destruct (forallb _ _); [| discriminate].
    unfold ret in H2. now inversion H2.
  - apply bind_inr in H as (u & ds1 & ds2 & H1 & H2 & ->).
    unfold st_warning in H1. inversion H1; subst.
    unfold ret in H2. now inversion H2.
Qed.

(** What a run of [coerce] to its end reports, and the columns it leaves. *)
Lemma coerce_report (df df' : DataFrame) (ds : list diagnostic) :
  has_column "post_id" df = true ->
  coerce df = (inr df', ds) ->
  ds = missing_column_warnings df
  /\ forall c, has_column c df' =
               has_column c df || existsb (String.eqb c) canonical_columns.
Proof.
  unfold coerce. intros Hid H.
  apply bind_inr in H as (d1 & ds1 & ds2 & H1 & H & ->).
  pose proof (parse_dates_report _ _ _ H1) as D1.
  apply parse_dates_inr in H1 as (_ & C1 & _).
  apply bind_inr in H as (d4 & ds3 & ds4 & H2 & H & ->).
  simpl in H2.
  apply bind_inr in H2 as (d2 & ds5 & ds6 & HL & H2 & ->).
  pose proof (coerce_metric_report _ _ _ _ HL) as DL.
  apply coerce_metric_inr in HL as (_ & CL & _).
  apply bind_inr in H2 as (d3 & ds7 & ds8 & HS & H2 & ->).
  pose proof (coerce_metric_report _ _ _ _ HS) as DS.
  apply coerce_metric_inr in HS as (_ & CS & _).
  apply bind_inr in H2 as (d4' & ds9 & ds10 & HC & H2 & ->).
  pose proof (coerce_metric_report _ _ _ _ HC) as DC.
  apply coerce_metric_inr in HC as (_ & CC & _).
  unfold ret in H2. inversion H2; subst d4' ds10; clear H2.
  assert (Col4 : forall c,
             has_column c (total_engagement d4) =
             has_column c df || String.eqb c "post_id"
             || String.eqb c "post_date" || String.eqb c "day_of_week"
             || String.eqb c "day_of_week_num" || String.eqb c "likes"
             || String.eqb c "shares" || String.eqb c "comments"
             || String.eqb c "total_engagement_per_post").
  { intros c. unfold total_engagement.
    rewrite has_column_assign, CC, CS, CL, C1, has_column_transform.
    destruct (String.eqb_spec c "post_id") as [-> |];
      [now rewrite Hid | now rewrite orb_false_r]. }
  rewrite has_column_transform in D1.
  rewrite C1, has_column_transform in DL. simpl in DL.
  rewrite !orb_false_r in DL.
  rewrite CL, C1, has_column_transform in DS. simpl in DS.
  rewrite !orb_false_r in DS.
  rewrite CS, CL, C1, has_column_transform in DC. simpl in DC.
  rewrite !orb_false_r in DC.
  unfold default_content_type in H. rewrite Col4 in H. simpl in H.
  rewrite !orb_false_r in H.
  assert (Hds : ds1 ++ (ds5 ++ ds7 ++ ds9 ++ []) ++
                (if has_column "content_type" df then []
                 else [Warning (ColumnNotFound "content_type")])
                = missing_column_warnings df).
  { subst ds1 ds5 ds7 ds9.
    unfold missing_column_warnings, optional_columns. simpl.
    destruct (has_column "post_date" df), (has_column "likes" df),
      (has_column "shares" df), (has_column "comments" df),
      (has_column "content_type" df); reflexivity. }
  destruct (has_column "content_type" df) eqn:Hct; simpl in H.
  - unfold ret in H. inversion H; subst df' ds4; clear H.
    split; [exact Hds |].
    intros c. rewrite Col4. unfold canonical_columns. simpl.
    destruct (String.eqb_spec c "content_type") as [-> |];
      [now rewrite Hct | now rewrite !orb_false_r, !orb_assoc].
  - inversion H; subst df' ds4; clear H.
    split; [exact Hds |].
    intros c. rewrite has_column_assign, Col4.
    unfold canonical_columns. simpl. now rewrite !orb_false_r, !orb_assoc.
Qed.

End LoaderReport.

(** X4.  A load that does not fail reports exactly the optional columns
    the table lacks, each with one warning, in the order [post_date],
    [likes], [shares], [comments], [content_type]; a table that has them
    all loads silently. *)
Theorem load_data_warns_of_each_missing_column {P : Pandas} (raw : csv) :
  existsb fatal (snd (load_data raw)) = false ->
  snd (load_data raw) = missing_column_warnings (standardize raw).
Proof.
  intros H. apply load_data_clean in H as [Hid H].
  now apply coerce_report in H.
Qed.

Lemma load_data_warns_of_each_missing_column_witness :
  snd (load_data (P := iso_pandas) undated_posts) =
  missing_column_warnings (standardize undated_posts).
Proof.
  apply (load_data_warns_of_each_missing_column (P := iso_pandas)
           undated_posts).
  reflexivity.
Defined.

(** X5.  [load_data] returns all or nothing.  When it reports an error the
    frame it returns is the empty one; when it reports none the frame has
    exactly the standardised columns of the table and the nine columns the
    loader works on. *)
Theorem load_data_is_all_or_nothing {P : Pandas} (raw : csv) :
  (existsb fatal (snd (load_data raw)) = true ->
   fst (load_data raw) = empty_frame)
  /\ (existsb fatal (snd (load_data raw)) = false ->
      forall c, In c (columns (fst (load_data raw))) <->
                In c (map normalize_name (header raw))
                \/ In c canonical_columns).
Proof.
  split.
  - intros H.
    destruct (has_column "post_id" (standardize raw)) eqn:Hid.
    + rewrite (load_data_present raw Hid) in *.
      pose proof (coerce_diagnostics (standardize raw)) as W.
      destruct (coerce (standardize raw)) as [[e | df] ds]; simpl in *;
        [reflexivity |].
      apply nonfatal_existsb in W. congruence.
    + now rewrite (load_data_missing raw Hid).
  - intros H c. apply load_data_clean in H as [Hid H].
    apply coerce_report in H as [_ H]; [| exact Hid].
    rewrite <- has_column_In, H, orb_true_iff, has_column_In.
    rewrite standardize_columns, existsb_exists.
    split; (intros [Hc | Hc]; [now left | right]).
    + destruct Hc as (x & Hx & E). apply String.eqb_eq in E. now subst.
    + exists c. split; [exact Hc | apply String.eqb_refl].
Qed.

Lemma load_data_is_all_or_nothing_witness :
  fst (load_data (P := iso_pandas) dotted_posts) = empty_frame.
Proof.
  apply (proj1 (load_data_is_all_or_nothing (P := iso_pandas) dotted_posts)).
  reflexivity.
Defined.

(** ** The loader: the columns of a canonical row *)

Section CanonicalRows.
Context {P : Pandas}.

Lemma coerce_row_columns (df : DataFrame) (r0 r : row) :
  coerce_row df r0 = Some r ->
  field "post_id" r = VStr (astype_str (field "post_id" r0))
  /\ field "content_type" r =
     (if has_column "content_type" df then field "content_type" r0
      else VStr "Unknown")
  /\ (has_column "post_date" df = true ->
      exists t, field "post_date" r = VTime t
                /\ field "day_of_week" r =
                   (if duplicated "day_of_week" df then VNull
                    else VStr (day_name t))
                /\ field "day_of_week_num" r = VInt (dayofweek t))
  /\ (has_column "post_date" df = false ->
      field "post_date" r = VNull /\ field "day_of_week" r = VNull
      /\ field "day_of_week_num" r = VNull).
Proof.
  unfold coerce_row.
  destruct (dates_row (has_column "post_date" df) (date_column df)
              (duplicated "day_of_week" df) (id_row r0)) as [r1 |] eqn:Hd;
    [| discriminate].
  intros H. inversion H; subst r; clear H.
  assert (Hup : forall c,
             String.eqb "content_type" c = false ->
             String.eqb "total_engagement_per_post" c = false ->
             String.eqb "likes" c = false ->
             String.eqb "shares" c = false ->
             String.eqb "comments" c = false ->
             field c (content_type_row (has_column "content_type" df)
                        (total_row (metrics_row df r1))) = field c r1).
  { intros c E1 E2 E3 E4 E5.
    rewrite field_content_type_row by exact E1.
    unfold total_row, metrics_row.
    rewrite field_set_field, !field_metric_row, E2, E3, E4, E5.
    reflexivity. }
  split; [| split; [| split]].
  - rewrite Hup by reflexivity.
    rewrite (dates_row_other _ _ _ _ _ "post_id" Hd) by reflexivity.
    now rewrite field_id_row.
  - unfold content_type_row.
    destruct (has_column "content_type" df).
    + unfold total_row, metrics_row.
      rewrite field_set_field, !field_metric_row. eqb_names. cbv iota.
      rewrite (dates_row_other _ _ _ _ _ "content_type" Hd) by reflexivity.
      now rewrite field_id_row.
    + now rewrite field_set_field.
  - intros Hp. rewrite Hp, dates_row_present in Hd.
    destruct (to_datetime (date_column df) (field "post_date" (id_row r0)))
      as [t |]; [| discriminate].
    inversion Hd; subst r1; clear Hd. exists t.
    rewrite !Hup by reflexivity.
    rewrite !field_set_field. eqb_names.
    destruct (duplicated "day_of_week" df); auto.
  - intros Hp. rewrite Hp in Hd. simpl in Hd.
    inversion Hd; subst r1; clear Hd.
    rewrite !Hup by reflexivity.
    rewrite !field_set_field. eqb_names. auto.
Qed.

(** The raw row a canonical row comes from. *)
Lemma canonical_row_origin (raw : csv) (r : row) :
  In r (rows (fst (load_data raw))) ->
  exists r0, In r0 (rows (standardize raw)) /\ label r0 = label r
             /\ coerce_row (standardize raw) r0 = Some r.
Proof.
  intros H. apply load_data_rows in H as (r0 & Hin & Hc).
  exists r0. split; [exact Hin |]. split; [| exact Hc].
  apply coerce_row_Some in Hc. symmetry. apply Hc.
Qed.

End CanonicalRows.

(** X6.  The identifier of every canonical row is text: the text of the
    cell of the raw row of the same label.  A row without an identifier is
    not dropped; its identifier becomes the text ["nan"]. *)
Theorem post_id_is_cast_to_text {P : Pandas} (raw : csv) (r : row) :
  In r (rows (fst (load_data raw))) ->
  exists r0,
    In r0 (rows (standardize raw)) /\ label r0 = label r
    /\ field "post_id" r = VStr (astype_str (field "post_id" r0))
    /\ (field "post_id" r0 = VNull -> field "post_id" r = VStr "nan")
    /\ (forall s, field "post_id" r0 = VStr s -> field "post_id" r = VStr s).
Proof.
  intros H. apply canonical_row_origin in H as (r0 & Hin & Hl & Hc).
  apply coerce_row_columns in Hc as (Hid & _).
  exists r0. repeat split; auto.
  - intros E. now rewrite Hid, E.
  - intros s E. now rewrite Hid, E.
Qed.

Lemma post_id_is_cast_to_text_witness :
  let r := nth 2 (rows (fst (load_data (P := iso_pandas) bare_posts)))
             (mkRow 0 []) in
  exists r0,
    In r0 (rows (standardize bare_posts)) /\ label r0 = label r
    /\ field "post_id" r =
       VStr (astype_str (P := iso_pandas) (field "post_id" r0))
    /\ (field "post_id" r0 = VNull -> field "post_id" r = VStr "nan")
    /\ (forall s, field "post_id" r0 = VStr s -> field "post_id" r = VStr s).
Proof.
  apply (post_id_is_cast_to_text (P := iso_pandas) bare_posts).
  vm_compute. auto.
Defined.

(** X7.  In every canonical row [content_type] is the cell of the raw row
    of the same label, unchanged, when the table has that column (a missing
    cell stays missing), and the text ["Unknown"] when it has not. *)
Theorem content_type_is_kept_or_unknown {P : Pandas} (raw : csv) (r : row) :
  In r (rows (fst (load_data raw))) ->
  exists r0,
    In r0 (rows (standardize raw)) /\ label r0 = label r
    /\ (In "content_type" (map normalize_name (header raw)) ->
        field "content_type" r = field "content_type" r0)
    /\ (~ In "content_type" (map normalize_name (header raw)) ->
        field "content_type" r = VStr "Unknown").
Proof.
  intros H. apply canonical_row_origin in H as (r0 & Hin & Hl & Hc).
  apply coerce_row_columns in Hc as (_ & Hct & _).
  exists r0. split; [exact Hin |]. split; [exact Hl |].
  rewrite <- standardize_columns, <- has_column_In.
  destruct (has_column "content_type" (standardize raw));
    split; intros E; congruence.
Qed.

Lemma content_type_is_kept_or_unknown_witness :
  let r := hd (mkRow 0 [])
             (rows (fst (load_data (P := iso_pandas) bare_posts))) in
  exists r0,
    In r0 (rows (standardize bare_posts)) /\ label r0 = label r
    /\ (In "content_type" (map normalize_name (header bare_posts)) ->
        field "content_type" r = field "content_type" r0)
    /\ (~ In "content_type" (map normalize_name (header bare_posts)) ->
        field "content_type" r = VStr "Unknown").
Proof.
  apply (content_type_is_kept_or_unknown (P := iso_pandas) bare_posts).
  vm_compute. auto.
Defined.

Lemma dayofweek_range (t : Z) : 0 <= dayofweek t <= 6.
Proof.
  unfold dayofweek.
  assert (H : 0 <= (date_of t + 3) mod 7 < 7) by (apply Z.mod_pos_bound; lia).
  lia.
Qed.

Lemma day_name_nth (t : Z) :
  nth_error day_order (Z.to_nat (dayofweek t)) = Some (day_name t).
Proof.
  unfold day_name. pose proof (dayofweek_range t) as H.
  assert (Hn : (Z.to_nat (dayofweek t) < 7)%nat) by lia.
  destruct (Z.to_nat (dayofweek t)) as [| [| [| [| [| [| [| n]]]]]]];
    try reflexivity. lia.
Qed.






(** ** The filters: composition *)

Lemma filter_twice {A : Type} (p q : A -> bool) (l : list A) :
  filter p (filter q l) = filter (fun x => q x && p x) l.
Proof.
  induction l as [| x l IH]; simpl; [reflexivity |].
  destruct (q x); simpl; [destruct (p x) |]; now rewrite IH.
Qed.

Lemma has_column_select (c : string) (keep : row -> bool) (df : DataFrame) :
  has_column c (select keep df) = has_column c df.
Proof. reflexivity. Qed.

Lemma filter_content_type_rows (df : DataFrame) (selected : list value) :
  rows (filter_content_type df selected) =
  filter (keeps_type df selected) (rows df).
Proof.
  unfold filter_content_type, keeps_type.
  destruct (has_column "content_type" df); simpl.
  - destruct (isin (VStr "All") selected); simpl.
    + symmetry. apply filter_all. reflexivity.
    + reflexivity.
  - symmetry. apply filter_all. reflexivity.
Qed.

Lemma filter_date_rows (df : DataFrame) (st : date_state) :
  rows (filter_date df st) = filter (keeps_date st) (rows df).
Proof.
  unfold filter_date, keeps_date.
  destruct (date_filter_enabled st && negb (is_none (min_date_data st)));
    simpl.
  - reflexivity.
  - symmetry. apply filter_all. reflexivity.
Qed.

Lemma filter_content_type_frame (df : DataFrame) (selected : list value) :
  filter_content_type df selected =
  mkFrame (columns df) (filter (keeps_type df selected) (rows df))
          (categories df) (datetime64 df).
Proof.
  rewrite <- filter_content_type_rows. unfold filter_content_type.
  destruct (_ && _); [reflexivity | now destruct df].
Qed.

Lemma filter_date_frame (df : DataFrame) (st : date_state) :
  filter_date df st =
  mkFrame (columns df) (filter (keeps_date st) (rows df)) (categories df)
          (datetime64 df).
Proof.
  rewrite <- filter_date_rows. unfold filter_date.
  destruct (_ && _); [reflexivity | now destruct df].
Qed.

Lemma filter_false_all {A : Type} (p : A -> bool) (l : list A) :
  (forall x, In x l -> p x = false) -> filter p l = [].
Proof.
  induction l as [| x l IH]; simpl; intros H; [reflexivity |].
  rewrite (H x) by auto. apply IH. auto.
Qed.

Lemma keeps_type_columns (df : DataFrame) (l : list row)
  (cats : list (string * list string)) (dts : list string)
  (selected : list value) (r : row) :
  keeps_type (mkFrame (columns df) l cats dts) selected r =
  keeps_type df selected r.
Proof. reflexivity. Qed.

Lemma apply_filters_frame (df : DataFrame) (selected : list value)
  (st : date_state) :
  apply_filters df selected st =
  mkFrame (columns df)
          (filter (fun r => keeps_type df selected r && keeps_date st r)
                  (rows df))
          (categories df) (datetime64 df).
Proof.
  unfold apply_filters.
  rewrite filter_date_frame, filter_content_type_frame. simpl.
  now rewrite filter_twice.
Qed.

(** X10.  The two filters compose by conjunction: [df_filtered] has the
    columns of the dataset and holds, in the order of the dataset, exactly
    the rows that pass both the content-type condition and the date
    condition. *)
Theorem filters_compose_by_and (df : DataFrame) (selected : list value)
  (st : date_state) :
  columns (apply_filters df selected st) = columns df
  /\ rows (apply_filters df selected st) =
     filter (fun r => keeps_type df selected r && keeps_date st r) (rows df)
  /\ forall r, In r (rows (apply_filters df selected st)) <->
               In r (rows df) /\ keeps_type df selected r = true
               /\ keeps_date st r = true.
Proof.
  rewrite apply_filters_frame. simpl.
  split; [reflexivity |]. split; [reflexivity |].
  intros r. rewrite filter_In, andb_true_iff. tauto.
Qed.

(** X11.  The order in which the two filters are applied does not matter:
    the date filter after the content-type filter, as the script has them,
    gives the frame that the content-type filter after the date filter
    gives. *)
Theorem filters_commute (df : DataFrame) (selected : list value)
  (st : date_state) :
  filter_date (filter_content_type df selected) st =
  filter_content_type (filter_date df st) selected.
Proof.
  rewrite (filter_date_frame (filter_content_type df selected)).
  rewrite (filter_content_type_frame (filter_date df st)).
  rewrite filter_content_type_frame, filter_date_frame. simpl.
  rewrite !filter_twice. f_equal.
  apply filter_ext. intros r. rewrite keeps_type_columns.
  apply andb_comm.
Qed.

(** X12.  Filtering is idempotent: applying the same selection to
    [df_filtered] again returns [df_filtered]. *)
Theorem apply_filters_is_idempotent (df : DataFrame) (selected : list value)
  (st : date_state) :
  apply_filters (apply_filters df selected st) selected st =
  apply_filters df selected st.
Proof.
  rewrite (apply_filters_frame (apply_filters df selected st)).
  rewrite !apply_filters_frame. simpl. f_equal.
  rewrite filter_twice. apply filter_ext. intros r.
  rewrite keeps_type_columns.
  destruct (keeps_type df selected r), (keeps_date st r); reflexivity.
Qed.

(** ** The script: which screen is shown *)

Section Screens.
Context {P : Pandas}.

Lemma load_data_nonempty (raw : csv) :
  empty (fst (load_data raw)) = false ->
  existsb fatal (snd (load_data raw)) = false.
Proof.
  intros H.
  destruct (has_column "post_id" (standardize raw)) eqn:Hid.
  - rewrite (load_data_present raw Hid) in *.
    pose proof (coerce_diagnostics (standardize raw)) as W.
    destruct (coerce (standardize raw)) as [[e | df] ds]; simpl in *;
      [discriminate |].
    now apply nonfatal_existsb.
  - rewrite (load_data_missing raw Hid) in H. discriminate.
Qed.

Lemma loaded_has_canonical (raw : csv) (c : string) :
  existsb fatal (snd (load_data raw)) = false ->
  In c canonical_columns ->
  has_column c (fst (load_data raw)) = true.
Proof.
  intros H Hc. apply load_data_clean in H as [Hid H].
  apply coerce_report in H as [_ H]; [| exact Hid]. rewrite H.
  apply orb_true_iff. right. apply existsb_exists.
  exists c. split; [exact Hc | apply String.eqb_refl].
Qed.

Lemma load_data_error_empty (raw : csv) :
  existsb fatal (snd (load_data raw)) = true ->
  fst (load_data raw) = empty_frame.
Proof.
  intros H.
  destruct (has_column "post_id" (standardize raw)) eqn:Hid.
  - rewrite (load_data_present raw Hid) in *.
    pose proof (coerce_diagnostics (standardize raw)) as W.
    destruct (coerce (standardize raw)) as [[e | df] ds]; simpl in *;
      [reflexivity |].
    apply nonfatal_existsb in W. congruence.
  - now rewrite (load_data_missing raw Hid).
Qed.

(** A dataset with rows is one that loaded without an error. *)
Lemma loaded_with_rows (raw : csv) :
  rows (fst (load_data raw)) <> [] ->
  existsb fatal (snd (load_data raw)) = false
  /\ empty (fst (load_data raw)) = false.
Proof.
  intros Hrows.
  assert (Hok : existsb fatal (snd (load_data raw)) = false).
  { destruct (existsb fatal (snd (load_data raw))) eqn:F; [| reflexivity].
    rewrite (load_data_error_empty raw F) in Hrows. now elim Hrows. }
  split; [exact Hok |].
  assert (Hc : has_column "post_id" (fst (load_data raw)) = true).
  { apply loaded_has_canonical; [exact Hok |].
    unfold canonical_columns. simpl. auto. }
  unfold has_column in Hc. unfold empty.
  destruct (columns (fst (load_data raw))); [discriminate |].
  destruct (rows (fst (load_data raw))); [congruence | reflexivity].
Qed.

Lemma empty_false (df : DataFrame) :
  empty df = false <-> columns df <> [] /\ rows df <> [].
Proof.
  unfold empty. destruct (columns df), (rows df); split;
    intros H; try discriminate; try tauto; split; discriminate.
Qed.

End Screens.

(** X13.  Selecting no content type at all is not an error of the
    filters: on a dataset that loaded with rows, from a table with a single
    column that standardises to [content_type] or none, an empty selection
    is what the filters are given, and it leaves no row, whatever the date
    controls; the test of line 139 then finds [df_filtered] empty.  (With
    two such columns the script does not come to its filters.) *)
Theorem empty_selection_filters_every_post {P : Pandas} (raw : csv)
  (ui : widgets) (st : date_state) :
  empty (fst (load_data raw)) = false ->
  (count_occ string_dec (map normalize_name (header raw)) "content_type"
   <= 1)%nat ->
  multiselect ui = [] ->
  selected_post_types (fst (load_data raw)) ui = []
  /\ duplicated "content_type" (fst (load_data raw)) = false
  /\ rows (apply_filters (fst (load_data raw))
             (selected_post_types (fst (load_data raw)) ui) st) = []
  /\ empty (apply_filters (fst (load_data raw))
              (selected_post_types (fst (load_data raw)) ui) st) = true.
Proof.
  intros Hne Hone Hsel.
  pose proof (load_data_nonempty raw Hne) as Hok.
  assert (Hct : has_column "content_type" (fst (load_data raw)) = true).
  { apply loaded_has_canonical; [exact Hok |].
    unfold canonical_columns. simpl. auto 10. }
  assert (Hs : selected_post_types (fst (load_data raw)) ui = []).
  { unfold selected_post_types. now rewrite Hct, Hne, Hsel. }
  assert (Hrows : rows (apply_filters (fst (load_data raw)) [] st) = []).
  { rewrite apply_filters_frame. simpl.
    apply filter_false_all. intros r _. unfold keeps_type.
    now rewrite Hct. }
  split; [exact Hs |]. split; [| rewrite Hs; split; [exact Hrows |]].
  - destruct (load_data_clean raw Hok) as [_ Hc].
    apply coerce_rowwise in Hc as (_ & _ & _ & _ & _ & _ & _ & Hdup & _).
    rewrite Hdup. apply not_duplicated. now rewrite standardize_columns.
  - unfold empty. rewrite Hrows.
    now destruct (columns (apply_filters (fst (load_data raw)) [] st)).
Qed.

Lemma empty_selection_filters_every_post_witness :
  rows (apply_filters (fst (load_data (P := iso_pandas) two_posts))
          (selected_post_types (fst (load_data (P := iso_pandas) two_posts))
             (mkWidgets [] false (0, 0)))
          (mkDateState false PyNone PyNone (0, 0))) = [].
Proof.
  apply (fun H1 H2 H3 =>
           proj1 (proj2 (proj2
             (empty_selection_filters_every_post (P := iso_pandas) two_posts
                (mkWidgets [] false (0, 0))
                (mkDateState false PyNone PyNone (0, 0)) H1 H2 H3)))).
  - reflexivity.
  - vm_compute. lia.
  - reflexivity.
Defined.

(** ** The date controls *)

Lemma times_In (c : string) (df : DataFrame) (t : Z) :
  In t (times c df) <-> exists r, In r (rows df) /\ field c r = VTime t.
Proof.
  unfold times. rewrite in_flat_map. split.
  - intros (r & Hr & Ht). exists r. split; [exact Hr |].
    destruct (field c r); simpl in Ht; try contradiction.
    destruct Ht as [-> | []]. reflexivity.
  - intros (r & Hr & Ht). exists r. split; [exact Hr |].
    rewrite Ht. now left.
Qed.

Lemma fold_min_le (l : list Z) (a x : Z) :
  In x (a :: l) -> fold_left Z.min l a <= x.
Proof.
  revert a x. induction l as [| b l IH]; intros a x H; simpl.
  - destruct H as [-> | []]. lia.
  - destruct H as [-> | [-> | H]].
    + etransitivity; [apply IH; left; reflexivity | lia].
    + etransitivity; [apply IH; left; reflexivity | lia].
    + apply IH. now right.
Qed.

Lemma fold_max_ge (l : list Z) (a x : Z) :
  In x (a :: l) -> x <= fold_left Z.max l a.
Proof.
  revert a x. induction l as [| b l IH]; intros a x H; simpl.
  - destruct H as [-> | []]. lia.
  - destruct H as [-> | [-> | H]].
    + etransitivity; [| apply IH; left; reflexivity]. lia.
    + etransitivity; [| apply IH; left; reflexivity]. lia.
    + apply IH. now right.
Qed.

Lemma date_of_mono (a b : Z) : a <= b -> date_of a <= date_of b.
Proof.
  intros H. unfold date_of. apply Z.div_le_mono; [| exact H].
  unfold ns_per_day. lia.
Qed.

(** The bounds of the slider enclose the day of every post. *)
Lemma slider_bounds (df : DataFrame) (lo hi : Z) (r : row) (t : Z) :
  min_date "post_date" df = Date lo ->
  max_date "post_date" df = Date hi ->
  In r (rows df) -> field "post_date" r = VTime t ->
  lo <= date_of t <= hi.
Proof.
  unfold min_date, max_date. intros Hlo Hhi Hr Ht.
  assert (Hin : In t (times "post_date" df)) by (apply times_In; eauto).
  destruct (times "post_date" df) as [| t0 ts]; [discriminate |].
  inversion Hlo; inversion Hhi; subst. split; apply date_of_mono.
  - now apply fold_min_le.
  - now apply fold_max_ge.
Qed.

Section DateControls.
Context {P : Pandas}.

Lemma dated_rows (raw : csv) (r : row) :
  has_column "post_date" (standardize raw) = true ->
  In r (rows (fst (load_data raw))) ->
  exists t, field "post_date" r = VTime t.
Proof.
  intros Hp H. apply canonical_row_origin in H as (r0 & _ & _ & Hc).
  apply coerce_row_columns in Hc as (_ & _ & Hyes & _).
  destruct (Hyes Hp) as (t & Ht & _). eauto.
Qed.

Lemma undated_rows (raw : csv) (r : row) :
  has_column "post_date" (standardize raw) = false ->
  In r (rows (fst (load_data raw))) ->
  field "post_date" r = VNull.
Proof.
  intros Hp H. apply canonical_row_origin in H as (r0 & _ & _ & Hc).
  apply coerce_row_columns in Hc as (_ & _ & _ & Hno).
  now apply Hno.
Qed.

(** The dtype of [post_date] in a dataset that loaded: that of the column
    [pd.to_datetime] returned, or that of the column of [NaT]. *)
Lemma load_data_dtype (raw : csv) :
  existsb fatal (snd (load_data raw)) = false ->
  dtype_datetime "post_date" (fst (load_data raw)) =
  (if has_column "post_date" (standardize raw)
   then datetime64_ns (date_column (standardize raw)) else true).
Proof.
  intros Hok. apply load_data_clean in Hok as [_ Hc].
  now apply coerce_rowwise in Hc.
Qed.

End DateControls.

(** X14.  The slider is drawn from the earliest to the latest day of the
    dataset, and left there it filters nothing: when the dates of the
    dataset have the dtype the script tests for, with the date filter
    enabled and the range at those bounds, [df_filtered] is what the
    content-type filter alone gives.  The dates have that dtype exactly when
    [pd.to_datetime] returned them with it. *)
Theorem full_date_range_keeps_every_post {P : Pandas} (raw : csv)
  (ui : widgets) (selected : list value) (lo hi : Z) :
  In "post_date" (map normalize_name (header raw)) ->
  dtype_datetime "post_date" (fst (load_data raw)) = true ->
  min_date "post_date" (fst (load_data raw)) = Date lo ->
  max_date "post_date" (fst (load_data raw)) = Date hi ->
  checkbox ui = true ->
  slider ui = (lo, hi) ->
  fst (date_controls (fst (load_data raw)) ui) =
    mkDateState true (Date lo) (Date hi) (lo, hi)
  /\ snd (date_controls (fst (load_data raw)) ui) = []
  /\ apply_filters (fst (load_data raw)) selected
       (fst (date_controls (fst (load_data raw)) ui)) =
     filter_content_type (fst (load_data raw)) selected
  /\ datetime64_ns (date_column (standardize raw)) = true.
Proof.
  intros Hin Hdt Hlo Hhi Hcb Hsl.
  assert (Hpd : has_column "post_date" (standardize raw) = true).
  { apply has_column_In. now rewrite standardize_columns. }
  set (df := fst (load_data raw)) in *.
  assert (Htimes : times "post_date" df <> []).
  { unfold min_date in Hlo. now destruct (times "post_date" df). }
  assert (Hrows : rows df <> []).
  { intros E. apply Htimes. unfold times. now rewrite E. }
  destruct (loaded_with_rows raw Hrows) as [Hok Hne]. fold df in Hok, Hne.
  assert (Hcol : has_column "post_date" df = true).
  { apply loaded_has_canonical; [exact Hok |].
    unfold canonical_columns. simpl. auto. }
  assert (Hctl : date_controls df ui =
                 (mkDateState true (Date lo) (Date hi) (lo, hi), [])).
  { unfold date_controls. rewrite Hcol, Hdt, Hcb, Hlo, Hhi, Hsl.
    destruct (rows df); [congruence | reflexivity]. }
  rewrite Hctl. simpl. split; [reflexivity |]. split; [reflexivity |].
  split.
  - unfold apply_filters. rewrite filter_date_frame.
    set (d := filter_content_type df selected).
    rewrite filter_all; [now destruct d |].
    intros r Hr. unfold keeps_date, in_date_range. simpl.
    apply filter_content_type_incl in Hr.
    destruct (dated_rows raw r Hpd Hr) as (t & Ht). rewrite Ht.
    pose proof (slider_bounds df lo hi r t Hlo Hhi Hr Ht) as B.
    apply andb_true_iff. split; apply Z.leb_le; lia.
  - pose proof (load_data_dtype raw Hok) as Hty. fold df in Hty.
    rewrite Hpd, Hdt in Hty. now symmetry.
Qed.

Lemma full_date_range_keeps_every_post_witness :
  apply_filters (fst (load_data (P := iso_pandas) two_posts)) [VStr "All"]
    (fst (date_controls (fst (load_data (P := iso_pandas) two_posts))
            (mkWidgets [VStr "All"] true
               (new_year_2024, new_year_2024 + 1)))) =
  filter_content_type (fst (load_data (P := iso_pandas) two_posts))
    [VStr "All"].
Proof.
  apply (fun H1 H2 H3 H4 H5 H6 =>
           proj1 (proj2 (proj2
             (full_date_range_keeps_every_post (P := iso_pandas)
                two_posts
                (mkWidgets [VStr "All"] true
                   (new_year_2024, new_year_2024 + 1))
                [VStr "All"] new_year_2024 (new_year_2024 + 1)
                H1 H2 H3 H4 H5 H6)))).
  - simpl. auto 10.
  - reflexivity.
  - reflexivity.
  - reflexivity.
  - reflexivity.
  - reflexivity.
Defined.

(** X15.  On a table without a [post_date] column the date filter never
    applies: whatever the widgets hold, the date controls leave the filter
    disabled and [df_filtered] is what the content-type filter alone gives.
    Ticking the checkbox on such a dataset, when it has rows, only shows
    the "invalid dates" warning. *)
Theorem date_filter_needs_dates {P : Pandas} (raw : csv) (ui : widgets)
  (selected : list value) :
  ~ In "post_date" (map normalize_name (header raw)) ->
  date_filter_enabled (fst (date_controls (fst (load_data raw)) ui)) = false
  /\ apply_filters (fst (load_data raw)) selected
       (fst (date_controls (fst (load_data raw)) ui)) =
     filter_content_type (fst (load_data raw)) selected
  /\ (checkbox ui = true -> rows (fst (load_data raw)) <> [] ->
      snd (date_controls (fst (load_data raw)) ui) = [Warning InvalidDates])
  /\ (checkbox ui = false ->
      snd (date_controls (fst (load_data raw)) ui) = []).
Proof.
  intros Hno.
  assert (Hpd : has_column "post_date" (standardize raw) = false).
  { destruct (has_column "post_date" (standardize raw)) eqn:E; [| reflexivity].
    apply has_column_In in E. now rewrite standardize_columns in E. }
  set (df := fst (load_data raw)).
  assert (Hnull : forall r, In r (rows df) -> field "post_date" r = VNull).
  { intros r Hr. now apply (undated_rows raw). }
  assert (Htimes : times "post_date" df = []).
  { unfold times. induction (rows df) as [| r l IH]; simpl; [reflexivity |].
    rewrite (Hnull r) by now left. simpl. apply IH.
    intros r' Hr'. apply Hnull. now right. }
  assert (Hctl : date_controls df ui =
                 if has_column "post_date" df
                    && negb (match rows df with [] => true | _ => false end)
                    && checkbox ui
                 then (mkDateState false NaT NaT (0, 0),
                       [Warning InvalidDates])
                 else (mkDateState false PyNone PyNone (0, 0), [])).
  { destruct (existsb fatal (snd (load_data raw))) eqn:F.
    - unfold df. rewrite (load_data_error_empty raw F). reflexivity.
    - pose proof (load_data_dtype raw F) as Hdt. fold df in Hdt.
      rewrite Hpd in Hdt.
      unfold date_controls, min_date, max_date. rewrite Htimes, Hdt.
      rewrite andb_true_r.
      destruct (has_column "post_date" df && negb _); simpl; [| reflexivity].
      destruct (checkbox ui); reflexivity. }
  assert (Hoff : date_filter_enabled (fst (date_controls df ui)) = false).
  { rewrite Hctl. now destruct (_ && _). }
  split; [exact Hoff |]. split; [| split].
  - unfold apply_filters, filter_date. now rewrite Hoff.
  - intros Hcb Hrows. rewrite Hctl, Hcb.
    destruct (loaded_with_rows raw Hrows) as [Hok Hne].
    assert (Hcol : has_column "post_date" df = true).
    { apply loaded_has_canonical; [exact Hok |].
      unfold canonical_columns. simpl. auto. }
    rewrite Hcol. destruct (rows df); [congruence | reflexivity].
  - intros Hcb. rewrite Hctl, Hcb, andb_false_r. reflexivity.
Qed.

Lemma date_filter_needs_dates_witness :
  snd (date_controls (fst (load_data (P := iso_pandas) bare_posts))
         (mkWidgets [VStr "All"] true (0, 0))) = [Warning InvalidDates].
Proof.
  apply (fun H1 H2 H3 =>
           proj1 (proj2 (proj2 (date_filter_needs_dates (P := iso_pandas)
                                  bare_posts
                                  (mkWidgets [VStr "All"] true (0, 0))
                                  [VStr "All"] H1))) H2 H3).
  - vm_compute. intuition discriminate.
  - reflexivity.
  - discriminate.
Defined.

(** ** The views of the analysis *)

Section FirstMaximum.
Variable key : row -> Z.



End FirstMaximum.

Section ViewFacts.
Context {P : Pandas}.


Lemma chart_rows (raw : csv) (selected : list value) (st : date_state) :
  rows (df_top_posts_for_chart
          (apply_filters (fst (load_data raw)) selected st)) =
  firstn 20 (ranked (rows (apply_filters (fst (load_data raw)) selected st))).
Proof.
  apply nlargest_20_rows.
  intros r Hr. apply apply_filters_incl in Hr.
  destruct (total_engagement_is_number raw r Hr) as (z & Hz).
  unfold is_number. now rewrite Hz.
Qed.


End ViewFacts.



(** X17.  On every filtered view of a dataset that loaded without an
    error, the nine columns the loader works on are present; so, when the
    view has rows, the tests that guard the chart of the top posts (line
    174), the weekday chart (line 229) and the card of the top post (line
    285) all hold: none of these views is replaced by its "required columns
    missing" notice. *)
Theorem view_guards_hold {P : Pandas} (raw : csv) (selected : list value)
  (st : date_state) :
  existsb fatal (snd (load_data raw)) = false ->
  let t := apply_filters (fst (load_data raw)) selected st in
  (forall c, In c canonical_columns -> has_column c t = true)
  /\ (rows t <> [] ->
      has_column "post_id" t
      && forallb (fun c => has_column c t) ["likes"; "shares"; "comments"]
      = true
      /\ has_column "day_of_week" t
         && has_column "total_engagement_per_post" t
         && negb (no_rows t) = true
      /\ has_column "post_id" t
         && has_column "total_engagement_per_post" t
         && negb (empty t) = true).
Proof.
  intros Hok t.
  assert (Hcol : forall c, In c canonical_columns -> has_column c t = true).
  { intros c Hc. unfold has_column, t.
    rewrite (proj1 (apply_filters_columns _ _ _)).
    now apply (loaded_has_canonical raw c Hok). }
  split; [exact Hcol |]. intros Hrows.
  assert (Hne : empty t = false).
  { apply empty_false. split; [| exact Hrows].
    intros E. specialize (Hcol "post_id").
    unfold has_column in Hcol. rewrite E in Hcol.
    unfold canonical_columns in Hcol. simpl in Hcol.
    specialize (Hcol (or_introl eq_refl)). discriminate. }
  assert (Hnr : no_rows t = false).
  { unfold no_rows. destruct (rows t); [congruence | reflexivity]. }
  cbn [forallb].
  rewrite !Hcol by (unfold canonical_columns; simpl; auto 10).
  rewrite Hne, Hnr. simpl. auto.
Qed.

Lemma view_guards_hold_witness :
  let t := apply_filters (fst (load_data (P := iso_pandas) two_posts))
             [VStr "All"] (mkDateState false PyNone PyNone (0, 0)) in
  has_column "day_of_week" t = true.
Proof.
  apply (fun H Hc =>
           proj1 (view_guards_hold (P := iso_pandas) two_posts [VStr "All"]
                    (mkDateState false PyNone PyNone (0, 0)) H)
                 "day_of_week" Hc).
  - reflexivity.
  - simpl. auto.
Defined.

(** ** Sums *)

Lemma wrap64_add_r (a b : Z) : wrap64 (a + wrap64 b) = wrap64 (a + b).
Proof. rewrite Z.add_comm, wrap64_add_l. f_equal. lia. Qed.

Lemma wrap64_idem (a : Z) : wrap64 (wrap64 a) = wrap64 a.
Proof. apply wrap64_small, wrap64_int64. Qed.

Lemma fold_sum64 (l : list Z) (a : Z) :
  fold_left (fun x z => wrap64 (x + z)) l (wrap64 a) =
  wrap64 (a + fold_right Z.add 0 l).
Proof.
  revert a. induction l as [| z l IH]; intros a; simpl.
  - f_equal. lia.
  - rewrite wrap64_add_l, IH. f_equal. lia.
Qed.

(** The [int64] sum is the sum, reduced once. *)
Lemma sum64_wrap (l : list Z) : sum64 l = wrap64 (fold_right Z.add 0 l).
Proof.
  unfold sum64. change 0 with (wrap64 0) at 1. now rewrite fold_sum64.
Qed.


Lemma wrap64_sum_groups {K : Type} (g : K -> list Z) (ks : list K) :
  wrap64 (fold_right Z.add 0 (map (fun k => sum64 (g k)) ks)) =
  wrap64 (fold_right Z.add 0
            (map (fun k => fold_right Z.add 0 (g k)) ks)).
Proof.
  induction ks as [| k ks IH]; simpl; [reflexivity |].
  rewrite sum64_wrap, wrap64_add_l, <- wrap64_add_r, IH, wrap64_add_r.
  reflexivity.
Qed.

(** Groups that are pairwise disjoint share out the sum of the rows that
    belong to one of them. *)
Lemma group_sums_partition {K : Type} (belongs : K -> row -> bool)
  (f : row -> Z) (ks : list K) (l : list row) :
  NoDup ks ->
  (forall r k k', belongs k r = true -> belongs k' r = true -> k = k') ->
  fold_right Z.add 0
    (map (fun k => fold_right Z.add 0 (map f (filter (belongs k) l))) ks) =
  fold_right Z.add 0
    (map f (filter (fun r => existsb (fun k => belongs k r) ks) l)).
Proof.
  intros Hnd Huniq. induction Hnd as [| k ks Hk Hnd IH]; simpl.
  - rewrite filter_false_all by reflexivity. reflexivity.
  - rewrite IH. clear IH.
    induction l as [| r l IHl]; simpl; [reflexivity |].
    destruct (belongs k r) eqn:Ek; simpl.
    + assert (Hnone : existsb (fun k0 => belongs k0 r) ks = false).
      { destruct (existsb (fun k0 => belongs k0 r) ks) eqn:E; [| reflexivity].
        apply existsb_exists in E as (k' & Hin & Hb).
        rewrite (Huniq r k k' Ek Hb) in Hk. contradiction. }
      rewrite Hnone. lia.
    + destruct (existsb (fun k0 => belongs k0 r) ks); simpl; lia.
Qed.

(** The sum of the groups, in [int64], is the [int64] sum of the rows that
    belong to a group. *)
Lemma sum64_groups {K : Type} (belongs : K -> row -> bool) (f : row -> Z)
  (ks : list K) (l : list row) :
  NoDup ks ->
  (forall r k k', belongs k r = true -> belongs k' r = true -> k = k') ->
  sum64 (map (fun k => sum64 (map f (filter (belongs k) l))) ks) =
  sum64 (map f (filter (fun r => existsb (fun k => belongs k r) ks) l)).
Proof.
  intros Hnd Huniq. rewrite !sum64_wrap.
  rewrite (wrap64_sum_groups (fun k => map f (filter (belongs k) l))).
  now rewrite group_sums_partition.
Qed.

Lemma value_eqb_eq (a b : value) : value_eqb a b = true <-> a = b.
Proof.
  destruct a, b; simpl; split; intros H; try discriminate; try reflexivity;
    try (apply String.eqb_eq in H; now subst);
    try (apply Z.eqb_eq in H; now subst);
    inversion H; subst;
    try apply String.eqb_refl; apply Z.eqb_refl.
Qed.

Lemma day_order_NoDup : NoDup (map VStr day_order).
Proof.
  unfold day_order. simpl.
  repeat (constructor; [simpl; intuition discriminate |]). constructor.
Qed.



(** X18.  The weekday chart accounts for every post once: when the table
    has a [post_date] column and no more than one column that standardises
    to [day_of_week], and the load does not fail, the seven weekday totals
    of a filtered view add up, in 64-bit arithmetic, to the sum of
    [total_engagement_per_post] over the view. *)
Theorem weekday_totals_add_up {P : Pandas} (raw : csv)
  (selected : list value) (st : date_state) :
  In "post_date" (map normalize_name (header raw)) ->
  (count_occ string_dec (map normalize_name (header raw)) "day_of_week"
   <= 1)%nat ->
  existsb fatal (snd (load_data raw)) = false ->
  exists g,
    engagement_by_day (apply_filters (fst (load_data raw)) selected st)
    = inr g
    /\ sum64 (map snd g) =
       column_sum "total_engagement_per_post"
         (apply_filters (fst (load_data raw)) selected st).
Proof.
  intros Hin Hone Hok.
  pose proof (weekday_groups raw selected st Hin Hone Hok) as Hby.
  cbv zeta in Hby.
  set (t := apply_filters (fst (load_data raw)) selected st) in *.
  assert (Hpd : has_column "post_date" (standardize raw) = true).
  { apply has_column_In. now rewrite standardize_columns. }
  assert (Hd : duplicated "day_of_week" (standardize raw) = false).
  { apply not_duplicated. now rewrite standardize_columns. }
  rewrite Hby. eexists. split; [reflexivity |].
  rewrite map_map. cbn [snd].
  unfold group, column_sum.
  rewrite (sum64_groups (fun k r => value_eqb (field "day_of_week" r) k)).
  - rewrite filter_all; [reflexivity |].
    intros r Hr. apply existsb_exists.
    apply apply_filters_incl in Hr.
    apply canonical_row_origin in Hr as (r0 & _ & _ & Hc).
    apply coerce_row_columns in Hc as (_ & _ & Hyes & _).
    destruct (Hyes Hpd) as (t0 & _ & Hdw & _). rewrite Hd in Hdw.
    exists (VStr (day_name t0)). split.
    + apply in_map. eapply nth_error_In. apply day_name_nth.
    + now apply value_eqb_eq.
  - apply day_order_NoDup.
  - intros r k k' H1 H2. apply value_eqb_eq in H1, H2. congruence.
Qed.

Lemma weekday_totals_add_up_witness :
  exists g,
    engagement_by_day
      (apply_filters (fst (load_data (P := iso_pandas) undated_posts))
         [VStr "All"] (mkDateState false PyNone PyNone (0, 0)))
    = inr g
    /\ sum64 (map snd g) =
       column_sum "total_engagement_per_post"
         (apply_filters (fst (load_data (P := iso_pandas) undated_posts))
            [VStr "All"] (mkDateState false PyNone PyNone (0, 0))).
Proof.
  apply (weekday_totals_add_up (P := iso_pandas) undated_posts [VStr "All"]
           (mkDateState false PyNone PyNone (0, 0))).
  - simpl. auto 10.
  - vm_compute. lia.
  - reflexivity.
Defined.


(** ** Engagement over time *)

Lemma insert_day_In (d x : Z) (l : list Z) :
  In x (insert_day d l) <-> x = d \/ In x l.
Proof.
  induction l as [| d' l IH]; simpl; [intuition |].
  destruct (Z.eqb_spec d d') as [-> |]; [simpl; intuition |].
  destruct (d <? d'); simpl; [intuition |].
  rewrite IH. intuition.
Qed.

Lemma insert_day_sorted (d : Z) (l : list Z) :
  StronglySorted Z.lt l -> StronglySorted Z.lt (insert_day d l).
Proof.
  induction 1 as [| d' l Hs IH Hd]; simpl.
  - repeat constructor.
  - destruct (Z.eqb_spec d d') as [-> | Hne]; [now constructor |].
    destruct (d <? d') eqn:E.
    + apply Z.ltb_lt in E. constructor; [now constructor |].
      constructor; [exact E |].
      eapply Forall_impl; [| exact Hd]. intros z Hz. lia.
    + apply Z.ltb_ge in E. constructor; [exact IH |].
      apply Forall_forall. intros z Hz. apply insert_day_In in Hz.
      destruct Hz as [-> | Hz]; [lia |].
      rewrite Forall_forall in Hd. now apply Hd.
Qed.

Lemma days_present_sorted (df : DataFrame) :
  StronglySorted Z.lt (days_present df).
Proof.
  unfold days_present.
  induction (map date_of (times "post_date" df)) as [| d l IH]; simpl.
  - constructor.
  - now apply insert_day_sorted.
Qed.

Lemma days_present_In (df : DataFrame) (d : Z) :
  In d (days_present df) <-> exists r, In r (rows df) /\ on_day d r = true.
Proof.
  unfold days_present.
  assert (H : forall l, In d (fold_right insert_day [] l) <-> In d l).
  { induction l as [| x l IH]; simpl; [tauto |].
    rewrite insert_day_In, IH. intuition. }
  rewrite H, in_map_iff. split.
  - intros (t & <- & Ht). apply times_In in Ht as (r & Hr & Hf).
    exists r. split; [exact Hr |]. unfold on_day. rewrite Hf.
    apply Z.eqb_refl.
  - intros (r & Hr & Hd). unfold on_day in Hd.
    destruct (field "post_date" r) as [| | t |] eqn:Hf; try discriminate.
    exists t. split; [now apply Z.eqb_eq |].
    apply times_In. eauto.
Qed.

Lemma sorted_lt_NoDup (l : list Z) : StronglySorted Z.lt l -> NoDup l.
Proof.
  induction 1 as [| d l Hs IH Hd]; constructor; [| exact IH].
  intros Hin. rewrite Forall_forall in Hd. specialize (Hd d Hin). lia.
Qed.

(** X20.  The line of engagement over time has one point for each day on
    which the view has a post, the days in chronological order and each
    once; a post without a date belongs to no day; and the points add up,
    in 64-bit arithmetic, to the total engagement of the posts that have a
    date. *)
Theorem daily_engagement_is_chronological (df : DataFrame) :
  StronglySorted Z.lt (map fst (df_daily_engagement df))
  /\ (forall d, In d (map fst (df_daily_engagement df)) <->
                exists r, In r (rows df) /\ on_day d r = true)
  /\ sum64 (map snd (df_daily_engagement df)) =
     sum64 (map engagement
              (filter (fun r => is_time (field "post_date" r)) (rows df))).
Proof.
  assert (Hfst : map fst (df_daily_engagement df) = days_present df).
  { unfold df_daily_engagement. rewrite map_map. cbn [fst]. apply map_id. }
  rewrite Hfst. split; [apply days_present_sorted |].
  split; [apply days_present_In |].
  unfold df_daily_engagement. rewrite map_map. cbn [snd].
  rewrite (sum64_groups on_day).
  - f_equal. f_equal. apply filter_ext_in. intros r Hr.
    destruct (existsb (fun k => on_day k r) (days_present df)) eqn:E.
    + apply existsb_exists in E as (d & _ & Hd). unfold on_day in Hd.
      now destruct (field "post_date" r).
    + destruct (field "post_date" r) as [| | t |] eqn:Hf; try reflexivity.
      assert (Hon : on_day (date_of t) r = true).
      { unfold on_day. rewrite Hf. apply Z.eqb_refl. }
      assert (Hin : In (date_of t) (days_present df)).
      { apply days_present_In. exists r. auto. }
      assert (Hex : existsb (fun k => on_day k r) (days_present df) = true).
      { apply existsb_exists. exists (date_of t). auto. }
      congruence.
  - apply sorted_lt_NoDup, days_present_sorted.
  - intros r k k' H1 H2. unfold on_day in *.
    destruct (field "post_date" r); try discriminate.
    apply Z.eqb_eq in H1, H2. congruence.
Qed.

(** ** Engagement by content type *)

Lemma string_compare_trans (s1 s2 s3 : string) :
  String.compare s1 s2 <> Gt -> String.compare s2 s3 <> Gt ->
  String.compare s1 s3 <> Gt.
Proof.
  revert s2 s3. induction s1 as [| c1 s1 IH]; intros [| c2 s2] [| c3 s3];
    simpl; try congruence.
  unfold Ascii.compare.
  destruct (N.compare_spec (N_of_ascii c1) (N_of_ascii c2)) as [E12 | L12 | G12];
    destruct (N.compare_spec (N_of_ascii c2) (N_of_ascii c3)) as [E23 | L23 | G23];
    try congruence; intros H1 H2.
  - rewrite E12, E23, N.compare_refl. now apply (IH s2).
  - rewrite E12. apply N.compare_lt_iff in L23. now rewrite L23.
  - rewrite <- E23. apply N.compare_lt_iff in L12. now rewrite L12.
  - assert (L : (N_of_ascii c1 < N_of_ascii c3)%N) by lia.
    apply N.compare_lt_iff in L. now rewrite L.
Qed.

Lemma string_leb_trans (s1 s2 s3 : string) :
  String.leb s1 s2 = true -> String.leb s2 s3 = true ->
  String.leb s1 s3 = true.
Proof.
  unfold String.leb. intros H1 H2.
  pose proof (string_compare_trans s1 s2 s3) as T.
  destruct (String.compare s1 s2); try discriminate;
    destruct (String.compare s2 s3); try discriminate;
    destruct (String.compare s1 s3); try reflexivity;
    exfalso; apply T; congruence.
Qed.

Lemma value_leb_trans (a b c : value) :
  value_leb a b = true -> value_leb b c = true -> value_leb a c = true.
Proof.
  destruct a, b, c; simpl; intros H1 H2; try discriminate; try reflexivity.
  - now apply (string_leb_trans s s0 s1).
  - apply Z.leb_le in H1, H2. apply Z.leb_le. lia.
  - apply Z.leb_le in H1, H2. apply Z.leb_le. lia.
Qed.

Lemma value_leb_antisym (a b : value) :
  value_leb a b = true -> value_leb b a = true -> a = b.
Proof.
  destruct a, b; simpl; intros H1 H2; try discriminate; try reflexivity.
  - f_equal. now apply String.leb_antisym.
  - apply Z.leb_le in H1, H2. f_equal. lia.
  - apply Z.leb_le in H1, H2. f_equal. lia.
Qed.

Lemma value_leb_total (a b : value) :
  value_leb a b = false -> value_leb b a = true.
Proof.
  destruct a, b; simpl; intros H; try discriminate; try reflexivity.
  - destruct (String.leb_total s s0); congruence.
  - apply Z.leb_gt in H. apply Z.leb_le. lia.
  - apply Z.leb_gt in H. apply Z.leb_le. lia.
Qed.

Lemma insert_key_In (k x : value) (l : list value) :
  In x (insert_key k l) <-> x = k \/ In x l.
Proof.
  induction l as [| k' l IH]; simpl; [intuition |].
  destruct (value_eqb k k') eqn:E.
  - apply value_eqb_eq in E. subst. simpl. intuition.
  - destruct (value_leb k k'); simpl; [intuition |].
    rewrite IH. intuition.
Qed.

Lemma insert_key_sorted (k : value) (l : list value) :
  StronglySorted (fun a b => value_leb a b = true /\ a <> b) l ->
  StronglySorted (fun a b => value_leb a b = true /\ a <> b)
                 (insert_key k l).
Proof.
  induction 1 as [| k' l Hs IH Hk]; simpl.
  - repeat constructor.
  - destruct (value_eqb k k') eqn:E; [now constructor |].
    assert (Hne : k <> k').
    { intros ->. assert (value_eqb k' k' = true) by now apply value_eqb_eq.
      congruence. }
    destruct (value_leb k k') eqn:L.
    + constructor; [now constructor |].
      constructor; [now split |].
      eapply Forall_impl; [| exact Hk]. intros z [Hz1 Hz2]. split.
      * now apply (value_leb_trans k k' z).
      * intros ->. apply Hne. now apply value_leb_antisym.
    + apply value_leb_total in L. constructor; [exact IH |].
      apply Forall_forall. intros z Hz. apply insert_key_In in Hz.
      destruct Hz as [-> | Hz]; [split; congruence |].
      rewrite Forall_forall in Hk. now apply Hk.
Qed.

Lemma observed_keys_sorted (c : string) (df : DataFrame) :
  StronglySorted (fun a b => value_leb a b = true /\ a <> b)
                 (observed_keys c df).
Proof.
  unfold observed_keys.
  induction (filter _ _) as [| k l IH]; simpl; [constructor |].
  now apply insert_key_sorted.
Qed.

Lemma observed_keys_NoDup (c : string) (df : DataFrame) :
  NoDup (observed_keys c df).
Proof.
  induction (observed_keys_sorted c df) as [| k l Hs IH Hk];
    constructor; [| exact IH].
  intros Hin. rewrite Forall_forall in Hk. destruct (Hk k Hin). congruence.
Qed.

Lemma observed_keys_In (c : string) (df : DataFrame) (k : value) :
  In k (observed_keys c df) <->
  k <> VNull /\ exists r, In r (rows df) /\ field c r = k.
Proof.
  unfold observed_keys.
  assert (H : forall l, In k (fold_right insert_key [] l) <-> In k l).
  { induction l as [| x l IH]; simpl; [tauto |].
    rewrite insert_key_In, IH. intuition. }
  rewrite H, filter_In, in_map_iff. split.
  - intros [(r & <- & Hr) Hn]. split; [| eauto].
    intros E. now rewrite E in Hn.
  - intros [Hn (r & Hr & <-)]. split; [eauto |].
    now destruct (field c r).
Qed.

Section PlainDtypes.
Context {P : Pandas}.

Lemma parse_dates_plain (df df' : DataFrame) (ds : list diagnostic) :
  parse_dates df = (inr df', ds) ->
  assoc "content_type" (categories df') =
  assoc "content_type" (categories df).
Proof.
  unfold parse_dates. destruct (has_column "post_date" df); intros H.
  - apply bind_inr in H as (u & ds1 & ds2 & H1 & H2 & ->).
    unfold ret in H2. inversion H2; subst; clear H2.
    destruct (duplicated "day_of_week" _).
    + rewrite !categories_assign.
      rewrite !assoc_remove_key by reflexivity.
      unfold dropna, select, set_datetime64. cbn [categories].
      rewrite categories_assign. now rewrite assoc_remove_key by reflexivity.
    + unfold as_categorical.
      cbn [categories assoc]. eqb_names.
      rewrite !categories_assign.
      rewrite !assoc_remove_key by reflexivity.
      unfold dropna, select, set_datetime64. cbn [categories].
      rewrite categories_assign. now rewrite assoc_remove_key by reflexivity.
  - apply bind_inr in H as (u & ds1 & ds2 & H1 & H2 & ->).
    unfold ret in H2. inversion H2; subst; clear H2.
    rewrite !categories_assign. unfold set_datetime64. cbn [categories].
    rewrite categories_assign.
    now rewrite !assoc_remove_key by reflexivity.
Qed.

Lemma assoc_remove_same {A : Type} (c : string) (l : list (string * A)) :
  assoc c (remove_key c l) = None.
Proof.
  induction l as [| [k a] l IH]; simpl; [reflexivity |].
  destruct (String.eqb_spec c k) as [-> |]; simpl; [exact IH |].
  destruct (String.eqb_spec c k); [congruence | exact IH].
Qed.

(** [load_data] leaves [content_type] with a plain dtype. *)
Lemma content_type_is_plain (raw : csv) :
  assoc "content_type" (categories (fst (load_data raw))) = None.
Proof.
  destruct (has_column "post_id" (standardize raw)) eqn:Hid.
  - rewrite (load_data_present raw Hid).
    destruct (coerce (standardize raw)) as [[e | df] ds] eqn:Hc; simpl;
      [reflexivity |].
    unfold coerce in Hc.
    apply bind_inr in Hc as (d1 & ds1 & ds2 & H1 & H & ->).
    apply parse_dates_plain in H1.
    apply bind_inr in H as (d4 & ds3 & ds4 & H2 & H & ->).
    simpl in H2.
    apply bind_inr in H2 as (d2 & ds5 & ds6 & HL & H2 & ->).
    apply coerce_metric_inr in HL as (_ & _ & _ & KL & _).
    apply bind_inr in H2 as (d3 & ds7 & ds8 & HS & H2 & ->).
    apply coerce_metric_inr in HS as (_ & _ & _ & KS & _).
    apply bind_inr in H2 as (d4' & ds9 & ds10 & HC & H2 & ->).
    apply coerce_metric_inr in HC as (_ & _ & _ & KC & _).
    unfold ret in H2. inversion H2; subst d4' ds10; clear H2.
    assert (K4 : assoc "content_type" (categories (total_engagement d4))
                 = None).
    { unfold total_engagement. rewrite categories_assign, KC, KS, KL.
      rewrite !assoc_remove_key by reflexivity. rewrite H1.
      unfold transform. cbn [categories].
      rewrite assoc_remove_key by reflexivity.
      reflexivity. }
    unfold default_content_type in H.
    destruct (negb (has_column "content_type" (total_engagement d4))).
    + apply bind_inr in H as (u & dsa & dsb & Ha & Hb & ->).
      unfold ret in Hb. inversion Hb; subst.
      rewrite categories_assign. apply assoc_remove_same.
    + unfold ret in H. inversion H; subst. exact K4.
  - now rewrite (load_data_missing raw Hid).
Qed.

End PlainDtypes.

(** X21.  For each of [likes], [shares] and [comments], the breakdown by
    content type has one total for each content type present in the view,
    each once; a post whose content type is missing is counted under no
    content type; and the totals add up, in 64-bit arithmetic, to the sum
    of the metric over the posts that have a content type -- over all the
    posts of the view when none lacks one. *)
Theorem category_totals_add_up {P : Pandas} (raw : csv)
  (selected : list value) (st : date_state) (c : string) :
  In c ["likes"; "shares"; "comments"] ->
  let t := apply_filters (fst (load_data raw)) selected st in
  let g := groupby_sum default_observed "content_type" c t in
  In (c, g) (df_type_engagement t)
  /\ NoDup (map fst g)
  /\ (forall k, In k (map fst g) <->
                k <> VNull
                /\ exists r, In r (rows t) /\ field "content_type" r = k)
  /\ sum64 (map snd g) =
     sum64 (map (number c)
              (filter (fun r => negb (isna (field "content_type" r)))
                      (rows t)))
  /\ ((forall r, In r (rows t) -> field "content_type" r <> VNull) ->
      sum64 (map snd g) = column_sum c t).
Proof.
  intros Hc t g.
  assert (Hplain : assoc "content_type" (categories t) = None).
  { unfold t. rewrite (proj2 (apply_filters_columns _ _ _)).
    apply content_type_is_plain. }
  assert (Hg : g = map (fun k => (k, sum64 (map (number c)
                                             (group "content_type" k t))))
                       (observed_keys "content_type" t)).
  { unfold g, groupby_sum. now rewrite Hplain. }
  assert (Hfst : map fst g = observed_keys "content_type" t).
  { rewrite Hg, map_map. cbn [fst]. apply map_id. }
  assert (Hsum : sum64 (map snd g) =
                 sum64 (map (number c)
                          (filter (fun r => negb (isna (field "content_type" r)))
                                  (rows t)))).
  { rewrite Hg, map_map. cbn [snd]. unfold group.
    rewrite (sum64_groups (fun k r => value_eqb (field "content_type" r) k)).
    - f_equal. f_equal. apply filter_ext_in. intros r Hr.
      destruct (existsb _ _) eqn:E.
      + apply existsb_exists in E as (k & Hk & Hb).
        apply value_eqb_eq in Hb. apply observed_keys_In in Hk as [Hk _].
        rewrite Hb. now destruct k.
      + destruct (isna (field "content_type" r)) eqn:N; [reflexivity |].
        assert (Hin : In (field "content_type" r)
                         (observed_keys "content_type" t)).
        { apply observed_keys_In. split; [| eauto].
          intros E'. now rewrite E' in N. }
        assert (Hex : existsb (fun k => value_eqb (field "content_type" r) k)
                        (observed_keys "content_type" t) = true).
        { apply existsb_exists. exists (field "content_type" r).
          split; [exact Hin | now apply value_eqb_eq]. }
        congruence.
    - apply observed_keys_NoDup.
    - intros r k k' H1 H2. apply value_eqb_eq in H1, H2. congruence. }
  split; [| split; [| split; [| split]]].
  - unfold df_type_engagement. fold g.
    destruct Hc as [<- | [<- | [<- | []]]]; simpl; auto.
  - rewrite Hfst. apply observed_keys_NoDup.
  - intros k. rewrite Hfst. apply observed_keys_In.
  - exact Hsum.
  - intros Hall. rewrite Hsum. unfold column_sum.
    rewrite filter_all; [reflexivity |].
    intros r Hr. specialize (Hall r Hr).
    now destruct (field "content_type" r).
Qed.

Lemma category_totals_add_up_witness :
  let t := apply_filters (fst (load_data (P := iso_pandas) untyped_posts))
             [VStr "All"] (mkDateState false PyNone PyNone (0, 0)) in
  let g := groupby_sum default_observed "content_type" "likes" t in
  sum64 (map snd g) =
  sum64 (map (number "likes")
           (filter (fun r => negb (isna (field "content_type" r)))
                   (rows t))).
Proof.
  apply (fun H =>
           proj1 (proj2 (proj2 (proj2
             (category_totals_add_up (P := iso_pandas) untyped_posts
                [VStr "All"] (mkDateState false PyNone PyNone (0, 0))
                "likes" H))))).
  simpl. auto.
Defined.

(** ** Index labels and the size of the chart *)


(** X23.  The chart of the top posts has as many bars as the view has
    posts, up to 20; a view of 20 posts or fewer is charted whole, its
    posts reordered only. *)
Theorem chart_size {P : Pandas} (raw : csv) (selected : list value)
  (st : date_state) :
  let t := apply_filters (fst (load_data raw)) selected st in
  List.length (rows (df_top_posts_for_chart t)) =
  Nat.min 20 (List.length (rows t))
  /\ ((List.length (rows t) <= 20)%nat ->
      Permutation (rows (df_top_posts_for_chart t)) (rows t)).
Proof.
  intros t. unfold t. rewrite chart_rows. fold t.
  pose proof (ranked_perm (rows t)) as Hp.
  split.
  - rewrite length_firstn. f_equal. now apply Permutation_length.
  - intros Hle. rewrite firstn_all2; [exact Hp |].
    rewrite (Permutation_length Hp). exact Hle.
Qed.

Lemma chart_size_witness :
  let t := apply_filters (fst (load_data (P := iso_pandas) two_posts))
             [VStr "All"] (mkDateState false PyNone PyNone (0, 0)) in
  Permutation (rows (df_top_posts_for_chart (P := iso_pandas) t)) (rows t).
Proof.
  apply (fun H =>
           proj2 (chart_size (P := iso_pandas) two_posts [VStr "All"]
                    (mkDateState false PyNone PyNone (0, 0))) H).
  vm_compute. lia.
Defined.

(** ** Metrics that are not finite *)

(** X24.  A metric that is not finite stops the load.  In a load that does
    not fail, [pd.to_numeric] has found no infinite value in any of the
    columns [likes], [shares] and [comments] of the table, among the rows
    that the dates have left.  A table with the text [inf] for a [likes] is
    answered by the empty frame and the error of the cast, after the
    warning for the dates it lacks. *)
Theorem infinite_metric_aborts_the_load {P : Pandas} (raw : csv) (m : string)
  (v : value) :
  existsb fatal (snd (load_data raw)) = false ->
  In m engagement_cols ->
  In m (map normalize_name (header raw)) ->
  In v (metric_column m (standardize raw)) ->
  to_numeric (metric_column m (standardize raw)) v <> Infinite
  /\ load_data (P := iso_pandas) infinite_posts =
     (empty_frame,
      [Warning (ColumnNotFound "post_date");
       Error (LoadFailure (IntCastingNaN "likes"))]).
Proof.
  intros Hok Hm Hin Hv. split; [| reflexivity].
  assert (Hcol : has_column m (standardize raw) = true).
  { apply has_column_In. now rewrite standardize_columns. }
  apply load_data_clean in Hok as [_ Hc].
  apply coerce_rowwise in Hc as (_ & _ & _ & _ & _ & _ & Hcast & _).
  specialize (Hcast m Hm Hcol). rewrite forallb_forall in Hcast.
  specialize (Hcast v Hv). unfold castable, cast in Hcast.
  intros E. rewrite E in Hcast. discriminate.
Qed.

Lemma infinite_metric_aborts_the_load_witness :
  In (VInt 10) (metric_column (P := iso_pandas) "likes"
                  (standardize two_posts))
  /\ @to_numeric iso_pandas (metric_column (P := iso_pandas) "likes"
                               (standardize two_posts)) (VInt 10)
     <> Infinite.
Proof.
  split; [vm_compute; auto |].
  apply (fun H1 H2 H3 H4 =>
           proj1 (infinite_metric_aborts_the_load (P := iso_pandas) two_posts
                    "likes" (VInt 10) H1 H2 H3 H4)).
  - reflexivity.
  - simpl. auto.
  - simpl. auto.
  - vm_compute. auto.
Defined.
